(** * The definition deployer: reconciling workflow definitions against a registry

    A shallow embedding of [src/lambda/definitionDeployerLambda.ts]: the retry
    policy around [registerWorkflowVersion], the per-key reconciler
    [deployWorkflows] and the lifecycle [handler].

    The program talks to three collaborators that are not part of the
    repository: object storage, the secret store and the workflow registry
    (through the client returned by [getApiClient]).  They are the fields of
    the class [Runtime], over an abstract state [Remote] of the outside world.
    An asynchronous function is a function from that state to a [Run]: what it
    returned or threw, the state it left behind, and the remote calls it made,
    in order.

    Console output is not modelled.  JavaScript numbers are modelled by
    integers (attempt counts, milliseconds, HTTP statuses).  The built-ins
    [JSON.parse], [Number] and [String.prototype.toUpperCase] are fields of
    [Runtime] as well.  Thrown values and environment variables have the
    types that the annotations and casts of the source give them. *)

From Stdlib Require Import String Ascii List ZArith Bool Lia DecimalString.
Import ListNotations.
Local Open Scope string_scope.
Local Open Scope Z_scope.
Set Warnings "-register-all".

(** ** Values *)

(** What [JSON.parse] produces. *)
Inductive Json : Type :=
| JNull
| JBool (b : bool)
| JNum (n : Z)
| JStr (s : string)
| JArr (items : list Json)
| JObj (fields : list (string * Json)).

(** A value that is thrown and is not an object ([null] included: it is
    falsy, which is all the code asks of it). *)
Inductive Primitive : Type :=
| PUndefined
| PNull
| PBool (b : bool)
| PNumber (n : Z)
| PString (s : string).

(** [$metadata?: { httpStatusCode?: number }] *)
Record Metadata : Type := mkMetadata { httpStatusCode : option Z }.

(** A thrown object, with the properties the program reads, typed as the
    casts of the source type them.  [metadata] is [$metadata] and [fault] is
    [$fault]; [instanceofError] says whether the object is an [Error]. *)
Record ErrorObject : Type := mkErrorObject {
  instanceofError : bool;
  message : option string;
  errorType : option string;
  metadata : option Metadata;
  statusCode : option Z;
  fault : option string
}.

Inductive Thrown : Type :=
| ThrownPrimitive (p : Primitive)
| ThrownObject (o : ErrorObject).

(** [new Error(msg)] *)
Definition newError (msg : string) : Thrown :=
  ThrownObject {| instanceofError := true; message := Some msg; errorType := None;
                  metadata := None; statusCode := None; fault := None |}.

(** [err.message] on an object: an own property, or the empty string that
    [Error.prototype] provides, or [undefined]. *)
Definition getMessage (o : ErrorObject) : option string :=
  match message o with
  | Some m => Some m
  | None => if instanceofError o then Some EmptyString else None
  end.

(** [String(value)] on a value that is not an object. *)
Definition String_ (p : Primitive) : string :=
  match p with
  | PUndefined => "undefined"
  | PNull => "null"
  | PBool true => "true"
  | PBool false => "false"
  | PNumber n => NilZero.string_of_int (Z.to_int n)
  | PString s => s
  end.

(** [s.includes(search)] *)
Fixpoint includes (s search : string) : bool :=
  if prefix search s then true
  else match s with
       | EmptyString => false
       | String _ rest => includes rest search
       end.

(** [value === other] on values that are a string or [undefined]. *)
Definition strictEq (a b : option string) : bool :=
  match a, b with
  | Some x, Some y => String.eqb x y
  | None, None => true
  | _, _ => false
  end.

(** Truthiness of a parsed value or [undefined]. *)
Definition truthy (v : option Json) : bool :=
  match v with
  | None | Some JNull | Some (JBool false) => false
  | Some (JNum n) => negb (n =? 0)
  | Some (JStr s) => negb (String.eqb s EmptyString)
  | Some (JBool true) | Some (JArr _) | Some (JObj _) => true
  end.

Fixpoint lookupField (name : string) (fields : list (string * Json)) : option Json :=
  match fields with
  | [] => None
  | (k, v) :: rest => if String.eqb k name then Some v else lookupField name rest
  end.

(** [value?.workflowName]; the keys of a parsed object are distinct. *)
Definition getWorkflowName (definitionJson : Json) : option Json :=
  match definitionJson with
  | JObj fields => lookupField "workflowName" fields
  | _ => None
  end.

(** ** The registry's records, the remote calls and the lifecycle contract *)

Record Workflow : Type := mkWorkflow { workflowId : string; name : string }.

Record RegisterWorkflowVersionInput : Type := mkRegisterWorkflowVersionInput {
  organizationId : string;
  payloadWorkflowId : string;
  definition : string
}.

(** One remote call, as a mock of the three collaborators would record it. *)
Inductive Call : Type :=
| GetSecretValue (secretName : string)
| GetObject (bucket key : string)
| ListWorkflows (org : string)
| RegisterWorkflow (org : string) (workflowName : Json)
| RegisterWorkflowVersion (payload : RegisterWorkflowVersionInput)
| GetTaggedWorkflowVersion (org wfId tag : string)
| SetWorkflowVersionTag (org wfId tag versionId : string)
| Sleep (ms : Z).

Definition isStorageCall (c : Call) : bool :=
  match c with GetObject _ _ => true | _ => false end.

Definition isRegistryCall (c : Call) : bool :=
  match c with
  | ListWorkflows _ | RegisterWorkflow _ _ | RegisterWorkflowVersion _
  | GetTaggedWorkflowVersion _ _ _ | SetWorkflowVersionTag _ _ _ _ => true
  | _ => false
  end.

Definition isRemoteWork (c : Call) : bool := isStorageCall c || isRegistryCall c.

Definition isRegisterAttempt (c : Call) : bool :=
  match c with RegisterWorkflowVersion _ => true | _ => false end.

Definition isSetTag (c : Call) : bool :=
  match c with SetWorkflowVersionTag _ _ _ _ => true | _ => false end.

Definition isSleep (c : Call) : bool :=
  match c with Sleep _ => true | _ => false end.

(** The number of [registerWorkflowVersion] calls among [cs]. *)
Definition attempts (cs : list Call) : nat := length (filter isRegisterAttempt cs).

(** The waits among [cs], in order. *)
Definition delays (cs : list Call) : list Z :=
  flat_map (fun c => match c with Sleep ms => [ms] | _ => [] end) cs.

Inductive CfnRequestType : Type := Create | Update | Delete.

Definition requestTypeText (t : CfnRequestType) : string :=
  match t with Create => "Create" | Update => "Update" | Delete => "Delete" end.

Record CloudFormationCustomResourceEvent : Type := mkEvent { RequestType : CfnRequestType }.

Record ResponseData : Type := mkData {
  Message : string;
  PlaceholderTokenDetected : option string;
  FailureIgnored : option string;
  Error : option string
}.

Record Response : Type := mkResponse { PhysicalResourceId : string; Data : ResponseData }.

(** [process.env] *)
Record ProcessEnv : Type := mkEnv {
  DEFINITION_BUCKET : option string;
  ORGANIZATION_ID : option string;
  AUTH_SECRET_NAME : option string;
  DEFINITION_KEYS_JSON : option string;
  IGNORE_FAILURES : option string;
  REGISTER_WORKFLOW_VERSION_MAX_ATTEMPTS : option string;
  REGISTER_WORKFLOW_VERSION_BASE_DELAY_MS : option string
}.

(** What [Number(value)] returns.  Finite numbers are whole numbers here: a
    setting with a fractional part is outside this development, and every
    statement about the settings says which whole numbers it is about. *)
Inductive JsNumber : Type := NaN | PosInfinity | NegInfinity | Finite (n : Z).

Definition PLACEHOLDER_TOKEN : string := "REPLACE_ME_WITH_JUST_WORKFLOW_IT_AUTH_TOKEN".

Definition LIVE : string := "$LIVE".

(** [value || fallback] on an environment variable. *)
Definition orElse (value : option string) (fallback : string) : string :=
  match value with
  | Some EmptyString | None => fallback
  | Some s => s
  end.

(** ** Asynchronous computations over the outside world *)

Inductive Outcome (A : Type) : Type :=
| Returned (a : A)
| Threw (e : Thrown).
Arguments Returned {A} a.
Arguments Threw {A} e.

Record Run (Remote A : Type) : Type := mkRun {
  outcome : Outcome A;
  final : Remote;
  calls : list Call
}.
Arguments mkRun {Remote A} _ _ _.
Arguments outcome {Remote A} _.
Arguments final {Remote A} _.
Arguments calls {Remote A} _.

Definition Async (Remote A : Type) : Type := Remote -> Run Remote A.

(** The answer of a collaborator and the state it leaves. *)
Definition Answer (Remote A : Type) : Type := Remote -> (Thrown + A) * Remote.

(** The collaborators and the built-ins of the JavaScript runtime that the
    program relies on.  [api_*] is the client returned by [getApiClient]. *)
Class Runtime (Remote : Type) : Type := {
  process_env : ProcessEnv;
  Number_ : option string -> JsNumber;
  JSON_parse : string -> Thrown + Json;
  (** [JSON.parse] at the type [string[]] that the handler gives its result. *)
  JSON_parse_keys : string -> Thrown + list string;
  toUpperCase : string -> string;
  secrets_getSecretValue : string -> Answer Remote (option string);
  (** [s3.send(new GetObjectCommand(..))] followed by [streamToString]. *)
  s3_getObjectText : string -> string -> Answer Remote string;
  api_listWorkflows : string -> Answer Remote (list Workflow);
  api_registerWorkflow : string -> Json -> Answer Remote string;
  api_registerWorkflowVersion : RegisterWorkflowVersionInput -> Answer Remote string;
  api_getTaggedWorkflowVersion : string -> string -> string -> Answer Remote string;
  api_setWorkflowVersionTag : string -> string -> string -> string -> Answer Remote unit;
  (** The outside world while the program waits. *)
  elapse : Z -> Remote -> Remote
}.

Section Program.

Context {Remote : Type} `{RT : Runtime Remote}.

Definition ret {A} (a : A) : Async Remote A :=
  fun r => mkRun (Returned a) r [].

Definition throw {A} (e : Thrown) : Async Remote A :=
  fun r => mkRun (Threw e) r [].

Definition bind {A B} (m : Async Remote A) (k : A -> Async Remote B) : Async Remote B :=
  fun r =>
    let x := m r in
    match outcome x with
    | Returned a => let y := k a (final x) in mkRun (outcome y) (final y) (calls x ++ calls y)
    | Threw e => mkRun (Threw e) (final x) (calls x)
    end.

(** [try { m } catch (err) { handler err }] *)
Definition tryCatch {A} (m : Async Remote A) (handler : Thrown -> Async Remote A)
  : Async Remote A :=
  fun r =>
    let x := m r in
    match outcome x with
    | Returned a => x
    | Threw e => let y := handler e (final x) in mkRun (outcome y) (final y) (calls x ++ calls y)
    end.

(** One awaited remote call. *)
Definition request {A} (c : Call) (answer : Answer Remote A) : Async Remote A :=
  fun r =>
    match answer r with
    | (inr a, r') => mkRun (Returned a) r' [c]
    | (inl e, r') => mkRun (Threw e) r' [c]
    end.

(** A synchronous step that may throw. *)
Definition lift {A} (v : Thrown + A) : Async Remote A :=
  match v with
  | inr a => ret a
  | inl e => throw e
  end.

End Program.

Declare Scope async_scope.
Delimit Scope async_scope with async.
Notation "x <- m ;; k" := (bind m (fun x => k))
  (at level 100, m at next level, right associativity) : async_scope.
Notation "m ;; k" := (bind m (fun _ => k))
  (at level 100, right associativity) : async_scope.
Notation "' pat <- m ;; k" := (bind m (fun x => match x with pat => k end))
  (at level 100, pat pattern, m at next level, right associativity) : async_scope.
Local Open Scope async_scope.

(** ** The retry policy (lines 11-86) *)

(** [err.$metadata?.httpStatusCode] *)
Definition metadataStatus (o : ErrorObject) : option Z :=
  match metadata o with
  | Some m => httpStatusCode m
  | None => None
  end.

(** Lines 35-52. *)
Definition shouldRetryRegister (err : Thrown) : bool :=
  match err with
  | ThrownPrimitive _ => false
  | ThrownObject o =>
      match metadataStatus o with
      | Some status => status >=? 500
      | None =>
          match statusCode o with
          | Some fallbackStatus => fallbackStatus >=? 500
          | None => strictEq (fault o) (Some "server")
          end
      end
  end.

(** The classification as the specification words it: a status of at least
    500 in the primary field; failing a primary field, in the fallback field;
    failing both, a fault indicator equal to [server]. *)
Inductive SpecRetryable : Thrown -> Prop :=
| retryable_primary o status :
    metadataStatus o = Some status -> 500 <= status -> SpecRetryable (ThrownObject o)
| retryable_fallback o status :
    metadataStatus o = None -> statusCode o = Some status -> 500 <= status ->
    SpecRetryable (ThrownObject o)
| retryable_fault o :
    metadataStatus o = None -> statusCode o = None -> fault o = Some "server" ->
    SpecRetryable (ThrownObject o).

(** The errors of the live read that stand for the absence of a live
    version, in words: an object whose type is [NotFoundError], or whose
    message contains [No version tagged] or [No version found]. *)
Inductive SaysNoLiveVersion : Thrown -> Prop :=
| says_not_found o :
    errorType o = Some "NotFoundError" -> SaysNoLiveVersion (ThrownObject o)
| says_by_message o m pre phrase post :
    getMessage o = Some m -> m = pre ++ phrase ++ post ->
    phrase = "No version tagged" \/ phrase = "No version found" ->
    SaysNoLiveVersion (ThrownObject o).

Definition exhausted : Thrown :=
  newError "registerWorkflowVersionWithRetry exhausted attempts unexpectedly".

Section Reconciler.

Context {Remote : Type} `{RT : Runtime Remote}.

(** Lines 11-14. *)
Definition parseNumberEnv (value : option string) (fallback : Z) : Z :=
  match Number_ value with
  | Finite parsed => parsed
  | _ => fallback
  end.

Definition DEFAULT_REGISTER_ATTEMPTS : Z :=
  parseNumberEnv (REGISTER_WORKFLOW_VERSION_MAX_ATTEMPTS process_env) 3.

Definition DEFAULT_REGISTER_BASE_DELAY_MS : Z :=
  parseNumberEnv (REGISTER_WORKFLOW_VERSION_BASE_DELAY_MS process_env) 1000.

Definition sleep (ms : Z) : Async Remote unit :=
  fun r => mkRun (Returned tt) (elapse ms r) [Sleep ms].

(** The loop of lines 68-83 from [attempt] on, and line 85 when the loop is
    left.  [fuel] bounds the iterations that remain. *)
Fixpoint registerLoop (maxAttempts baseDelayMs : Z) (payload : RegisterWorkflowVersionInput)
    (fuel : nat) (attempt : Z) : Async Remote string :=
  match fuel with
  | O => throw exhausted
  | S fuel' =>
      if attempt <=? maxAttempts then
        tryCatch
          (request (RegisterWorkflowVersion payload) (api_registerWorkflowVersion payload))
          (fun err =>
             if (attempt >=? maxAttempts) || negb (shouldRetryRegister err) then throw err
             else
               let delay := baseDelayMs * 2 ^ (attempt - 1) in
               sleep delay ;;
               registerLoop maxAttempts baseDelayMs payload fuel' (attempt + 1))
      else throw exhausted
  end.

(** Lines 60-86.  The loop runs [attempt] from 1 to [maxAttempts], so
    [maxAttempts] iterations are all it can take. *)
Definition registerWorkflowVersionWithRetry (payload : RegisterWorkflowVersionInput)
    (workflowName : Json) : Async Remote string :=
  let maxAttempts := Z.max 1 DEFAULT_REGISTER_ATTEMPTS in
  let baseDelayMs := Z.max 0 DEFAULT_REGISTER_BASE_DELAY_MS in
  registerLoop maxAttempts baseDelayMs payload (Z.to_nat maxAttempts) 1.

(** ** The reconciler (lines 88-170) *)

Definition typeErrorNotAFunction : Thrown :=
  newError "workflowName.toUpperCase is not a function".

(** Lines 107-109: [workflows.find(w => w.name.toUpperCase() === workflowName.toUpperCase())].
    The callback runs on the first element at the earliest, and throws there
    when [workflowName] is not a string. *)
Definition findMatchingWorkflow (workflows : list Workflow) (workflowName : Json)
  : Thrown + option Workflow :=
  match workflows with
  | [] => inr None
  | _ :: _ =>
      match workflowName with
      | JStr n =>
          inr (find (fun w => String.eqb (toUpperCase (name w)) (toUpperCase n)) workflows)
      | _ => inl typeErrorNotAFunction
      end
  end.

(** The error of line 103; the quotation marks are the character 34. *)
Definition missingWorkflowName (key : string) : Thrown :=
  let quote := String (ascii_of_nat 34) EmptyString in
  newError ("File " ++ key ++ " — missing " ++ quote ++ "workflowName" ++ quote).

(** Lines 97-104: fetch the blob, parse it, read its [workflowName]. *)
Definition readDefinition (bucket key : string) : Async Remote (string * Json) :=
  definitionStr <- request (GetObject bucket key) (s3_getObjectText bucket key) ;;
  definitionJson <- lift (JSON_parse definitionStr) ;;
  let workflowName := getWorkflowName definitionJson in
  match workflowName with
  | Some wn =>
      if truthy workflowName then ret (definitionStr, wn)
      else throw (missingWorkflowName key)
  | None => throw (missingWorkflowName key)
  end.

(** Lines 106-124: the id of the workflow the definition belongs to. *)
Definition findOrCreateWorkflow (organizationId : string) (workflowName : Json)
  : Async Remote string :=
  workflows <- request (ListWorkflows organizationId) (api_listWorkflows organizationId) ;;
  matchingWorkflow <- lift (findMatchingWorkflow workflows workflowName) ;;
  match matchingWorkflow with
  | None =>
      request (RegisterWorkflow organizationId workflowName)
              (api_registerWorkflow organizationId workflowName)
  | Some w => ret (workflowId w)
  end.

(** The test of line 145 on what the live-version read threw. *)
Definition noLiveVersionYet (err : Thrown) : bool :=
  match err with
  | ThrownPrimitive _ => false
  | ThrownObject o =>
      strictEq (errorType o) (Some "NotFoundError")
      || match getMessage o with
         | Some m => includes m "No version tagged" || includes m "No version found"
         | None => false
         end
  end.

(** Lines 136-150: the version id that is live, or [None] for [null]. *)
Definition readLiveVersion (organizationId workflowId : string) : Async Remote (option string) :=
  tryCatch
    (live <- request (GetTaggedWorkflowVersion organizationId workflowId LIVE)
                     (api_getTaggedWorkflowVersion organizationId workflowId LIVE) ;;
     ret (Some live))
    (fun err => if noLiveVersionYet err then ret None else throw err).

(** Lines 152-162: skip, or set the live tag. *)
Definition promote (organizationId workflowId : string) (live : option string)
    (registered : string) : Async Remote unit :=
  if strictEq live (Some registered) then ret tt
  else request (SetWorkflowVersionTag organizationId workflowId LIVE registered)
               (api_setWorkflowVersionTag organizationId workflowId LIVE registered).

(** The body of the loop of lines 95-169, for one key. *)
Definition deployKey (organizationId bucket key : string) : Async Remote unit :=
  tryCatch
    ('(definitionStr, workflowName) <- readDefinition bucket key ;;
     workflowId <- findOrCreateWorkflow organizationId workflowName ;;
     registered <- registerWorkflowVersionWithRetry
                     (mkRegisterWorkflowVersionInput organizationId workflowId definitionStr)
                     workflowName ;;
     live <- readLiveVersion organizationId workflowId ;;
     promote organizationId workflowId live registered)
    (fun err => throw err).

(** Lines 88-170. *)
Fixpoint deployWorkflows (organizationId bucket : string) (keys : list string)
  : Async Remote unit :=
  match keys with
  | [] => ret tt
  | key :: rest =>
      deployKey organizationId bucket key ;;
      deployWorkflows organizationId bucket rest
  end.

(** ** The lifecycle handler (lines 172-242) *)

Definition PHYSICAL_RESOURCE_ID : string := "JustWorkflowItIntegrationTrigger".

Definition skippedResponse (t : CfnRequestType) : Response :=
  mkResponse PHYSICAL_RESOURCE_ID
    (mkData ("Skipped " ++ requestTypeText t ++ " - placeholder token detected")
            (Some "true") None None).

(** Line 225: [error instanceof Error ? error.message : String(error)]. *)
Definition errorText (error : Thrown) : option string :=
  match error with
  | ThrownObject o => if instanceofError o then getMessage o else Some "[object Object]"
  | ThrownPrimitive p => Some (String_ p)
  end.

Definition ignoredResponse (t : CfnRequestType) (error : Thrown) : Response :=
  mkResponse PHYSICAL_RESOURCE_ID
    (mkData (requestTypeText t ++ " completed with ignored failures")
            None (Some "true") (errorText error)).

Definition ranResponse (t : CfnRequestType) : Response :=
  mkResponse PHYSICAL_RESOURCE_ID
    (mkData ("Ran " ++ requestTypeText t ++ " successfully") None None None).

(** [!value] on an environment variable, with the error thrown when it holds. *)
Definition required (value : option string) (msg : string) : Async Remote string :=
  match value with
  | Some EmptyString | None => throw (newError msg)
  | Some s => ret s
  end.

(** Lines 210-241: what follows the bootstrap gate. *)
Definition dispatch (t : CfnRequestType) (organizationId bucket : string)
    (keys : list string) (ignoreFailures : bool) : Async Remote Response :=
  match t with
  | Create | Update =>
      match keys with
      | [] => ret (ranResponse t)
      | _ :: _ =>
          tryCatch
            (deployWorkflows organizationId bucket keys ;; ret (ranResponse t))
            (fun error =>
               if ignoreFailures then ret (ignoredResponse t error) else throw error)
      end
  | Delete => ret (ranResponse t)
  end.

(** Lines 172-242. *)
Definition handler (event : CloudFormationCustomResourceEvent) : Async Remote Response :=
  let t := RequestType event in
  keys <- lift (JSON_parse_keys (orElse (DEFINITION_KEYS_JSON process_env) "[]")) ;;
  let ignoreFailures := strictEq (IGNORE_FAILURES process_env) (Some "true") in
  bucket <- required (DEFINITION_BUCKET process_env)
                     "Missing S3 bucket from environment variables" ;;
  organizationId <- required (ORGANIZATION_ID process_env)
                             "Missing organization ID from environment variables" ;;
  authSecretName <- required (AUTH_SECRET_NAME process_env)
                             "Missing auth secret name from environment variables" ;;
  authToken <- request (GetSecretValue authSecretName) (secrets_getSecretValue authSecretName) ;;
  if strictEq authToken (Some PLACEHOLDER_TOKEN) then ret (skippedResponse t)
  else dispatch t organizationId bucket keys ignoreFailures.

End Reconciler.

(** ** What the reconciler expects of its collaborators

    The registry and the bucket are the only durable stores.  For one
    organization and one key, [stored] is the text kept under the key,
    [listed] the workflows of the organization and [liveOf] the version that
    is live for a workflow; [versionIdOf] is the version id that the registry
    gives a payload, a function of its content. *)

Section Laws.

Context {Remote : Type} `{RT : Runtime Remote}.

Variables (organizationId bucket key : string).
Variable stored : Remote -> option string.
Variable listed : Remote -> list Workflow.
Variable liveOf : Remote -> string -> option string.
Variable versionIdOf : RegisterWorkflowVersionInput -> string.

(** Nothing that is stored, listed or live has changed from [r] to [r']. *)
Definition undisturbed (r r' : Remote) : Prop :=
  stored r' = stored r /\ listed r' = listed r /\ forall wfId, liveOf r' wfId = liveOf r wfId.

Record WellBehaved : Prop := {
  (** Reading the blob changes nothing and returns the text that is stored. *)
  storage_reads : forall r res r',
    s3_getObjectText bucket key r = (res, r') ->
    undisturbed r r' /\ forall text, res = inr text -> stored r = Some text;
  (** Listing changes nothing and returns the workflows. *)
  registry_lists : forall r res r',
    api_listWorkflows organizationId r = (res, r') ->
    undisturbed r r' /\ forall ws, res = inr ws -> ws = listed r;
  (** A workflow that is created has a string for a name and is listed last. *)
  registry_creates : forall n r id r',
    api_registerWorkflow organizationId n r = (inr id, r') ->
    stored r' = stored r /\
    exists s, n = JStr s /\ listed r' = (listed r ++ [mkWorkflow id s])%list;
  (** Version ids are determined by the content registered. *)
  registry_versions : forall payload r res r',
    api_registerWorkflowVersion payload r = (res, r') ->
    undisturbed r r' /\ forall v, res = inr v -> v = versionIdOf payload;
  (** Reading the live version changes nothing, returns the live version, and
      reports that there is none only when there is none. *)
  registry_reads_live : forall wfId r res r',
    api_getTaggedWorkflowVersion organizationId wfId LIVE r = (res, r') ->
    undisturbed r r' /\
    match res with
    | inr v => liveOf r wfId = Some v
    | inl e => noLiveVersionYet e = true -> liveOf r wfId = None
    end;
  (** Setting the live tag makes the version live and changes nothing else
      that matters to the key. *)
  registry_sets_live : forall wfId v r r',
    api_setWorkflowVersionTag organizationId wfId LIVE v r = (inr tt, r') ->
    stored r' = stored r /\ listed r' = listed r /\ liveOf r' wfId = Some v;
  (** Nobody else writes while the program waits. *)
  waiting : forall ms r, undisturbed r (elapse ms r)
}.

End Laws.

(** ** An in-memory outside world

    A storage bucket, a secret and a registry with content-addressed version
    ids, used to run the program on concrete inputs. *)

Module Demo.

Record World : Type := mkWorld {
  secret : option string;
  objects : list (string * string);
  registry : list Workflow;
  liveTags : list (string * string)
}.

Fixpoint lookup (k : string) (l : list (string * string)) : option string :=
  match l with
  | [] => None
  | (k', v) :: rest => if String.eqb k' k then Some v else lookup k rest
  end.

Definition upperAscii (c : ascii) : ascii :=
  let n := nat_of_ascii c in
  if (Nat.leb 97 n && Nat.leb n 122)%bool then ascii_of_nat (n - 32) else c.

Fixpoint asciiUpper (s : string) : string :=
  match s with
  | EmptyString => EmptyString
  | String c rest => String (upperAscii c) (asciiUpper rest)
  end.

Definition quoted (s : string) : string :=
  let quote := String (ascii_of_nat 34) EmptyString in
  quote ++ s ++ quote.

(** The text of a definition whose [workflowName] is the string [n]. *)
Definition definitionNamed (n : string) : string :=
  "{" ++ quoted "workflowName" ++ ":" ++ quoted n ++ "}".

(** The text of a definition whose [workflowName] is the number 5. *)
Definition definitionNumbered : string :=
  "{" ++ quoted "workflowName" ++ ":5}".

Definition syntaxError : Thrown :=
  ThrownObject {| instanceofError := true; message := Some "Unexpected token";
                  errorType := None; metadata := None; statusCode := None; fault := None |}.

(** [JSON.parse] on the documents used below; anything else is malformed. *)
Definition parse (s : string) : Thrown + Json :=
  if String.eqb s (definitionNamed "billing") then inr (JObj [("workflowName", JStr "billing")])
  else if String.eqb s (definitionNamed "orders") then inr (JObj [("workflowName", JStr "orders")])
  else if String.eqb s definitionNumbered then inr (JObj [("workflowName", JNum 5)])
  else if String.eqb s "{}" then inr (JObj [])
  else inl syntaxError.

Definition threeKeys : string :=
  "[" ++ quoted "a.json" ++ "," ++ quoted "b.json" ++ "," ++ quoted "c.json" ++ "]".

Definition parseKeys (s : string) : Thrown + list string :=
  if String.eqb s "[]" then inr []
  else if String.eqb s threeKeys then inr ["a.json"; "b.json"; "c.json"]
  else if String.eqb s ("[" ++ quoted "a.json" ++ "]") then inr ["a.json"]
  else inl syntaxError.

Definition number (value : option string) : JsNumber :=
  match value with
  | None => NaN
  | Some s =>
      if String.eqb s EmptyString then Finite 0
      else if String.eqb s "1" then Finite 1
      else if String.eqb s "3" then Finite 3
      else if String.eqb s "250" then Finite 250
      else NaN
  end.

Definition serviceError (type msg : string) (status : Z) : Thrown :=
  ThrownObject {| instanceofError := true; message := Some msg; errorType := Some type;
                  metadata := Some (mkMetadata (Some status)); statusCode := None;
                  fault := None |}.

Definition unavailable : Thrown := serviceError "InternalServerError" "Service unavailable" 503.

Definition badRequest : Thrown := serviceError "ValidationError" "Invalid request" 400.

Definition noSuchKey : Thrown := serviceError "NoSuchKey" "The specified key does not exist." 404.

Definition notFound : Thrown := serviceError "NotFoundError" "No version tagged $LIVE" 404.

Definition setLive (wfId versionId : string) (tags : list (string * string))
  : list (string * string) :=
  (wfId, versionId) :: tags.

Definition accessDenied : Thrown :=
  serviceError "AccessDeniedException" "Not authorized to read the secret" 400.

(** What the secret store, [registerWorkflowVersion] and
    [getTaggedWorkflowVersion] always throw, when given. *)
Record Faults : Type := mkFaults {
  secretFault : option Thrown;
  versionFault : option Thrown;
  liveFault : option Thrown
}.

Definition noFaults : Faults := mkFaults None None None.

Definition runtime (env : ProcessEnv) (faults : Faults) : Runtime World := {|
  process_env := env;
  Number_ := number;
  JSON_parse := parse;
  JSON_parse_keys := parseKeys;
  toUpperCase := asciiUpper;
  secrets_getSecretValue := fun _ w =>
    match secretFault faults with
    | Some e => (inl e, w)
    | None => (inr (secret w), w)
    end;
  s3_getObjectText := fun _ key w =>
    match lookup key (objects w) with
    | Some text => (inr text, w)
    | None => (inl noSuchKey, w)
    end;
  api_listWorkflows := fun _ w => (inr (registry w), w);
  api_registerWorkflow := fun _ workflowName w =>
    match workflowName with
    | JStr n =>
        let id := "wf-" ++ n in
        (inr id, mkWorld (secret w) (objects w) (registry w ++ [mkWorkflow id n]) (liveTags w))
    | _ => (inl badRequest, w)
    end;
  api_registerWorkflowVersion := fun payload w =>
    match versionFault faults with
    | Some e => (inl e, w)
    | None => (inr ("sha-" ++ definition payload), w)
    end;
  api_getTaggedWorkflowVersion := fun _ wfId _ w =>
    match liveFault faults with
    | Some e => (inl e, w)
    | None =>
        match lookup wfId (liveTags w) with
        | Some v => (inr v, w)
        | None => (inl notFound, w)
        end
    end;
  api_setWorkflowVersionTag := fun _ wfId _ versionId w =>
    (inr tt, mkWorld (secret w) (objects w) (registry w) (setLive wfId versionId (liveTags w)));
  elapse := fun _ w => w
|}.

Definition env (keysJson ignore : option string) : ProcessEnv :=
  {| DEFINITION_BUCKET := Some "definitions-bucket";
     ORGANIZATION_ID := Some "org-1";
     AUTH_SECRET_NAME := Some "/justworkflowit/api/authToken";
     DEFINITION_KEYS_JSON := keysJson;
     IGNORE_FAILURES := ignore;
     REGISTER_WORKFLOW_VERSION_MAX_ATTEMPTS := None;
     REGISTER_WORKFLOW_VERSION_BASE_DELAY_MS := None |}.

Definition emptyWorld (token : string) (objs : list (string * string)) : World :=
  mkWorld (Some token) objs [] [].

(** Three keys: a definition, a blob that is not JSON, another definition. *)
Definition billingText : string := definitionNamed "billing".

Definition threeObjects : list (string * string) :=
  [("a.json", billingText); ("b.json", "not json"); ("c.json", definitionNamed "orders")].

Definition start : World := emptyWorld "real-token" threeObjects.


Definition billingPayload : RegisterWorkflowVersionInput :=
  mkRegisterWorkflowVersionInput "org-1" "wf-billing" billingText.

(** The outside world once the workflow of [a.json] exists, and once its
    version is live. *)
Definition billingCreated : World :=
  mkWorld (Some "real-token") threeObjects [mkWorkflow "wf-billing" "billing"] [].

Definition billingLive : World :=
  mkWorld (Some "real-token") threeObjects [mkWorkflow "wf-billing" "billing"]
          [("wf-billing", "sha-" ++ billingText)].

Definition billingRegistered : list Call :=
  [GetObject "definitions-bucket" "a.json"; ListWorkflows "org-1";
   RegisterWorkflow "org-1" (JStr "billing"); RegisterWorkflowVersion billingPayload].

Definition billingCalls : list Call :=
  (billingRegistered
     ++ [GetTaggedWorkflowVersion "org-1" "wf-billing" LIVE;
         SetWorkflowVersionTag "org-1" "wf-billing" LIVE ("sha-" ++ billingText)])%list.

(** A registry that already knows the workflow under another spelling. *)
Definition withBilling : World :=
  mkWorld (Some "real-token") threeObjects [mkWorkflow "wf-77" "Billing"] [].

(** A bucket whose one definition names its workflow by a number. *)
Definition numbered : World := emptyWorld "real-token" [("a.json", definitionNumbered)].

(** A bucket whose one definition has no [workflowName]. *)
Definition unnamed : World := emptyWorld "real-token" [("a.json", "{}")].

Definition plain : Runtime World := runtime (env None None) noFaults.

Definition unavailableRegistry : Runtime World :=
  runtime (env None None) (mkFaults None (Some unavailable) None).

Definition rejectingRegistry : Runtime World :=
  runtime (env None None) (mkFaults None (Some badRequest) None).

Definition liveReadDown : Runtime World :=
  runtime (env None None) (mkFaults None None (Some unavailable)).

Definition secretDenied : Runtime World :=
  runtime (env (Some threeKeys) None) (mkFaults (Some accessDenied) None None).

Definition configured (ignore : option string) : Runtime World :=
  runtime (env (Some threeKeys) ignore) noFaults.

(** What is stored under [a.json], what is live, and the id of a version. *)
Definition storedText (w : World) : option string := lookup "a.json" (objects w).

Definition liveVersion (w : World) (wfId : string) : option string := lookup wfId (liveTags w).

Definition versionOf (payload : RegisterWorkflowVersionInput) : string :=
  "sha-" ++ definition payload.

End Demo.

(** ** What the calls of a run show *)

(** The keys fetched from storage among [cs], in order. *)
Definition fetchedKeys (cs : list Call) : list string :=
  flat_map (fun c => match c with GetObject _ key => [key] | _ => [] end) cs.

(** The payloads offered to [registerWorkflowVersion] among [cs], in order. *)
Definition registrations (cs : list Call) : list RegisterWorkflowVersionInput :=
  flat_map (fun c => match c with RegisterWorkflowVersion payload => [payload] | _ => [] end) cs.

Definition isGetObject (c : Call) : bool :=
  match c with GetObject _ _ => true | _ => false end.

Definition isListWorkflows (c : Call) : bool :=
  match c with ListWorkflows _ => true | _ => false end.

Definition isRegisterWorkflow (c : Call) : bool :=
  match c with RegisterWorkflow _ _ => true | _ => false end.

Definition isGetTagged (c : Call) : bool :=
  match c with GetTaggedWorkflowVersion _ _ _ => true | _ => false end.

(** How many calls among [cs] satisfy [f]. *)
Definition count (f : Call -> bool) (cs : list Call) : nat := length (filter f cs).

(** The waits of the retry policy: [baseDelayMs * 2^k] for [k] from [from]. *)
Fixpoint backoff (baseDelayMs : Z) (from : Z) (n : nat) : list Z :=
  match n with
  | O => []
  | S n' => baseDelayMs * 2 ^ from :: backoff baseDelayMs (from + 1) n'
  end.


(** [Number.MAX_VALUE]: the largest number that is finite. *)
Definition Number_MAX_VALUE : Z := (2 ^ 53 - 1) * 2 ^ 971.

(** ** The stream reader of the lambda (lines 26-33)

    What a readable stream emits.  A chunk is a buffer, that is, bytes, as
    the body of a stored object emits them. *)

Definition Buffer : Type := list Byte.byte.

Inductive StreamEvent : Type :=
| OnData (chunk : Buffer)
| OnError (err : Thrown)
| OnEnd.

(** [Buffer.concat(chunks)] *)
Definition Buffer_concat (chunks : list Buffer) : Buffer := List.concat chunks.

Section StreamReader.

(** [buffer.toString('utf8')]: the text that the bytes encode, with U+FFFD
    for every sequence of bytes that is not UTF-8. *)
Variable toString_utf8 : Buffer -> string.

(** The promise of [streamToString] over the events that follow, [chunks]
    having been pushed: [None] while it is pending.  A promise settles once;
    what the stream emits afterwards changes nothing. *)
Fixpoint streamToStringFrom (chunks : list Buffer) (events : list StreamEvent)
  : option (Thrown + string) :=
  match events with
  | [] => None
  | OnData chunk :: rest => streamToStringFrom (chunks ++ [chunk]) rest
  | OnError err :: _ => Some (inl err)
  | OnEnd :: _ => Some (inr (toString_utf8 (Buffer_concat chunks)))
  end.

Definition streamToString (events : list StreamEvent) : option (Thrown + string) :=
  streamToStringFrom [] events.

End StreamReader.

(** ** justWorkflowItApiExceptions.ts *)

(** [new ErrorClass(args)], for a class of the API client. *)
Definition ErrorClass : Type := ErrorObject -> Thrown.

(** A member of the module [@justworkflowit/api-client]. *)
Inductive Export : Type :=
| ExportedFunction (ctor : ErrorClass)
| ExportedValue.

(** [s.endsWith(suffix)] *)
Fixpoint endsWith (s suffix : string) : bool :=
  if String.eqb s suffix then true
  else match s with
       | EmptyString => false
       | String _ rest => endsWith rest suffix
       end.

(** Lines 5-21: the functions of the module whose name ends in [Error]. *)
Definition buildSmithyErrorRegistry (module : list (string * Export))
  : list (string * ErrorClass) :=
  flat_map (fun entry =>
              match snd entry with
              | ExportedFunction ctor =>
                  if endsWith (fst entry) "Error" then [(fst entry, ctor)] else []
              | ExportedValue => []
              end) module.

(** The entry that [reduce] wrote last under [typeName]. *)
Fixpoint ownEntry (registry : list (string * ErrorClass)) (typeName : string)
  : option ErrorClass :=
  match registry with
  | [] => None
  | (key, ctor) :: rest =>
      match ownEntry rest typeName with
      | Some later => Some later
      | None => if String.eqb key typeName then Some ctor else None
      end
  end.

(** [registry[typeName]]: an entry of the registry, or else what every
    object inherits under that name. *)
Definition registryGet (inherited : string -> option ErrorClass)
    (registry : list (string * ErrorClass)) (typeName : string) : option ErrorClass :=
  match ownEntry registry typeName with
  | Some ctor => Some ctor
  | None => inherited typeName
  end.

Definition unknownError : string := "Unknown error".

(** [value || fallback] on a string or [undefined]. *)
Definition orString (value : option string) (fallback : string) : string :=
  match value with
  | Some EmptyString | None => fallback
  | Some s => s
  end.

Section Exceptions.

(** The module's members, and the members that every object inherits. *)
Variable module : list (string * Export).
Variable inherited : string -> option ErrorClass.

(** Lines 23-41. *)
Definition deserializeSmithyError (err : Thrown) : Thrown :=
  match err with
  | ThrownPrimitive _ => newError unknownError
  | ThrownObject o =>
      let registry := buildSmithyErrorRegistry module in
      let typeName := errorType o in
      let found :=
        match typeName with
        | Some EmptyString | None => None
        | Some t => registryGet inherited registry t
        end in
      match found with
      | Some ErrorClass =>
          ErrorClass {| instanceofError := false;
                        message := Some (match getMessage o with
                                         | Some m => m
                                         | None => unknownError
                                         end);
                        errorType := errorType o;
                        metadata := metadata o;
                        statusCode := statusCode o;
                        fault := fault o |}
      | None => newError (orString (getMessage o) unknownError)
      end
  end.

End Exceptions.

(** An error for which the registry has nothing: it is not an object, or
    has no type or an empty one, or a type under which [registry[typeName]]
    finds neither a function that the module exports with a name ending in
    [Error] nor a member that every object inherits. *)
Definition unregistered (module : list (string * Export))
    (inherited : string -> option ErrorClass) (err : Thrown) : Prop :=
  match err with
  | ThrownPrimitive _ => True
  | ThrownObject o =>
      errorType o = None \/ errorType o = Some EmptyString \/
      exists t, errorType o = Some t /\
                registryGet inherited (buildSmithyErrorRegistry module) t = None
  end.

(** The message of the plain [Error] that such an error is rehydrated to. *)
Definition rehydratedMessage (err : Thrown) : string :=
  match err with
  | ThrownPrimitive _ => unknownError
  | ThrownObject o => orString (getMessage o) unknownError
  end.

(** ** justWorkflowItApiClient.ts *)

Record HttpRequest : Type := mkHttpRequest {
  headers : list (string * string);
  body : option string
}.

(** [object[key] = value] on an object seen as its properties in order. *)
Fixpoint setProperty (key value : string) (properties : list (string * string))
  : list (string * string) :=
  match properties with
  | [] => [(key, value)]
  | (k, v) :: rest =>
      if String.eqb k key then (k, value) :: rest
      else (k, v) :: setProperty key value rest
  end.

(** [object[key]] *)
Fixpoint getProperty (key : string) (properties : list (string * string)) : option string :=
  match properties with
  | [] => None
  | (k, v) :: rest => if String.eqb k key then Some v else getProperty key rest
  end.

(** Lines 78-97 ([getErrorMessage]); [fields] is [err.fields], which only an
    object has. *)
Definition getErrorMessage (err : Thrown) (fields : option (list (string * string))) : string :=
  match err with
  | ThrownPrimitive _ => "Unexpected error"
  | ThrownObject o =>
      let message := orString (getMessage o) EmptyString in
      let httpStatus := match metadataStatus o with Some s => s | None => 0 end in
      match (if strictEq (errorType o) (Some "ValidationError") then fields else None) with
      | Some entries =>
          "Validation Error: "
            ++ String.concat ", " (map (fun entry => fst entry ++ ": " ++ snd entry) entries)
      | None =>
          if negb (String.eqb (orString (errorType o) EmptyString) EmptyString)
             && negb (String.eqb message EmptyString)
          then orString (errorType o) EmptyString ++ ": " ++ message
          else if negb (String.eqb message EmptyString) then message
          else if negb (httpStatus =? 0)
          then "Unexpected error (" ++ NilZero.string_of_int (Z.to_int httpStatus) ++ ")"
          else "Unexpected error"
      end
  end.

Section ApiClient.

Context {Remote : Type} `{RT : Runtime Remote}.

(** Lines 22-27. *)
Definition getSecretValueByName (secretName : string) : Async Remote (option string) :=
  request (GetSecretValue secretName) (secrets_getSecretValue secretName).

(** Lines 30-36. *)
Definition getAccessToken : Async Remote string :=
  secretName <- required (AUTH_SECRET_NAME process_env) "AUTH_SECRET_NAME env var not set" ;;
  secret <- getSecretValueByName secretName ;;
  match secret with
  | Some EmptyString | None => throw (newError "Could not fetch access token secret")
  | Some token => ret token
  end.

(** Lines 54-60 ([cognitoBearerSigner.sign]). *)
Definition cognitoBearerSigner_sign (request : HttpRequest) : Async Remote HttpRequest :=
  token <- getAccessToken ;;
  ret (mkHttpRequest (setProperty "Authorization" ("Bearer " ++ token) (headers request))
                     (body request)).

Variable module : list (string * Export).
Variable inherited : string -> option ErrorClass.

(** The wrapper that the proxy of lines 116-130 puts around a method of the
    client: what the method throws is thrown rehydrated. *)
Definition proxied {A} (method : Answer Remote A) : Answer Remote A :=
  fun r =>
    match method r with
    | (inl err, r') => (inl (deserializeSmithyError module inherited err), r')
    | (inr a, r') => (inr a, r')
    end.

End ApiClient.

(** Lines 99-133: the runtime whose registry client is the proxy around the
    client of [client]. *)
Definition getApiClient {Remote : Type} (module : list (string * Export))
    (inherited : string -> option ErrorClass) (client : Runtime Remote) : Runtime Remote := {|
  process_env := @process_env _ client;
  Number_ := @Number_ _ client;
  JSON_parse := @JSON_parse _ client;
  JSON_parse_keys := @JSON_parse_keys _ client;
  toUpperCase := @toUpperCase _ client;
  secrets_getSecretValue := @secrets_getSecretValue _ client;
  s3_getObjectText := @s3_getObjectText _ client;
  api_listWorkflows := fun org => proxied module inherited (@api_listWorkflows _ client org);
  api_registerWorkflow := fun org n =>
    proxied module inherited (@api_registerWorkflow _ client org n);
  api_registerWorkflowVersion := fun payload =>
    proxied module inherited (@api_registerWorkflowVersion _ client payload);
  api_getTaggedWorkflowVersion := fun org wfId tag =>
    proxied module inherited (@api_getTaggedWorkflowVersion _ client org wfId tag);
  api_setWorkflowVersionTag := fun org wfId tag v =>
    proxied module inherited (@api_setWorkflowVersionTag _ client org wfId tag v);
  elapse := @elapse _ client
|}.

(** ** The construct that provisions the lambda *)

Module Construct.

Record Props : Type := mkProps {
  disambiguator : string;
  organizationId : string;
  workflowDefinitions : list string;
  ignoreDefinitionDeployerFailures : option bool;
  lambdaArns : option (list string);
  snsTopicArns : option (list string);
  sqsQueueArns : option (list string)
}.

Definition decimal (n : nat) : string := NilZero.string_of_uint (Nat.to_uint n).

(** The text that a template literal gives [error instanceof Error ?
    error.message : String(error)]. *)
Definition errorMessage (error : Thrown) : string :=
  match errorText error with
  | Some text => text
  | None => "undefined"
  end.

Section Validation.

(** The state of synthesis (the options of the schema faker are global), and
    the body of the [try] of lines 45-96: parsing the definition and handing
    it to the engine. *)
Variable Synth : Type.
Variable check : string -> Synth -> (Thrown + unit) * Synth.

(** Lines 44-102, from the definition of index [index] on. *)
Fixpoint validateFrom (index : nat) (definitions : list string) (s : Synth)
  : (Thrown + unit) * Synth :=
  match definitions with
  | [] => (inr tt, s)
  | definition :: rest =>
      match check definition s with
      | (inl error, s') =>
          (inl (newError ("Invalid workflow definition at index " ++ decimal index
                            ++ ": " ++ errorMessage error)), s')
      | (inr _, s') => validateFrom (S index) rest s'
      end
  end.

Definition validate (props : Props) : Synth -> (Thrown + unit) * Synth :=
  validateFrom 0 (workflowDefinitions props).

End Validation.

Definition secretName : string := "/justworkflowit/api/authToken".

Definition initialSecretValue : string := "REPLACE_ME_WITH_JUST_WORKFLOW_IT_AUTH_TOKEN".

Section Provisioning.

(** [uuidv4 i] is the identifier drawn for the definition of index [i]. *)
Variable uuidv4 : nat -> string.
Variable JSON_stringify : list string -> string.

(** Lines 121-128. *)
Definition definitionKeys (props : Props) : list string :=
  map (fun i => "definitions/" ++ uuidv4 i ++ ".json")
      (seq 0 (length (workflowDefinitions props))).

(** The objects that the bucket deployment uploads: key and content. *)
Definition deploymentSources (props : Props) : list (string * string) :=
  combine (definitionKeys props) (workflowDefinitions props).

(** [String(value)] on a boolean. *)
Definition String_bool (b : bool) : string := if b then "true" else "false".

(** Lines 143-150; [API_BASE_URL] is read by the client only. *)
Definition environment (bucketName : string) (props : Props) : ProcessEnv :=
  {| DEFINITION_BUCKET := Some bucketName;
     ORGANIZATION_ID := Some (organizationId props);
     AUTH_SECRET_NAME := Some secretName;
     DEFINITION_KEYS_JSON := Some (JSON_stringify (definitionKeys props));
     IGNORE_FAILURES :=
       Some (String_bool (match ignoreDefinitionDeployerFailures props with
                          | Some b => b
                          | None => false
                          end));
     REGISTER_WORKFLOW_VERSION_MAX_ATTEMPTS := None;
     REGISTER_WORKFLOW_VERSION_BASE_DELAY_MS := None |}.

End Provisioning.

Record PolicyStatement : Type := mkStatement {
  actions : list string;
  resources : list string
}.

(** One of the three blocks of lines 181-206. *)
Definition grant (action : string) (arns : option (list string)) : list PolicyStatement :=
  match arns with
  | Some (arn :: more) => [mkStatement [action] (arn :: more)]
  | Some [] | None => []
  end.

(** Lines 181-206: the statements added to the execution role. *)
Definition executionPolicy (props : Props) : list PolicyStatement :=
  (grant "lambda:InvokeFunction" (lambdaArns props)
     ++ grant "sns:Publish" (snsTopicArns props)
     ++ grant "sqs:SendMessage" (sqsQueueArns props))%list.

End Construct.

(** ** More of the in-memory world *)

Module Fixtures.

(** A class of the client: an [Error] that keeps what it is given. *)
Definition apiError : ErrorClass :=
  fun args =>
    ThrownObject {| instanceofError := true; message := message args;
                    errorType := errorType args; metadata := metadata args;
                    statusCode := statusCode args; fault := fault args |}.

Definition clientModule : list (string * Export) :=
  [("JustWorkflowIt", ExportedFunction apiError);
   ("NotFoundError", ExportedFunction apiError);
   ("ValidationError", ExportedFunction apiError);
   ("VERSION", ExportedValue)].

(** [new Object(args)] is [args] itself. *)
Definition Object_ : ErrorClass := fun args => ThrownObject args.

(** What [new] throws for a member that is not a constructor. *)
Definition notAConstructor : ErrorClass :=
  fun _ =>
    ThrownObject {| instanceofError := true;
                    message := Some "ErrorClass is not a constructor";
                    errorType := None; metadata := None; statusCode := None;
                    fault := None |}.

(** The members that every object inherits from [Object.prototype]. *)
Definition objectPrototype (name : string) : option ErrorClass :=
  if String.eqb name "constructor" then Some Object_
  else if existsb (String.eqb name)
            ["__defineGetter__"; "__defineSetter__"; "hasOwnProperty"; "__lookupGetter__";
             "__lookupSetter__"; "isPrototypeOf"; "propertyIsEnumerable"; "toString";
             "valueOf"; "__proto__"; "toLocaleString"]
  then Some notAConstructor
  else None.

(** A 503 of a type that the client does not export. *)
Definition throttled : Thrown := Demo.serviceError "ThrottlingException" "Slow down" 503.

(** The registry client of [unavailableRegistry] behind the proxy, its
    registration failing with [throttled]. *)
Definition throttledClient : Runtime Demo.World :=
  getApiClient clientModule objectPrototype
    (Demo.runtime (Demo.env None None) (Demo.mkFaults None (Some throttled) None)).

Definition retryEnv (configured : string) : ProcessEnv :=
  {| DEFINITION_BUCKET := Some "definitions-bucket";
     ORGANIZATION_ID := Some "org-1";
     AUTH_SECRET_NAME := Some "/justworkflowit/api/authToken";
     DEFINITION_KEYS_JSON := None;
     IGNORE_FAILURES := None;
     REGISTER_WORKFLOW_VERSION_MAX_ATTEMPTS := Some configured;
     REGISTER_WORKFLOW_VERSION_BASE_DELAY_MS := Some "250" |}.

(** One attempt configured by the empty text, which [Number] reads as 0,
    against a registry that answers 503. *)
Definition singleAttempt : Runtime Demo.World :=
  Demo.runtime (retryEnv EmptyString) (Demo.mkFaults None (Some Demo.unavailable) None).

(** A definition whose [workflowName] is the number 5, in an organization
    that lists a workflow. *)
Definition numberedListed : Demo.World :=
  Demo.mkWorld (Some "real-token") [("a.json", Demo.definitionNumbered)]
               [mkWorkflow "wf-77" "Billing"] [].

(** A 500 whose message quotes the tag. *)
Definition confused : ErrorObject :=
  {| instanceofError := true;
     message := Some "Upstream timeout: No version tagged $LIVE could be read";
     errorType := Some "InternalServerError";
     metadata := Some (mkMetadata (Some 500)); statusCode := None; fault := None |}.

Definition liveReadConfused : Runtime Demo.World :=
  Demo.runtime (Demo.env None None) (Demo.mkFaults None None (Some (ThrownObject confused))).

(** A 404 of a type that the client does not export. *)
Definition notFoundException : Thrown :=
  Demo.serviceError "ResourceNotFoundException" "No version tagged $LIVE" 404.

Definition throttledRegistry : Runtime Demo.World :=
  Demo.runtime (Demo.env None None) (Demo.mkFaults None (Some throttled) None).

Definition liveReadMissing : Runtime Demo.World :=
  Demo.runtime (Demo.env None None) (Demo.mkFaults None None (Some notFoundException)).

(** A 404 of a type that the client exports. *)
Definition notFoundObject : ErrorObject :=
  {| instanceofError := true; message := Some "No version tagged $LIVE";
     errorType := Some "NotFoundError";
     metadata := Some (mkMetadata (Some 404)); statusCode := None; fault := None |}.

Definition staleRequest : HttpRequest :=
  mkHttpRequest [("content-type", "application/json"); ("Authorization", "Bearer stale")]
                (Some "{}").

Definition signedRequest : HttpRequest :=
  mkHttpRequest [("content-type", "application/json"); ("Authorization", "Bearer real-token")]
                (Some "{}").

(** An engine that rejects the one blob that is not JSON, and counts the
    definitions that it accepted. *)
Definition check (definition : string) (accepted : nat) : (Thrown + unit) * nat :=
  match Demo.parse definition with
  | inl e => (inl e, accepted)
  | inr _ => (inr tt, S accepted)
  end.

Definition uuid (i : nat) : string := "uuid-" ++ Construct.decimal i.

Definition stringify (keys : list string) : string :=
  "[" ++ String.concat "," (map Demo.quoted keys) ++ "]".

Definition props (organizationId : string) : Construct.Props :=
  Construct.mkProps "Test" organizationId
    [Demo.billingText; Demo.definitionNamed "orders"]
    (Some true)
    (Some ["arn:aws:lambda:eu-west-1:111122223333:function:charge"]) None (Some []).

Definition invalidProps : Construct.Props :=
  Construct.mkProps "Test" "org-1"
    [Demo.billingText; "not json"; Demo.definitionNamed "orders"] None None None None.

Definition uploadedKeys : list string := Construct.definitionKeys uuid (props "org-1").

(** [JSON.parse] on the key list that the construct wrote, too. *)
Definition parseKeys (s : string) : Thrown + list string :=
  if String.eqb s (stringify uploadedKeys) then inr uploadedKeys else Demo.parseKeys s.

(** The lambda as the construct deploys it for [props organizationId]. *)
Definition deployed (organizationId : string) (faults : Demo.Faults) : Runtime Demo.World :=
  let base :=
    Demo.runtime (Construct.environment uuid stringify "definitions-bucket"
                    (props organizationId)) faults in
  {| process_env := @process_env _ base;
     Number_ := @Number_ _ base;
     JSON_parse := @JSON_parse _ base;
     JSON_parse_keys := parseKeys;
     toUpperCase := @toUpperCase _ base;
     secrets_getSecretValue := @secrets_getSecretValue _ base;
     s3_getObjectText := @s3_getObjectText _ base;
     api_listWorkflows := @api_listWorkflows _ base;
     api_registerWorkflow := @api_registerWorkflow _ base;
     api_registerWorkflowVersion := @api_registerWorkflowVersion _ base;
     api_getTaggedWorkflowVersion := @api_getTaggedWorkflowVersion _ base;
     api_setWorkflowVersionTag := @api_setWorkflowVersionTag _ base;
     elapse := @elapse _ base |}.

(** The outside world of a stack that has just been created, and once the
    secret holds a token. *)
Definition fresh : Demo.World :=
  Demo.mkWorld (Some Construct.initialSecretValue)
               (Construct.deploymentSources uuid (props "org-1")) [] [].

Definition uploaded : Demo.World :=
  Demo.mkWorld (Some "real-token") (Construct.deploymentSources uuid (props "org-1")) [] [].

End Fixtures.

(** Discharging a side condition on the in-memory world by evaluation. *)
Ltac evaluated :=
  first [ discriminate
        | vm_compute; reflexivity
        | split; [vm_compute; reflexivity | discriminate]
        | left; reflexivity ].

(** Counting the calls of a kind in a run that is a concatenation. *)
Ltac tally :=
  unfold count in *; rewrite ?filter_app, ?length_app;
  cbn [filter length app isSetTag isGetTagged isListWorkflows isRegisterWorkflow isGetObject];
  try lia.

(** ** Properties *)

Section Properties.

Context {Remote : Type} `{RT : Runtime Remote}.

(** *** Running the combinators *)

Lemma run_eta {A} (x : Run Remote A) : mkRun (outcome x) (final x) (calls x) = x.
Proof. destruct x; reflexivity. Qed.

Lemma request_returned {A} (c : Call) (answer : Answer Remote A) r a r' :
  answer r = (inr a, r') -> request c answer r = mkRun (Returned a) r' [c].
Proof. intros H. unfold request. rewrite H. reflexivity. Qed.

Lemma request_threw {A} (c : Call) (answer : Answer Remote A) r e r' :
  answer r = (inl e, r') -> request c answer r = mkRun (Threw e) r' [c].
Proof. intros H. unfold request. rewrite H. reflexivity. Qed.

Lemma request_calls {A} (c : Call) (answer : Answer Remote A) r :
  calls (request c answer r) = [c].
Proof. unfold request. destruct (answer r) as [[e | a] r']; reflexivity. Qed.

Lemma bind_returned {A B} (m : Async Remote A) (k : A -> Async Remote B) r a r' cs :
  m r = mkRun (Returned a) r' cs ->
  bind m k r = mkRun (outcome (k a r')) (final (k a r')) (cs ++ calls (k a r')).
Proof. intros H. unfold bind. rewrite H. reflexivity. Qed.

Lemma bind_threw {A B} (m : Async Remote A) (k : A -> Async Remote B) r e r' cs :
  m r = mkRun (Threw e) r' cs -> bind m k r = mkRun (Threw e) r' cs.
Proof. intros H. unfold bind. rewrite H. reflexivity. Qed.

Lemma tryCatch_returned {A} (m : Async Remote A) h r a r' cs :
  m r = mkRun (Returned a) r' cs -> tryCatch m h r = mkRun (Returned a) r' cs.
Proof. intros H. unfold tryCatch. rewrite H. reflexivity. Qed.

Lemma tryCatch_threw {A} (m : Async Remote A) h r e r' cs :
  m r = mkRun (Threw e) r' cs ->
  tryCatch m h r = mkRun (outcome (h e r')) (final (h e r')) (cs ++ calls (h e r')).
Proof. intros H. unfold tryCatch. rewrite H. reflexivity. Qed.

(** Catching an error only to throw it again changes nothing. *)
Lemma tryCatch_rethrow {A} (m : Async Remote A) r :
  tryCatch m (fun err => throw err) r = m r.
Proof.
  unfold tryCatch, throw. destruct (m r) as [[a | e] r' cs]; cbn.
  - reflexivity.
  - rewrite app_nil_r. reflexivity.
Qed.

Lemma bind_ret_l {A B} (a : A) (k : A -> Async Remote B) r : bind (ret a) k r = k a r.
Proof. unfold bind, ret. cbn. apply run_eta. Qed.

Lemma bind_assoc {A B C} (m : Async Remote A) (k : A -> Async Remote B)
    (h : B -> Async Remote C) r :
  bind (bind m k) h r = bind m (fun a => bind (k a) h) r.
Proof.
  unfold bind. destruct (m r) as [[a | e] r1 cs1]; cbn [outcome final calls]; [| reflexivity].
  destruct (k a r1) as [[b | e] r2 cs2]; cbn [outcome final calls]; [| reflexivity].
  rewrite app_assoc. reflexivity.
Qed.

Lemma bind_ext {A B} (m : Async Remote A) (k k' : A -> Async Remote B) r :
  (forall a r1, k a r1 = k' a r1) -> bind m k r = bind m k' r.
Proof.
  intros H. unfold bind. destruct (outcome (m r)); [rewrite H |]; reflexivity.
Qed.

(** *** The retry policy *)

(** One failed attempt that is retried: the call, the wait, the next attempt. *)
Lemma registerLoop_retry maxAttempts baseDelayMs payload fuel attempt r e r' :
  attempt < maxAttempts ->
  api_registerWorkflowVersion payload r = (inl e, r') ->
  shouldRetryRegister e = true ->
  let delay := baseDelayMs * 2 ^ (attempt - 1) in
  let next := registerLoop maxAttempts baseDelayMs payload fuel (attempt + 1) (elapse delay r') in
  registerLoop maxAttempts baseDelayMs payload (S fuel) attempt r =
  mkRun (outcome next) (final next)
        (RegisterWorkflowVersion payload :: Sleep delay :: calls next).
Proof.
  intros Hlt Hans Hretry delay next. cbn [registerLoop].
  replace (attempt <=? maxAttempts) with true by (symmetry; apply Z.leb_le; lia).
  rewrite (tryCatch_threw _ _ _ _ _ _ (request_threw _ _ _ _ _ Hans)).
  assert ((attempt >=? maxAttempts) = false) as ->
    by (rewrite Z.geb_leb; apply Z.leb_gt; lia).
  rewrite Hretry. cbn [orb negb].
  unfold bind, sleep. cbn. reflexivity.
Qed.

(** A failed attempt that is not retried: the error leaves as it came. *)
Lemma registerLoop_giveUp maxAttempts baseDelayMs payload fuel attempt r e r' :
  attempt <= maxAttempts ->
  api_registerWorkflowVersion payload r = (inl e, r') ->
  attempt = maxAttempts \/ shouldRetryRegister e = false ->
  registerLoop maxAttempts baseDelayMs payload (S fuel) attempt r =
  mkRun (Threw e) r' [RegisterWorkflowVersion payload].
Proof.
  intros Hle Hans Hstop. cbn [registerLoop].
  replace (attempt <=? maxAttempts) with true by (symmetry; apply Z.leb_le; lia).
  rewrite (tryCatch_threw _ _ _ _ _ _ (request_threw _ _ _ _ _ Hans)).
  assert ((attempt >=? maxAttempts) || negb (shouldRetryRegister e) = true)%bool as ->.
  { destruct Hstop as [-> | ->].
    - rewrite Z.geb_leb, Z.leb_refl. reflexivity.
    - apply orb_true_r. }
  reflexivity.
Qed.

(** An attempt that succeeds ends the loop. *)
Lemma registerLoop_success maxAttempts baseDelayMs payload fuel attempt r v r' :
  attempt <= maxAttempts ->
  api_registerWorkflowVersion payload r = (inr v, r') ->
  registerLoop maxAttempts baseDelayMs payload (S fuel) attempt r =
  mkRun (Returned v) r' [RegisterWorkflowVersion payload].
Proof.
  intros Hle Hans. cbn [registerLoop].
  replace (attempt <=? maxAttempts) with true by (symmetry; apply Z.leb_le; lia).
  apply tryCatch_returned, request_returned, Hans.
Qed.

(** The iterations that remain are [maxAttempts - attempt + 1]: fuel beyond
    that is never used. *)
Lemma registerLoop_fuel maxAttempts baseDelayMs payload fuel :
  forall attempt r,
    (Z.to_nat (maxAttempts - attempt + 1) <= fuel)%nat ->
    registerLoop maxAttempts baseDelayMs payload fuel attempt r =
    registerLoop maxAttempts baseDelayMs payload (Z.to_nat (maxAttempts - attempt + 1)) attempt r.
Proof.
  induction fuel as [| fuel IH]; intros attempt r Hfuel.
  - replace (Z.to_nat (maxAttempts - attempt + 1)) with O by lia. reflexivity.
  - destruct (Z.leb_spec attempt maxAttempts) as [Hle | Hgt].
    + replace (Z.to_nat (maxAttempts - attempt + 1))
        with (S (Z.to_nat (maxAttempts - (attempt + 1) + 1))) by lia.
      cbn [registerLoop]. rewrite (proj2 (Z.leb_le _ _) Hle). unfold tryCatch.
      destruct (request (RegisterWorkflowVersion payload)
                        (api_registerWorkflowVersion payload) r) as [[v | e] r' cs];
        cbn [outcome final calls]; [reflexivity |].
      destruct ((attempt >=? maxAttempts) || negb (shouldRetryRegister e))%bool; [reflexivity |].
      unfold bind, sleep. cbn [outcome final calls].
      rewrite IH by lia. reflexivity.
    + replace (Z.to_nat (maxAttempts - attempt + 1)) with O by lia.
      cbn [registerLoop].
      replace (attempt <=? maxAttempts) with false by (symmetry; apply Z.leb_gt; lia).
      reflexivity.
Qed.

(** Against a registry that always fails in a retryable way, the attempts
    made from [attempt] on are all those that remain, with a wait between any
    two of them, and the error thrown is the registry's. *)
Lemma registerLoop_exhausts maxAttempts baseDelayMs payload :
  (forall r, exists e r',
      api_registerWorkflowVersion payload r = (inl e, r') /\ shouldRetryRegister e = true) ->
  forall fuel attempt r,
    (0 < fuel)%nat ->
    Z.of_nat fuel = maxAttempts - attempt + 1 ->
    let run := registerLoop maxAttempts baseDelayMs payload fuel attempt r in
    attempts (calls run) = fuel /\
    S (length (delays (calls run))) = fuel /\
    exists e, outcome run = Threw e /\ shouldRetryRegister e = true.
Proof.
  intros Hfails fuel. induction fuel as [| fuel IH]; intros attempt r Hpos Hfuel; [lia |].
  destruct (Hfails r) as (e & r' & Hans & Hretry).
  destruct fuel as [| fuel].
  - assert (attempt = maxAttempts) as Hlast by lia.
    rewrite (registerLoop_giveUp maxAttempts baseDelayMs payload 0 attempt r e r');
      [| lia | exact Hans | left; exact Hlast].
    cbn. repeat split. exists e. split; [reflexivity | exact Hretry].
  - assert (attempt < maxAttempts) as Hmore by lia.
    rewrite (registerLoop_retry maxAttempts baseDelayMs payload (S fuel) attempt r e r'
               Hmore Hans Hretry).
    set (delay := baseDelayMs * 2 ^ (attempt - 1)).
    assert (0 < S fuel)%nat as Hpos' by lia.
    assert (Z.of_nat (S fuel) = maxAttempts - (attempt + 1) + 1) as Hfuel' by lia.
    destruct (IH (attempt + 1) (elapse delay r') Hpos' Hfuel')
      as (Hattempts & Hdelays & Hthrown).
    cbn [outcome final calls]. unfold attempts, delays in *.
    cbn [filter isRegisterAttempt flat_map app length].
    repeat split; [lia | lia | exact Hthrown].
Qed.

(** Exactly [maxAttempts] attempts are made before giving up. *)
Lemma registerWorkflowVersionWithRetry_exhausts payload workflowName :
  (forall r, exists e r',
      api_registerWorkflowVersion payload r = (inl e, r') /\ shouldRetryRegister e = true) ->
  forall r,
    let maxAttempts := Z.max 1 DEFAULT_REGISTER_ATTEMPTS in
    let run := registerWorkflowVersionWithRetry payload workflowName r in
    Z.of_nat (attempts (calls run)) = maxAttempts /\
    Z.of_nat (length (delays (calls run))) = maxAttempts - 1 /\
    exists e, outcome run = Threw e /\ shouldRetryRegister e = true.
Proof.
  intros Hfails r maxAttempts run. subst run. unfold registerWorkflowVersionWithRetry.
  fold maxAttempts.
  destruct (registerLoop_exhausts maxAttempts (Z.max 0 DEFAULT_REGISTER_BASE_DELAY_MS)
              payload Hfails (Z.to_nat maxAttempts) 1 r)
    as (Hattempts & Hdelays & Hthrown); [subst maxAttempts; lia .. |].
  repeat split; [subst maxAttempts; lia | subst maxAttempts; lia | exact Hthrown].
Qed.

Lemma strictEq_true a b : strictEq a b = true <-> a = b.
Proof.
  destruct a as [x |], b as [y |]; cbn; try (split; congruence).
  rewrite String.eqb_eq. split; congruence.
Qed.

Lemma shouldRetryRegister_spec err : shouldRetryRegister err = true <-> SpecRetryable err.
Proof.
  split.
  - destruct err as [p | o]; cbn; [discriminate |].
    destruct (metadataStatus o) as [s |] eqn:Hm.
    + rewrite Z.geb_leb, Z.leb_le. intros H. eapply retryable_primary; eassumption.
    + destruct (statusCode o) as [s |] eqn:Hs.
      * rewrite Z.geb_leb, Z.leb_le. intros H. eapply retryable_fallback; eassumption.
      * rewrite strictEq_true. intros H. apply retryable_fault; assumption.
  - intros [o s Hm Hge | o s Hm Hs Hge | o Hm Hs Hf]; cbn; rewrite Hm.
    + rewrite Z.geb_leb. apply Z.leb_le, Hge.
    + rewrite Hs, Z.geb_leb. apply Z.leb_le, Hge.
    + rewrite Hs, Hf. reflexivity.
Qed.


(** C2. An error thrown by [registerWorkflowVersion] is retryable exactly
    when it carries a status of at least 500 in the primary field, or, the
    primary field being absent, in the fallback field, or, both being absent,
    a fault indicator equal to [server]; and an error that is not retryable
    leaves at once: one attempt, no wait. *)
Theorem C2_retry_classification payload workflowName r e r' :
  api_registerWorkflowVersion payload r = (inl e, r') ->
  (shouldRetryRegister e = true <-> SpecRetryable e) /\
  (shouldRetryRegister e = false ->
   registerWorkflowVersionWithRetry payload workflowName r =
   mkRun (Threw e) r' [RegisterWorkflowVersion payload]).
Proof.
  intros Hans. split; [apply shouldRetryRegister_spec |].
  intros Hno. unfold registerWorkflowVersionWithRetry.
  set (maxAttempts := Z.max 1 DEFAULT_REGISTER_ATTEMPTS).
  assert (1 <= maxAttempts) as Hpos by (subst maxAttempts; lia).
  destruct (Z.to_nat maxAttempts) as [| fuel] eqn:Hfuel; [lia |].
  apply registerLoop_giveUp; auto.
Qed.

(** *** The reconciler *)

Lemma deployWorkflows_app organizationId bucket pre post r :
  deployWorkflows organizationId bucket (pre ++ post) r =
  bind (deployWorkflows organizationId bucket pre)
       (fun _ => deployWorkflows organizationId bucket post) r.
Proof.
  revert r. induction pre as [| key pre IH]; intros r; cbn [app deployWorkflows].
  - unfold bind, ret. cbn. rewrite run_eta. reflexivity.
  - rewrite bind_assoc. apply bind_ext. intros _ r1. apply IH.
Qed.

(** A key that throws ends the batch there. *)
Lemma deployWorkflows_abort organizationId bucket key rest r e r' cs :
  deployKey organizationId bucket key r = mkRun (Threw e) r' cs ->
  deployWorkflows organizationId bucket (key :: rest) r = mkRun (Threw e) r' cs.
Proof. intros H. cbn [deployWorkflows]. apply bind_threw, H. Qed.

(** A key that returns hands over to the keys after it. *)
Lemma deployWorkflows_continue organizationId bucket key rest r r' cs :
  deployKey organizationId bucket key r = mkRun (Returned tt) r' cs ->
  let next := deployWorkflows organizationId bucket rest r' in
  deployWorkflows organizationId bucket (key :: rest) r =
  mkRun (outcome next) (final next) (cs ++ calls next).
Proof.
  intros H next. subst next. cbn [deployWorkflows].
  rewrite (bind_returned _ _ _ _ _ _ H). reflexivity.
Qed.

(** C3. Keys are processed in the order given, and the first key that
    throws ends the batch: the run over the whole batch is the run over the
    keys before it followed by the failing key's own calls, it ends in the
    state the failing key left (nothing is undone), it makes no call for any
    later key, and it throws the failing key's error. *)
Theorem C3_sequential_abort organizationId bucket pre key post r r1 cs1 e r2 cs2 :
  deployWorkflows organizationId bucket pre r = mkRun (Returned tt) r1 cs1 ->
  deployKey organizationId bucket key r1 = mkRun (Threw e) r2 cs2 ->
  deployWorkflows organizationId bucket (pre ++ key :: post) r =
  mkRun (Threw e) r2 (cs1 ++ cs2).
Proof.
  intros Hpre Hkey. rewrite deployWorkflows_app.
  rewrite (bind_returned _ _ _ _ _ _ Hpre).
  rewrite (deployWorkflows_abort _ _ _ post _ _ _ _ Hkey). reflexivity.
Qed.

(** The calls of each step before the live tag is looked at. *)
Lemma readDefinition_calls bucket key r :
  calls (readDefinition bucket key r) = [GetObject bucket key].
Proof.
  unfold readDefinition, bind at 1.
  unfold request. destruct (s3_getObjectText bucket key r) as [[e | text] r1];
    cbn [outcome final calls]; [reflexivity |].
  unfold bind. destruct (JSON_parse text) as [e | json]; cbn; [reflexivity |].
  destruct (getWorkflowName json) as [wn |]; [| reflexivity].
  destruct (truthy (Some wn)); reflexivity.
Qed.

Lemma bind_calls_filter {A B} (f : Call -> bool) (m : Async Remote A)
    (k : A -> Async Remote B) r :
  filter f (calls (m r)) = [] ->
  (forall a r', filter f (calls (k a r')) = []) ->
  filter f (calls (bind m k r)) = [].
Proof.
  intros Hm Hk. unfold bind. destruct (m r) as [[a | e] r1 cs1]; cbn [outcome final calls] in *.
  - rewrite filter_app, Hm, Hk. reflexivity.
  - exact Hm.
Qed.

Lemma lift_calls {A} (v : Thrown + A) (r : Remote) : calls (lift v r) = [].
Proof. destruct v; reflexivity. Qed.

Lemma findOrCreateWorkflow_calls organizationId workflowName r :
  filter isSetTag (calls (findOrCreateWorkflow organizationId workflowName r)) = [].
Proof.
  unfold findOrCreateWorkflow.
  apply bind_calls_filter; [rewrite request_calls; reflexivity |].
  intros ws r1. apply bind_calls_filter; [rewrite lift_calls; reflexivity |].
  intros [w |] r2; [reflexivity |]. rewrite request_calls. reflexivity.
Qed.

Lemma registerLoop_calls maxAttempts baseDelayMs payload fuel :
  forall attempt r,
    filter isSetTag (calls (registerLoop maxAttempts baseDelayMs payload fuel attempt r)) = [].
Proof.
  induction fuel as [| fuel IH]; intros attempt r; cbn [registerLoop]; [reflexivity |].
  destruct (attempt <=? maxAttempts); [| reflexivity].
  unfold tryCatch, request.
  destruct (api_registerWorkflowVersion payload r) as [[e | v] r1];
    cbn [outcome final calls]; [| reflexivity].
  destruct ((attempt >=? maxAttempts) || negb (shouldRetryRegister e))%bool; [reflexivity |].
  unfold bind, sleep. cbn [outcome final calls app filter isSetTag]. apply IH.
Qed.

Lemma registerWorkflowVersionWithRetry_calls payload workflowName r :
  filter isSetTag (calls (registerWorkflowVersionWithRetry payload workflowName r)) = [].
Proof. apply registerLoop_calls. Qed.

(** *** What the live read takes for the absence of a live version *)

Lemma prefix_app s post : prefix s (s ++ post) = true.
Proof.
  induction s as [| a s IH]; cbn; [destruct post; reflexivity |].
  destruct (ascii_dec a a); [exact IH | contradiction].
Qed.

Lemma prefix_inv search s : prefix search s = true -> exists post, s = search ++ post.
Proof.
  revert s. induction search as [| a search IH]; intros s.
  - intros _. exists s. reflexivity.
  - destruct s as [| b s]; cbn; [discriminate |].
    destruct (ascii_dec a b) as [<- |]; [| discriminate].
    intros H. destruct (IH _ H) as [post ->]. exists post. reflexivity.
Qed.

Lemma includes_unfold s search :
  includes s search
  = if prefix search s then true
    else match s with
         | EmptyString => false
         | String _ rest => includes rest search
         end.
Proof. destruct s; reflexivity. Qed.

Lemma includes_app pre s post : includes (pre ++ s ++ post) s = true.
Proof.
  induction pre as [| a pre IH]; rewrite includes_unfold; cbn [append].
  - rewrite prefix_app. reflexivity.
  - destruct (prefix s (String a (pre ++ s ++ post))); [reflexivity | exact IH].
Qed.

Lemma includes_inv s search :
  includes s search = true -> exists pre post, s = pre ++ search ++ post.
Proof.
  induction s as [| a s IH]; rewrite includes_unfold.
  - destruct (prefix search EmptyString) eqn:Hp; [| discriminate].
    intros _. destruct (prefix_inv _ _ Hp) as [post ->]. exists EmptyString, post. reflexivity.
  - destruct (prefix search (String a s)) eqn:Hp.
    + intros _. destruct (prefix_inv _ _ Hp) as [post ->]. exists EmptyString, post.
      reflexivity.
    + intros H. destruct (IH H) as (pre & post & ->). exists (String a pre), post.
      reflexivity.
Qed.

(** The test of line 145 holds exactly of the errors that are objects of type
    [NotFoundError] or with a message that contains one of the two phrases. *)
Lemma noLiveVersionYet_spec err : noLiveVersionYet err = true <-> SaysNoLiveVersion err.
Proof.
  split.
  - destruct err as [p | o]; cbn; [discriminate |].
    destruct (strictEq (errorType o) (Some "NotFoundError")) eqn:Htype.
    + intros _. apply says_not_found, strictEq_true, Htype.
    + cbn. destruct (getMessage o) as [m |] eqn:Hm; [| discriminate].
      intros H. apply orb_true_iff in H. destruct H as [H | H];
        destruct (includes_inv _ _ H) as (pre & post & Hsplit);
        eapply says_by_message; eauto.
  - intros [o Htype | o m pre phrase post Hm -> Hphrase]; cbn.
    + rewrite Htype. reflexivity.
    + rewrite Hm. destruct Hphrase as [-> | ->]; rewrite includes_app;
        rewrite ?orb_true_r; reflexivity.
Qed.

Section AfterRegistration.

(** A key whose definition was read, whose workflow was found or created and
    whose version was registered. *)
Variables (organizationId bucket key : string) (r : Remote).
Variables (definitionStr : string) (workflowName : Json) (r1 : Remote) (cs1 : list Call).
Variables (wfId : string) (r2 : Remote) (cs2 : list Call).
Variables (registered : string) (r3 : Remote) (cs3 : list Call).

Hypothesis Hread :
  readDefinition bucket key r = mkRun (Returned (definitionStr, workflowName)) r1 cs1.
Hypothesis Hfind :
  findOrCreateWorkflow organizationId workflowName r1 = mkRun (Returned wfId) r2 cs2.
Hypothesis Hregistered :
  registerWorkflowVersionWithRetry
    (mkRegisterWorkflowVersionInput organizationId wfId definitionStr) workflowName r2
  = mkRun (Returned registered) r3 cs3.

Lemma deployKey_afterRegistration :
  let rest := bind (readLiveVersion organizationId wfId)
                   (fun live => promote organizationId wfId live registered) r3 in
  deployKey organizationId bucket key r =
  mkRun (outcome rest) (final rest) (cs1 ++ cs2 ++ cs3 ++ calls rest).
Proof.
  intros rest. unfold deployKey. rewrite tryCatch_rethrow.
  rewrite (bind_returned _ _ _ _ _ _ Hread). cbn beta iota.
  rewrite (bind_returned _ _ _ _ _ _ Hfind).
  rewrite (bind_returned _ _ _ _ _ _ Hregistered).
  cbn [outcome final calls]. reflexivity.
Qed.

Lemma noSetTag_before : filter isSetTag (cs1 ++ cs2 ++ cs3) = [].
Proof.
  rewrite !filter_app.
  replace cs1 with (calls (readDefinition bucket key r)) by (rewrite Hread; reflexivity).
  replace cs2 with (calls (findOrCreateWorkflow organizationId workflowName r1))
    by (rewrite Hfind; reflexivity).
  replace cs3 with (calls (registerWorkflowVersionWithRetry
                             (mkRegisterWorkflowVersionInput organizationId wfId definitionStr)
                             workflowName r2))
    by (rewrite Hregistered; reflexivity).
  rewrite readDefinition_calls, findOrCreateWorkflow_calls,
    registerWorkflowVersionWithRetry_calls.
  reflexivity.
Qed.

Let readLive : Call := GetTaggedWorkflowVersion organizationId wfId LIVE.
Let setLive : Call := SetWorkflowVersionTag organizationId wfId LIVE registered.

Lemma readLiveVersion_returned live r4 :
  api_getTaggedWorkflowVersion organizationId wfId LIVE r3 = (inr live, r4) ->
  readLiveVersion organizationId wfId r3 = mkRun (Returned (Some live)) r4 [readLive].
Proof.
  intros Hlive. unfold readLiveVersion, tryCatch, bind, request.
  rewrite Hlive. reflexivity.
Qed.

Lemma readLiveVersion_threw e r4 :
  api_getTaggedWorkflowVersion organizationId wfId LIVE r3 = (inl e, r4) ->
  readLiveVersion organizationId wfId r3 =
  mkRun (if noLiveVersionYet e then Returned None else Threw e) r4 [readLive].
Proof.
  intros Hlive. unfold readLiveVersion, tryCatch, bind, request.
  rewrite Hlive. cbn [outcome final calls].
  destruct (noLiveVersionYet e); reflexivity.
Qed.

(** The live version is the one just registered: nothing more is done. *)
Lemma deployKey_skip r4 :
  api_getTaggedWorkflowVersion organizationId wfId LIVE r3 = (inr registered, r4) ->
  deployKey organizationId bucket key r = mkRun (Returned tt) r4 (cs1 ++ cs2 ++ cs3 ++ [readLive]).
Proof.
  intros Hlive. rewrite deployKey_afterRegistration.
  rewrite (bind_returned _ _ _ _ _ _ (readLiveVersion_returned _ _ Hlive)).
  unfold promote. cbn [strictEq]. rewrite String.eqb_refl. reflexivity.
Qed.

(** The live version is another one, or there is none: the tag is set. *)
Lemma deployKey_promote live r4 :
  readLiveVersion organizationId wfId r3 = mkRun (Returned live) r4 [readLive] ->
  live <> Some registered ->
  let tagging := api_setWorkflowVersionTag organizationId wfId LIVE registered r4 in
  deployKey organizationId bucket key r =
  mkRun (match fst tagging with inr _ => Returned tt | inl e => Threw e end)
        (snd tagging) (cs1 ++ cs2 ++ cs3 ++ [readLive; setLive]).
Proof.
  intros Hlive Hother tagging. rewrite deployKey_afterRegistration.
  rewrite (bind_returned _ _ _ _ _ _ Hlive).
  unfold promote.
  destruct (strictEq live (Some registered)) eqn:Heq;
    [apply strictEq_true in Heq; contradiction |].
  unfold request. subst tagging.
  destruct (api_setWorkflowVersionTag organizationId wfId LIVE registered r4) as [[e | []] r5];
    reflexivity.
Qed.

(** An error of type [NotFoundError] says that there is no live version yet. *)
(** C7, as the code has it.  When the read of the live version throws: an
    error that is an object of type [NotFoundError], or whose message
    contains [No version tagged] or [No version found], is taken as [null] and
    the key goes on to set the live tag; any other error is thrown on and ends
    the batch. *)
Theorem C7_live_read e r4 :
  api_getTaggedWorkflowVersion organizationId wfId LIVE r3 = (inl e, r4) ->
  (SaysNoLiveVersion e ->
   readLiveVersion organizationId wfId r3 = mkRun (Returned None) r4 [readLive] /\
   calls (deployKey organizationId bucket key r)
   = (cs1 ++ cs2 ++ cs3 ++ [readLive; setLive])%list) /\
  (~ SaysNoLiveVersion e ->
   readLiveVersion organizationId wfId r3 = mkRun (Threw e) r4 [readLive] /\
   forall rest,
     deployWorkflows organizationId bucket (key :: rest) r =
     mkRun (Threw e) r4 (cs1 ++ cs2 ++ cs3 ++ [readLive])).
Proof.
  intros Hlive. pose proof (readLiveVersion_threw _ _ Hlive) as Hrun. split; intros Hclass.
  - apply noLiveVersionYet_spec in Hclass.
    rewrite Hclass in Hrun. split; [exact Hrun |].
    rewrite (deployKey_promote None _ Hrun) by discriminate. reflexivity.
  - assert (noLiveVersionYet e = false) as Hnot.
    { destruct (noLiveVersionYet e) eqn:Htest; [| reflexivity].
      exfalso. apply Hclass, noLiveVersionYet_spec, Htest. }
    rewrite Hnot in Hrun. split; [exact Hrun |]. intros rest.
    apply deployWorkflows_abort. rewrite deployKey_afterRegistration.
    rewrite (bind_threw _ _ _ _ _ _ Hrun). reflexivity.
Qed.

(** What the promotion step does, by the live version that was read. *)
Lemma promotion_decision r4 :
  (api_getTaggedWorkflowVersion organizationId wfId LIVE r3 = (inr registered, r4) ->
   filter isSetTag (calls (deployKey organizationId bucket key r)) = [] /\
   forall rest,
     let next := deployWorkflows organizationId bucket rest r4 in
     deployWorkflows organizationId bucket (key :: rest) r =
     mkRun (outcome next) (final next) ((cs1 ++ cs2 ++ cs3 ++ [readLive]) ++ calls next)) /\
  (forall live,
     readLiveVersion organizationId wfId r3 = mkRun (Returned live) r4 [readLive] ->
     live <> Some registered ->
     filter isSetTag (calls (deployKey organizationId bucket key r)) = [setLive]).
Proof.
  split.
  - intros Hlive. pose proof (deployKey_skip _ Hlive) as Hrun. split.
    + rewrite Hrun. cbn [calls]. rewrite !app_assoc, filter_app, <- !app_assoc.
      rewrite noSetTag_before. reflexivity.
    + intros rest. apply deployWorkflows_continue, Hrun.
  - intros live Hlive Hother. rewrite (deployKey_promote live _ Hlive Hother).
    cbn [calls]. rewrite !app_assoc, filter_app, <- !app_assoc.
    rewrite noSetTag_before. reflexivity.
Qed.

End AfterRegistration.

(** C9. The workflow name of a definition is matched against the names of
    the existing workflows up to case: when some existing workflow matches,
    the id of a matching workflow is used and [registerWorkflow] is not
    called; when none matches, [registerWorkflow] is called exactly once and
    the id it returns is used. *)
Theorem C9_find_or_create organizationId n r workflows r1 :
  api_listWorkflows organizationId r = (inr workflows, r1) ->
  let run := findOrCreateWorkflow organizationId (JStr n) r in
  let sameName w := toUpperCase (name w) = toUpperCase n in
  ((exists w, In w workflows /\ sameName w) ->
   exists w, In w workflows /\ sameName w /\
             run = mkRun (Returned (workflowId w)) r1 [ListWorkflows organizationId]) /\
  ((forall w, In w workflows -> ~ sameName w) ->
   let creation := api_registerWorkflow organizationId (JStr n) r1 in
   run = mkRun (match fst creation with inr id => Returned id | inl e => Threw e end)
               (snd creation)
               [ListWorkflows organizationId; RegisterWorkflow organizationId (JStr n)]).
Proof.
  intros Hlist run sameName. subst run. unfold findOrCreateWorkflow.
  rewrite (bind_returned _ _ _ _ _ _ (request_returned _ _ _ _ _ Hlist)).
  set (matches := fun w => String.eqb (toUpperCase (name w)) (toUpperCase n)).
  assert (findMatchingWorkflow workflows (JStr n) = inr (find matches workflows)) as ->
    by (destruct workflows; reflexivity).
  cbn [lift]. rewrite bind_ret_l.
  destruct (find matches workflows) as [w |] eqn:Hfind.
  - split.
    + intros _. apply find_some in Hfind. destruct Hfind as [Hin Hmatch].
      exists w. repeat split; [exact Hin | apply String.eqb_eq, Hmatch].
    + intros Hnone. apply find_some in Hfind. destruct Hfind as [Hin Hmatch].
      exfalso. apply (Hnone w Hin). apply String.eqb_eq, Hmatch.
  - split.
    + intros [w [Hin Hsame]]. pose proof (find_none _ _ Hfind w Hin) as Hno.
      unfold matches in Hno. apply String.eqb_neq in Hno. contradiction.
    + intros _. cbv zeta. unfold request.
      destruct (api_registerWorkflow organizationId (JStr n) r1) as [[e | id] r2]; reflexivity.
Qed.

(** C8, as the code has it.  A blob that does not parse as JSON, or whose
    parsed value has no [workflowName] or a falsy one (the empty string,
    [null], [false], 0), makes the whole batch fail at once: the error is
    thrown after the one storage call, and no registry call is made for the
    key nor anything done for the keys after it. *)
Theorem C8_malformed_definition_aborts organizationId bucket key rest r text r1 :
  s3_getObjectText bucket key r = (inr text, r1) ->
  (forall e, JSON_parse text = inl e ->
             deployWorkflows organizationId bucket (key :: rest) r
             = mkRun (Threw e) r1 [GetObject bucket key]) /\
  (forall json, JSON_parse text = inr json -> truthy (getWorkflowName json) = false ->
                deployWorkflows organizationId bucket (key :: rest) r
                = mkRun (Threw (missingWorkflowName key)) r1 [GetObject bucket key]).
Proof.
  intros Hget. split.
  - intros e Hparse. apply deployWorkflows_abort. unfold deployKey. rewrite tryCatch_rethrow.
    apply bind_threw. unfold readDefinition.
    rewrite (bind_returned _ _ _ _ _ _ (request_returned _ _ _ _ _ Hget)).
    rewrite Hparse. reflexivity.
  - intros json Hparse Hfalsy. apply deployWorkflows_abort. unfold deployKey.
    rewrite tryCatch_rethrow. apply bind_threw. unfold readDefinition.
    rewrite (bind_returned _ _ _ _ _ _ (request_returned _ _ _ _ _ Hget)).
    rewrite Hparse. cbn [lift]. rewrite bind_ret_l.
    destruct (getWorkflowName json) as [wn |]; [rewrite Hfalsy |]; reflexivity.
Qed.

(** *** Reconciling the same definition twice *)

Lemma bind_inv_returned {A B} (m : Async Remote A) (k : A -> Async Remote B) r b r' cs :
  bind m k r = mkRun (Returned b) r' cs ->
  exists a ra ca cb,
    m r = mkRun (Returned a) ra ca /\ k a ra = mkRun (Returned b) r' cb /\ cs = (ca ++ cb)%list.
Proof.
  unfold bind. destruct (m r) as [[a | e] ra ca]; cbn [outcome final calls]; [| discriminate].
  destruct (k a ra) as [o rb cb] eqn:Hk; cbn [outcome final calls].
  intros H. injection H as Ho Hr Hc. subst. exists a, ra, ca, cb. repeat split. exact Hk.
Qed.

Lemma request_inv_returned {A} (c : Call) (answer : Answer Remote A) r a r' cs :
  request c answer r = mkRun (Returned a) r' cs -> answer r = (inr a, r') /\ cs = [c].
Proof.
  unfold request. destruct (answer r) as [[e | a'] r1]; [discriminate |].
  intros H. injection H as Ha Hr Hc. subst. split; reflexivity.
Qed.

Lemma bind_calls_filter_run {A B} (f : Call -> bool) (m : Async Remote A)
    (k : A -> Async Remote B) r :
  filter f (calls (m r)) = [] ->
  (forall a, outcome (m r) = Returned a -> filter f (calls (k a (final (m r)))) = []) ->
  filter f (calls (bind m k r)) = [].
Proof.
  intros Hm Hk. unfold bind. destruct (m r) as [[a | e] r1 cs1]; cbn [outcome final calls] in *.
  - rewrite filter_app, Hm, (Hk a eq_refl). reflexivity.
  - exact Hm.
Qed.

Lemma find_app_none {A} (f : A -> bool) (l : list A) (x : A) :
  find f l = None -> find f (l ++ [x]) = if f x then Some x else None.
Proof.
  induction l as [| y l IH]; cbn [app find]; [reflexivity |].
  destruct (f y); [discriminate | exact IH].
Qed.

Lemma deployWorkflows_single organizationId bucket key r :
  deployWorkflows organizationId bucket [key] r = deployKey organizationId bucket key r.
Proof.
  cbn [deployWorkflows]. unfold bind, ret.
  destruct (deployKey organizationId bucket key r) as [[[] | e] r1 cs1];
    cbn [outcome final calls]; rewrite ?app_nil_r; reflexivity.
Qed.

(** What reading a definition returns depends on the text alone. *)
Lemma readDefinition_inv bucket key r text n r1 cs :
  readDefinition bucket key r = mkRun (Returned (text, n)) r1 cs ->
  s3_getObjectText bucket key r = (inr text, r1) /\
  forall r0 text0 r0',
    s3_getObjectText bucket key r0 = (inr text0, r0') -> text0 = text ->
    readDefinition bucket key r0 = mkRun (Returned (text, n)) r0' [GetObject bucket key].
Proof.
  unfold readDefinition. intros H.
  apply bind_inv_returned in H. destruct H as (d & ra & ca & cb & Hget & Hrest & ->).
  apply request_inv_returned in Hget. destruct Hget as [Hget ->].
  destruct (JSON_parse d) as [e | json] eqn:Hparse; cbn [lift] in Hrest.
  { unfold bind, throw in Hrest. cbn in Hrest. discriminate. }
  rewrite bind_ret_l in Hrest.
  assert (d = text /\ ra = r1 /\ getWorkflowName json = Some n /\ truthy (Some n) = true)
    as (-> & -> & Hname & Htruthy).
  { destruct (getWorkflowName json) as [wn |]; [| discriminate].
    destruct (truthy (Some wn)) eqn:Ht; [| discriminate].
    unfold ret in Hrest. injection Hrest as -> -> ->. repeat split. exact Ht. }
  split; [exact Hget |].
  intros r0 text0 r0' Hget0 ->.
  rewrite (bind_returned _ _ _ _ _ _ (request_returned _ _ _ _ _ Hget0)).
  rewrite Hparse. cbn [lift]. rewrite bind_ret_l, Hname, Htruthy. reflexivity.
Qed.

Section Idempotence.

Variables (organizationId bucket key : string).
Variable stored : Remote -> option string.
Variable listed : Remote -> list Workflow.
Variable liveOf : Remote -> string -> option string.
Variable versionIdOf : RegisterWorkflowVersionInput -> string.

Hypothesis laws : WellBehaved organizationId bucket key stored listed liveOf versionIdOf.

Let same := undisturbed stored listed liveOf.

Lemma same_refl r : same r r.
Proof. repeat split. Qed.

Lemma same_trans r1 r2 r3 : same r1 r2 -> same r2 r3 -> same r1 r3.
Proof.
  intros (Hs1 & Hl1 & Hv1) (Hs2 & Hl2 & Hv2). repeat split.
  - rewrite Hs2. exact Hs1.
  - rewrite Hl2. exact Hl1.
  - intros wfId. rewrite Hv2. apply Hv1.
Qed.

(** Registering a version, however many attempts it takes, changes nothing
    and returns the id of the content. *)
Lemma registerLoop_wellBehaved maxAttempts baseDelayMs payload fuel :
  forall attempt r,
    let run := registerLoop maxAttempts baseDelayMs payload fuel attempt r in
    same r (final run) /\ forall v, outcome run = Returned v -> v = versionIdOf payload.
Proof.
  induction fuel as [| fuel IH]; intros attempt r; cbn [registerLoop].
  - split; [apply same_refl | discriminate].
  - destruct (attempt <=? maxAttempts); [| split; [apply same_refl | discriminate]].
    unfold tryCatch, request.
    destruct (api_registerWorkflowVersion payload r) as [[e | v] r1] eqn:Hans;
      destruct (registry_versions _ _ _ _ _ _ _ laws payload r _ r1 Hans) as [Hsame Hid];
      cbn [outcome final calls].
    + destruct ((attempt >=? maxAttempts) || negb (shouldRetryRegister e))%bool.
      * cbn. split; [exact Hsame | discriminate].
      * unfold bind, sleep. cbn [outcome final calls].
        destruct (IH (attempt + 1) (elapse (baseDelayMs * 2 ^ (attempt - 1)) r1))
          as [Hsame' Hid'].
        split.
        -- eapply same_trans; [exact Hsame |].
           eapply same_trans; [apply (waiting _ _ _ _ _ _ _ laws) | exact Hsame'].
        -- exact Hid'.
    + split; [exact Hsame |]. intros v' Hv. injection Hv as <-. apply Hid. reflexivity.
Qed.

(** The key is settled in [r]: its text is stored, its name resolves to the
    workflow [wfId], and the version of its text is live there. *)
Let settled (r : Remote) (text : string) (n : Json) (wfId : string) : Prop :=
  stored r = Some text /\
  (forall r0 text0 r0',
     s3_getObjectText bucket key r0 = (inr text0, r0') -> text0 = text ->
     readDefinition bucket key r0 = mkRun (Returned (text, n)) r0' [GetObject bucket key]) /\
  (exists w, findMatchingWorkflow (listed r) n = inr (Some w) /\ workflowId w = wfId) /\
  liveOf r wfId
  = Some (versionIdOf (mkRegisterWorkflowVersionInput organizationId wfId text)).

Lemma settled_same r r' text n wfId : same r r' -> settled r text n wfId -> settled r' text n wfId.
Proof.
  intros (Hs & Hl & Hv) (Hstored & Hread & Hfound & Hlive). repeat split.
  - rewrite Hs. exact Hstored.
  - exact Hread.
  - rewrite Hl. exact Hfound.
  - rewrite Hv. exact Hlive.
Qed.

(** The workflow that [findOrCreateWorkflow] returns is the one that the
    name resolves to afterwards. *)
Lemma findOrCreateWorkflow_resolves n r wfId r1 cs :
  findOrCreateWorkflow organizationId n r = mkRun (Returned wfId) r1 cs ->
  stored r1 = stored r /\
  exists w, findMatchingWorkflow (listed r1) n = inr (Some w) /\ workflowId w = wfId.
Proof.
  unfold findOrCreateWorkflow. intros H.
  apply bind_inv_returned in H. destruct H as (ws & ra & ca & cb & Hlist & Hrest & ->).
  apply request_inv_returned in Hlist. destruct Hlist as [Hlist ->].
  destruct (registry_lists _ _ _ _ _ _ _ laws r _ ra Hlist) as [(Hs & Hl & _) Hws].
  rewrite (Hws ws eq_refl) in Hrest.
  destruct (findMatchingWorkflow (listed r) n) as [e | found] eqn:Hfound; cbn [lift] in Hrest.
  { unfold bind, throw in Hrest. cbn in Hrest. discriminate. }
  rewrite bind_ret_l in Hrest. destruct found as [w |].
  - unfold ret in Hrest. injection Hrest as <- <- _.
    split; [exact Hs |]. exists w. rewrite Hl. split; [exact Hfound | reflexivity].
  - apply request_inv_returned in Hrest. destruct Hrest as [Hcreate _].
    destruct (registry_creates _ _ _ _ _ _ _ laws n ra wfId r1 Hcreate)
      as (Hs' & s & -> & Hl').
    split; [rewrite Hs'; exact Hs |].
    exists (mkWorkflow wfId s). split; [| reflexivity].
    rewrite Hl', Hl.
    assert (find (fun w => String.eqb (toUpperCase (name w)) (toUpperCase s)) (listed r) = None)
      as Hnone.
    { unfold findMatchingWorkflow in Hfound. destruct (listed r); [reflexivity |].
      injection Hfound as Hfound. exact Hfound. }
    unfold findMatchingWorkflow.
    destruct (listed r ++ [mkWorkflow wfId s])%list eqn:Happ.
    { destruct (listed r); discriminate. }
    rewrite <- Happ, (find_app_none _ _ _ Hnone). cbn [name].
    rewrite String.eqb_refl. reflexivity.
Qed.

Lemma readLiveVersion_calls wfId r :
  calls (readLiveVersion organizationId wfId r)
  = [GetTaggedWorkflowVersion organizationId wfId LIVE].
Proof.
  destruct (api_getTaggedWorkflowVersion organizationId wfId LIVE r) as [[e | v] r1] eqn:Hans.
  - rewrite (readLiveVersion_threw _ _ _ _ _ Hans). destruct (noLiveVersionYet e); reflexivity.
  - rewrite (readLiveVersion_returned _ _ _ _ _ Hans). reflexivity.
Qed.

(** What the live read returned is the live version, and reading it changed
    nothing. *)
Lemma readLiveVersion_wellBehaved wfId r live r1 cs :
  readLiveVersion organizationId wfId r = mkRun (Returned live) r1 cs ->
  same r r1 /\ liveOf r wfId = live.
Proof.
  intros H.
  destruct (api_getTaggedWorkflowVersion organizationId wfId LIVE r) as [[e | v] r2] eqn:Hans;
    destruct (registry_reads_live _ _ _ _ _ _ _ laws wfId r _ r2 Hans) as [Hsame Hlive].
  - rewrite (readLiveVersion_threw _ _ _ _ _ Hans) in H.
    destruct (noLiveVersionYet e); [| discriminate].
    injection H as <- <-. split; [exact Hsame | apply Hlive; reflexivity].
  - rewrite (readLiveVersion_returned _ _ _ _ _ Hans) in H.
    injection H as <- <-. split; assumption.
Qed.

(** A run over the key that returns leaves the key settled, having set the
    live tag at most once. *)
Lemma first_run r r1 cs :
  deployKey organizationId bucket key r = mkRun (Returned tt) r1 cs ->
  (exists text n wfId, settled r1 text n wfId) /\ (length (filter isSetTag cs) <= 1)%nat.
Proof.
  unfold deployKey. rewrite tryCatch_rethrow. intros H.
  apply bind_inv_returned in H. destruct H as ([text n] & ra & ca & cs2 & Hread & H & ->).
  apply bind_inv_returned in H. destruct H as (wfId & rb & cb & cs3 & Hfind & H & ->).
  apply bind_inv_returned in H. destruct H as (v & rc & cc & cs4 & Hreg & H & ->).
  apply bind_inv_returned in H. destruct H as (live & rd & cd & ce & Hlive & Hpromote & ->).
  destruct (readDefinition_inv _ _ _ _ _ _ _ Hread) as [Hget Hdet].
  destruct (storage_reads _ _ _ _ _ _ _ laws r _ ra Hget) as [(Hs1 & _ & _) Hstored].
  specialize (Hstored text eq_refl).
  destruct (findOrCreateWorkflow_resolves _ _ _ _ _ Hfind) as [Hs2 Hresolves].
  pose proof (registerLoop_wellBehaved
                (Z.max 1 DEFAULT_REGISTER_ATTEMPTS) (Z.max 0 DEFAULT_REGISTER_BASE_DELAY_MS)
                (mkRegisterWorkflowVersionInput organizationId wfId text)
                (Z.to_nat (Z.max 1 DEFAULT_REGISTER_ATTEMPTS)) 1 rb) as Hloop.
  fold (registerWorkflowVersionWithRetry
          (mkRegisterWorkflowVersionInput organizationId wfId text) n) in Hloop.
  cbv zeta in Hloop. rewrite Hreg in Hloop. cbn [outcome final] in Hloop.
  destruct Hloop as [(Hs3 & Hl3 & Hv3) Hid]. specialize (Hid v eq_refl). subst v.
  destruct (readLiveVersion_wellBehaved _ _ _ _ _ Hlive) as [(Hs4 & Hl4 & Hv4) Hwas].
  assert (cd = [GetTaggedWorkflowVersion organizationId wfId LIVE]) as ->.
  { rewrite <- (readLiveVersion_calls wfId rc), Hlive. reflexivity. }
  assert (filter isSetTag ca = []) as Hca.
  { replace ca with (calls (readDefinition bucket key r)) by (rewrite Hread; reflexivity).
    rewrite readDefinition_calls. reflexivity. }
  assert (filter isSetTag cb = []) as Hcb.
  { replace cb with (calls (findOrCreateWorkflow organizationId n ra))
      by (rewrite Hfind; reflexivity).
    apply findOrCreateWorkflow_calls. }
  assert (filter isSetTag cc = []) as Hcc.
  { replace cc with (calls (registerWorkflowVersionWithRetry
                              (mkRegisterWorkflowVersionInput organizationId wfId text) n rb))
      by (rewrite Hreg; reflexivity).
    apply registerWorkflowVersionWithRetry_calls. }
  rewrite !filter_app, Hca, Hcb, Hcc. cbn [app filter isSetTag].
  unfold promote in Hpromote.
  destruct (strictEq live (Some _)) eqn:Heq.
  - apply strictEq_true in Heq. unfold ret in Hpromote. injection Hpromote as <- <-.
    split; [| cbn; lia].
    exists text, n, wfId. repeat split.
    + rewrite Hs4, Hs3, Hs2, Hs1. exact Hstored.
    + exact Hdet.
    + rewrite Hl4, Hl3. exact Hresolves.
    + rewrite Hv4, Hwas. exact Heq.
  - apply request_inv_returned in Hpromote. destruct Hpromote as [Hset ->].
    destruct (registry_sets_live _ _ _ _ _ _ _ laws wfId _ rd r1 Hset) as (Hs5 & Hl5 & Hv5).
    split; [| cbn; lia].
    exists text, n, wfId. repeat split.
    + rewrite Hs5, Hs4, Hs3, Hs2, Hs1. exact Hstored.
    + exact Hdet.
    + rewrite Hl5, Hl4, Hl3. exact Hresolves.
    + exact Hv5.
Qed.

(** A run over a key that is settled does not set the live tag. *)
Lemma second_run r text n wfId :
  settled r text n wfId ->
  filter isSetTag (calls (deployKey organizationId bucket key r)) = [].
Proof.
  intros (Hstored & Hdet & (w & Hfound & Hw) & Hlive).
  unfold deployKey. rewrite tryCatch_rethrow.
  apply bind_calls_filter_run; [rewrite readDefinition_calls; reflexivity |].
  intros [text1 n1] Hout.
  destruct (s3_getObjectText bucket key r) as [[e | text0] ra] eqn:Hget.
  { unfold readDefinition in Hout.
    rewrite (bind_threw _ _ _ _ _ _ (request_threw _ _ _ _ _ Hget)) in Hout. discriminate. }
  destruct (storage_reads _ _ _ _ _ _ _ laws r _ ra Hget) as [Hsame1 Hwas].
  specialize (Hwas text0 eq_refl). rewrite Hstored in Hwas. injection Hwas as <-.
  rewrite (Hdet r text ra Hget eq_refl) in Hout |- *. cbn [outcome final] in Hout |- *.
  injection Hout as <- <-.
  apply bind_calls_filter_run; [apply findOrCreateWorkflow_calls |].
  intros wfId1 Hout.
  destruct (api_listWorkflows organizationId ra) as [[e | ws] rb] eqn:Hlist.
  { unfold findOrCreateWorkflow in Hout.
    rewrite (bind_threw _ _ _ _ _ _ (request_threw _ _ _ _ _ Hlist)) in Hout. discriminate. }
  destruct (registry_lists _ _ _ _ _ _ _ laws ra _ rb Hlist) as [Hsame2 Hws].
  specialize (Hws ws eq_refl). subst ws.
  assert (findOrCreateWorkflow organizationId n ra
          = mkRun (Returned wfId) rb [ListWorkflows organizationId]) as Hfind.
  { unfold findOrCreateWorkflow.
    rewrite (bind_returned _ _ _ _ _ _ (request_returned _ _ _ _ _ Hlist)).
    destruct Hsame1 as (_ & -> & _). rewrite Hfound. cbn [lift]. rewrite bind_ret_l, Hw.
    reflexivity. }
  rewrite Hfind in Hout |- *. cbn [outcome final] in Hout |- *. injection Hout as <-.
  apply bind_calls_filter_run; [apply registerWorkflowVersionWithRetry_calls |].
  intros v Hout.
  pose proof (registerLoop_wellBehaved
                (Z.max 1 DEFAULT_REGISTER_ATTEMPTS) (Z.max 0 DEFAULT_REGISTER_BASE_DELAY_MS)
                (mkRegisterWorkflowVersionInput organizationId wfId text)
                (Z.to_nat (Z.max 1 DEFAULT_REGISTER_ATTEMPTS)) 1 rb) as Hloop.
  fold (registerWorkflowVersionWithRetry
          (mkRegisterWorkflowVersionInput organizationId wfId text) n) in Hloop.
  cbv zeta in Hloop. destruct Hloop as [Hsame3 Hid]. specialize (Hid v Hout). subst v.
  set (rc := final (registerWorkflowVersionWithRetry
                      (mkRegisterWorkflowVersionInput organizationId wfId text) n rb)) in *.
  apply bind_calls_filter_run; [rewrite readLiveVersion_calls; reflexivity |].
  intros live Hout1.
  destruct (readLiveVersion organizationId wfId rc) as [o rd cd] eqn:Hread.
  cbn [outcome final] in Hout1 |- *. subst o.
  destruct (readLiveVersion_wellBehaved _ _ _ _ _ Hread) as [_ Hwas].
  assert (liveOf rc wfId = liveOf r wfId) as Hkept.
  { destruct Hsame1 as (_ & _ & H1), Hsame2 as (_ & _ & H2), Hsame3 as (_ & _ & H3).
    rewrite H3, H2, H1. reflexivity. }
  rewrite Hkept, Hlive in Hwas. subst live.
  unfold promote. cbn [strictEq]. rewrite String.eqb_refl. reflexivity.
Qed.

(** Two reconciliations of one unchanged definition: the second sets no
    live tag, so the tag is set at most once over both. *)
Lemma reconciling_twice r r1 cs1 r1' :
  deployWorkflows organizationId bucket [key] r = mkRun (Returned tt) r1 cs1 ->
  same r1 r1' ->
  let second := deployWorkflows organizationId bucket [key] r1' in
  filter isSetTag (calls second) = [] /\
  (length (filter isSetTag (cs1 ++ calls second)) <= 1)%nat.
Proof.
  intros Hfirst Hsame second. subst second.
  rewrite deployWorkflows_single in Hfirst |- *.
  destruct (first_run _ _ _ Hfirst) as [(text & n & wfId & Hsettled) Honce].
  pose proof (second_run _ _ _ _ (settled_same _ _ _ _ _ Hsame Hsettled)) as Hnone.
  split; [exact Hnone |].
  rewrite filter_app, Hnone, app_nil_r. exact Honce.
Qed.

End Idempotence.

(** C6. For a key whose version has been registered: when the version that
    is live is the one just registered, the live tag is not set for that key
    and the batch goes on with the next key; otherwise (another version is
    live, or none) the live tag is set exactly once, to the version just
    registered.  Consequently, over collaborators that behave (version ids
    determined by content, and stores that change only by the program's own
    calls), reconciling one unchanged definition twice sets the live tag at
    most once over both runs: the second run sets none. *)
Theorem C6_promotion_idempotent :
  (forall organizationId bucket key r definitionStr workflowName r1 cs1 wfId r2 cs2
          registered r3 cs3,
     readDefinition bucket key r = mkRun (Returned (definitionStr, workflowName)) r1 cs1 ->
     findOrCreateWorkflow organizationId workflowName r1 = mkRun (Returned wfId) r2 cs2 ->
     registerWorkflowVersionWithRetry
       (mkRegisterWorkflowVersionInput organizationId wfId definitionStr) workflowName r2
     = mkRun (Returned registered) r3 cs3 ->
     forall r4,
       (api_getTaggedWorkflowVersion organizationId wfId LIVE r3 = (inr registered, r4) ->
        filter isSetTag (calls (deployKey organizationId bucket key r)) = [] /\
        forall rest,
          let next := deployWorkflows organizationId bucket rest r4 in
          deployWorkflows organizationId bucket (key :: rest) r =
          mkRun (outcome next) (final next)
                ((cs1 ++ cs2 ++ cs3 ++ [GetTaggedWorkflowVersion organizationId wfId LIVE])
                   ++ calls next)) /\
       (forall live,
          readLiveVersion organizationId wfId r3
          = mkRun (Returned live) r4 [GetTaggedWorkflowVersion organizationId wfId LIVE] ->
          live <> Some registered ->
          filter isSetTag (calls (deployKey organizationId bucket key r))
          = [SetWorkflowVersionTag organizationId wfId LIVE registered])) /\
  (forall organizationId bucket key stored listed liveOf versionIdOf,
     WellBehaved organizationId bucket key stored listed liveOf versionIdOf ->
     forall r r1 cs1 r1',
       deployWorkflows organizationId bucket [key] r = mkRun (Returned tt) r1 cs1 ->
       undisturbed stored listed liveOf r1 r1' ->
       let second := deployWorkflows organizationId bucket [key] r1' in
       filter isSetTag (calls second) = [] /\
       (length (filter isSetTag (cs1 ++ calls second)) <= 1)%nat).
Proof.
  split.
  - intros organizationId bucket key r definitionStr workflowName r1 cs1 wfId r2 cs2
           registered r3 cs3 Hread Hfind Hregistered r4.
    exact (promotion_decision organizationId bucket key r definitionStr workflowName r1 cs1
             wfId r2 cs2 registered r3 cs3 Hread Hfind Hregistered r4).
  - intros organizationId bucket key stored listed liveOf versionIdOf laws.
    exact (reconciling_twice organizationId bucket key stored listed liveOf versionIdOf laws).
Qed.

(** *** The lifecycle handler *)

Lemma required_present value msg s :
  value = Some s -> s <> EmptyString -> @required Remote value msg = ret s.
Proof. intros -> Hs. destruct s; [contradiction | reflexivity]. Qed.

Section Configured.

(** An invocation whose configuration is complete. *)
Variables (event : CloudFormationCustomResourceEvent) (keys : list string).
Variables (bucket organizationId authSecretName : string).

Hypothesis Hkeys : JSON_parse_keys (orElse (DEFINITION_KEYS_JSON process_env) "[]") = inr keys.
Hypothesis Hbucket : DEFINITION_BUCKET process_env = Some bucket /\ bucket <> EmptyString.
Hypothesis Horganization :
  ORGANIZATION_ID process_env = Some organizationId /\ organizationId <> EmptyString.
Hypothesis Hsecret :
  AUTH_SECRET_NAME process_env = Some authSecretName /\ authSecretName <> EmptyString.

Let readSecret : Call := GetSecretValue authSecretName.

Lemma handler_configured r :
  handler event r =
  bind (request readSecret (secrets_getSecretValue authSecretName))
       (fun authToken =>
          if strictEq authToken (Some PLACEHOLDER_TOKEN)
          then ret (skippedResponse (RequestType event))
          else dispatch (RequestType event) organizationId bucket keys
                        (strictEq (IGNORE_FAILURES process_env) (Some "true"))) r.
Proof.
  unfold handler. rewrite Hkeys. cbn [lift]. rewrite bind_ret_l.
  rewrite (required_present _ _ _ (proj1 Hbucket) (proj2 Hbucket)), bind_ret_l.
  rewrite (required_present _ _ _ (proj1 Horganization) (proj2 Horganization)), bind_ret_l.
  rewrite (required_present _ _ _ (proj1 Hsecret) (proj2 Hsecret)), bind_ret_l.
  reflexivity.
Qed.



(** A Delete whose configuration is complete and whose credential is read
    returns a success outcome after the one read of the secret. *)
Lemma handler_delete_configured r token r1 :
  RequestType event = Delete ->
  secrets_getSecretValue authSecretName r = (inr token, r1) ->
  handler event r =
  mkRun (Returned (if strictEq token (Some PLACEHOLDER_TOKEN)
                   then skippedResponse Delete else ranResponse Delete))
        r1 [readSecret].
Proof.
  intros Htype Hread. rewrite handler_configured.
  rewrite (bind_returned _ _ _ _ _ _ (request_returned _ _ _ _ _ Hread)).
  rewrite Htype. destruct (strictEq token (Some PLACEHOLDER_TOKEN)); reflexivity.
Qed.

End Configured.

Lemma bind_throw_l {A B} (e : Thrown) (k : A -> Async Remote B) r :
  bind (throw e) k r = mkRun (Threw e) r [].
Proof. reflexivity. Qed.



Lemma required_calls value msg (r : Remote) : calls (required value msg r) = [].
Proof. destruct value as [[| c s] |]; reflexivity. Qed.

(** A Delete makes no storage call and no registry call, whatever the
    configuration and the secret store. *)
Lemma handler_delete_calls event r :
  RequestType event = Delete -> filter isRemoteWork (calls (handler event r)) = [].
Proof.
  intros Htype. unfold handler. rewrite Htype.
  apply bind_calls_filter; [rewrite lift_calls; reflexivity | intros keys r1].
  apply bind_calls_filter; [rewrite required_calls; reflexivity | intros bucket r2].
  apply bind_calls_filter; [rewrite required_calls; reflexivity | intros org r3].
  apply bind_calls_filter; [rewrite required_calls; reflexivity | intros secretName r4].
  apply bind_calls_filter; [rewrite request_calls; reflexivity | intros token r5].
  destruct (strictEq token (Some PLACEHOLDER_TOKEN)); reflexivity.
Qed.

(** C10, as the code has it.  A Delete never makes a storage call or a
    registry call; and when the configuration is complete and the credential
    is read, it returns a success outcome after that one read.  (A missing
    configuration value or a failing read of the credential is thrown.) *)
Theorem C10_delete_no_remote_work event :
  RequestType event = Delete ->
  (forall r, filter isRemoteWork (calls (handler event r)) = []) /\
  (forall keys bucket organizationId authSecretName r token r1,
     JSON_parse_keys (orElse (DEFINITION_KEYS_JSON process_env) "[]") = inr keys ->
     DEFINITION_BUCKET process_env = Some bucket /\ bucket <> EmptyString ->
     ORGANIZATION_ID process_env = Some organizationId /\ organizationId <> EmptyString ->
     AUTH_SECRET_NAME process_env = Some authSecretName /\ authSecretName <> EmptyString ->
     secrets_getSecretValue authSecretName r = (inr token, r1) ->
     exists response,
       handler event r = mkRun (Returned response) r1 [GetSecretValue authSecretName] /\
       PhysicalResourceId response = PHYSICAL_RESOURCE_ID).
Proof.
  intros Htype. split.
  - intros r. apply handler_delete_calls, Htype.
  - intros keys bucket organizationId authSecretName r token r1 Hk Hb Ho Hs Hread.
    rewrite (handler_delete_configured event keys bucket organizationId authSecretName
               Hk Hb Ho Hs r token r1 Htype Hread).
    eexists. split; [reflexivity |].
    destruct (strictEq token (Some PLACEHOLDER_TOKEN)); reflexivity.
Qed.

End Properties.

(** ** The properties on the in-memory world *)


(** One attempt against a registry that answers 400. *)
Lemma C2_witness :
  registerWorkflowVersionWithRetry (RT := Demo.rejectingRegistry)
    Demo.billingPayload (JStr "billing") Demo.start
  = mkRun (Threw Demo.badRequest) Demo.start [RegisterWorkflowVersion Demo.billingPayload].
Proof.
  apply (C2_retry_classification (RT := Demo.rejectingRegistry) Demo.billingPayload
           (JStr "billing") Demo.start Demo.badRequest Demo.start); reflexivity.
Defined.

(** Three keys, the second of which is not JSON: the first is deployed, the
    third is never fetched. *)
Lemma C3_witness :
  deployWorkflows (RT := Demo.plain) "org-1" "definitions-bucket"
    (["a.json"] ++ "b.json" :: ["c.json"]) Demo.start
  = mkRun (Threw Demo.syntaxError) Demo.billingLive
          (Demo.billingCalls ++ [GetObject "definitions-bucket" "b.json"]).
Proof.
  apply (C3_sequential_abort (RT := Demo.plain) "org-1" "definitions-bucket"
           ["a.json"] "b.json" ["c.json"] Demo.start Demo.billingLive Demo.billingCalls
           Demo.syntaxError Demo.billingLive [GetObject "definitions-bucket" "b.json"]);
    vm_compute; reflexivity.
Defined.




(** The in-memory world behaves. *)
Lemma Demo_wellBehaved :
  WellBehaved (RT := Demo.plain) "org-1" "definitions-bucket" "a.json"
    Demo.storedText Demo.registry Demo.liveVersion Demo.versionOf.
Proof.
  constructor.
  - intros r res r' H. cbn in H. unfold Demo.storedText.
    destruct (Demo.lookup "a.json" (Demo.objects r)) as [text |];
      injection H as <- <-; (split; [repeat split | intros t Ht; congruence]).
  - intros r res r' H. cbn in H. injection H as <- <-.
    split; [repeat split | intros ws Hws; congruence].
  - intros n r id r' H. cbn in H. destruct n; try discriminate.
    injection H as <- <-. split; [reflexivity |]. exists s. split; reflexivity.
  - intros payload r res r' H. cbn in H. injection H as <- <-.
    split; [repeat split | intros v Hv; injection Hv as <-; reflexivity].
  - intros wfId r res r' H. cbn in H. unfold Demo.liveVersion.
    destruct (Demo.lookup wfId (Demo.liveTags r)) as [v |];
      injection H as <- <-; (split; [repeat split | reflexivity]).
  - intros wfId v r r' H. cbn in H. injection H as <-.
    repeat split. unfold Demo.liveVersion, Demo.setLive. cbn. rewrite String.eqb_refl.
    reflexivity.
  - intros ms r. repeat split.
Qed.

(** The definition of [a.json], reconciled from scratch and reconciled again. *)
Lemma C6_witness :
  filter isSetTag (calls (deployKey (RT := Demo.plain) "org-1" "definitions-bucket" "a.json"
                            Demo.billingLive)) = [] /\
  filter isSetTag (calls (deployKey (RT := Demo.plain) "org-1" "definitions-bucket" "a.json"
                            Demo.start))
  = [SetWorkflowVersionTag "org-1" "wf-billing" LIVE ("sha-" ++ Demo.billingText)] /\
  filter isSetTag (calls (deployWorkflows (RT := Demo.plain) "org-1" "definitions-bucket"
                            ["a.json"] Demo.billingLive)) = [] /\
  (length (filter isSetTag
             (Demo.billingCalls
                ++ calls (deployWorkflows (RT := Demo.plain) "org-1" "definitions-bucket"
                            ["a.json"] Demo.billingLive))) <= 1)%nat.
Proof.
  destruct (C6_promotion_idempotent (RT := Demo.plain)) as [Hkey Htwice].
  split; [| split].
  - unshelve epose proof
      (Hkey "org-1" "definitions-bucket" "a.json" Demo.billingLive
         Demo.billingText (JStr "billing") Demo.billingLive
         [GetObject "definitions-bucket" "a.json"]
         "wf-billing" Demo.billingLive [ListWorkflows "org-1"]
         ("sha-" ++ Demo.billingText) Demo.billingLive
         [RegisterWorkflowVersion Demo.billingPayload] _ _ _ Demo.billingLive) as H;
      [evaluated .. | ].
    apply (proj1 H). evaluated.
  - unshelve epose proof
      (Hkey "org-1" "definitions-bucket" "a.json" Demo.start
         Demo.billingText (JStr "billing") Demo.start
         [GetObject "definitions-bucket" "a.json"]
         "wf-billing" Demo.billingCreated
         [ListWorkflows "org-1"; RegisterWorkflow "org-1" (JStr "billing")]
         ("sha-" ++ Demo.billingText) Demo.billingCreated
         [RegisterWorkflowVersion Demo.billingPayload] _ _ _ Demo.billingCreated) as H;
      [evaluated .. | ].
    apply (proj2 H None); evaluated.
  - apply (Htwice "org-1" "definitions-bucket" "a.json" Demo.storedText Demo.registry
             Demo.liveVersion Demo.versionOf Demo_wellBehaved Demo.start Demo.billingLive
             Demo.billingCalls Demo.billingLive).
    + evaluated.
    + repeat split.
Defined.

(** A first deployment, where nothing is live yet; and a registry whose live
    read answers 503. *)
Lemma C7_witness :
  calls (deployKey (RT := Demo.plain) "org-1" "definitions-bucket" "a.json" Demo.start)
  = Demo.billingCalls /\
  deployWorkflows (RT := Demo.liveReadDown) "org-1" "definitions-bucket"
    ("a.json" :: ["c.json"]) Demo.start
  = mkRun (Threw Demo.unavailable) Demo.billingCreated
          (Demo.billingRegistered ++ [GetTaggedWorkflowVersion "org-1" "wf-billing" LIVE]).
Proof.
  split.
  - unshelve epose proof
      (C7_live_read (RT := Demo.plain) "org-1" "definitions-bucket" "a.json" Demo.start
         Demo.billingText (JStr "billing") Demo.start [GetObject "definitions-bucket" "a.json"]
         "wf-billing" Demo.billingCreated
         [ListWorkflows "org-1"; RegisterWorkflow "org-1" (JStr "billing")]
         ("sha-" ++ Demo.billingText) Demo.billingCreated
         [RegisterWorkflowVersion Demo.billingPayload] _ _ _
         Demo.notFound Demo.billingCreated _) as H;
      [evaluated .. | ].
    refine (proj2 (proj1 H _)). apply says_not_found. reflexivity.
  - unshelve epose proof
      (C7_live_read (RT := Demo.liveReadDown) "org-1" "definitions-bucket" "a.json" Demo.start
         Demo.billingText (JStr "billing") Demo.start [GetObject "definitions-bucket" "a.json"]
         "wf-billing" Demo.billingCreated
         [ListWorkflows "org-1"; RegisterWorkflow "org-1" (JStr "billing")]
         ("sha-" ++ Demo.billingText) Demo.billingCreated
         [RegisterWorkflowVersion Demo.billingPayload] _ _ _
         Demo.unavailable Demo.billingCreated _) as H;
      [evaluated .. | ].
    refine (proj2 (proj2 H _) ["c.json"]).
    intros Hsays. apply noLiveVersionYet_spec in Hsays. vm_compute in Hsays. discriminate.
Defined.

(** C7, as stated, fails: a 500 of type [InternalServerError], which is not
    a NotFound, is not thrown on when its message quotes the tag: the read is
    taken as [null], the live tag is set and the batch returns. *)
Lemma C7_counterexample :
  api_getTaggedWorkflowVersion (Runtime := Fixtures.liveReadConfused) "org-1" "wf-billing" LIVE
    Demo.billingCreated
  = (inl (ThrownObject Fixtures.confused), Demo.billingCreated) /\
  errorType Fixtures.confused = Some "InternalServerError" /\
  metadataStatus Fixtures.confused = Some 500 /\
  deployWorkflows (RT := Fixtures.liveReadConfused) "org-1" "definitions-bucket" ["a.json"]
    Demo.start
  = mkRun (Returned tt) Demo.billingLive Demo.billingCalls.
Proof. repeat split; vm_compute; reflexivity. Qed.

(** [billing] against a registry that lists [Billing], and against an empty
    registry. *)
Lemma C9_witness :
  (exists w, In w [mkWorkflow "wf-77" "Billing"] /\
             Demo.asciiUpper (name w) = Demo.asciiUpper "billing" /\
             findOrCreateWorkflow (RT := Demo.plain) "org-1" (JStr "billing") Demo.withBilling
             = mkRun (Returned (workflowId w)) Demo.withBilling [ListWorkflows "org-1"]) /\
  findOrCreateWorkflow (RT := Demo.plain) "org-1" (JStr "billing") Demo.start
  = mkRun (Returned "wf-billing") Demo.billingCreated
          [ListWorkflows "org-1"; RegisterWorkflow "org-1" (JStr "billing")].
Proof.
  split.
  - apply (proj1 (C9_find_or_create (RT := Demo.plain) "org-1" "billing" Demo.withBilling
                    [mkWorkflow "wf-77" "Billing"] Demo.withBilling eq_refl)).
    exists (mkWorkflow "wf-77" "Billing"). split; [left; reflexivity | reflexivity].
  - apply (proj2 (C9_find_or_create (RT := Demo.plain) "org-1" "billing" Demo.start
                    [] Demo.start eq_refl)).
    intros w [].
Defined.

(** A Delete with a complete configuration and a real credential. *)
Lemma C10_witness :
  filter isRemoteWork (calls (handler (RT := Demo.configured None) (mkEvent Delete) Demo.start))
  = [] /\
  exists response,
    handler (RT := Demo.configured None) (mkEvent Delete) Demo.start
    = mkRun (Returned response) Demo.start [GetSecretValue "/justworkflowit/api/authToken"] /\
    PhysicalResourceId response = PHYSICAL_RESOURCE_ID.
Proof.
  destruct (C10_delete_no_remote_work (RT := Demo.configured None) (mkEvent Delete) eq_refl)
    as [Hcalls Hsuccess].
  split; [apply Hcalls |].
  apply (Hsuccess ["a.json"; "b.json"; "c.json"] "definitions-bucket" "org-1"
           "/justworkflowit/api/authToken" Demo.start (Some "real-token") Demo.start);
    evaluated.
Defined.

(** C10, as stated, fails: a Delete whose read of the credential is refused
    throws. *)
Lemma C10_counterexample :
  RequestType (mkEvent Delete) = Delete /\
  handler (RT := Demo.secretDenied) (mkEvent Delete) Demo.start
  = mkRun (Threw Demo.accessDenied) Demo.start [GetSecretValue "/justworkflowit/api/authToken"].
Proof. split; vm_compute; reflexivity. Qed.

(** A blob that is not JSON, and a definition without a [workflowName]. *)
Lemma C8_witness :
  deployWorkflows (RT := Demo.plain) "org-1" "definitions-bucket" ("b.json" :: ["c.json"])
    Demo.start
  = mkRun (Threw Demo.syntaxError) Demo.start [GetObject "definitions-bucket" "b.json"] /\
  deployWorkflows (RT := Demo.plain) "org-1" "definitions-bucket" ("a.json" :: ["c.json"])
    Demo.unnamed
  = mkRun (Threw (missingWorkflowName "a.json")) Demo.unnamed
          [GetObject "definitions-bucket" "a.json"].
Proof.
  split.
  - apply (proj1 (C8_malformed_definition_aborts (RT := Demo.plain) "org-1"
                    "definitions-bucket" "b.json" ["c.json"] Demo.start "not json" Demo.start
                    ltac:(evaluated)) Demo.syntaxError).
    evaluated.
  - apply (proj2 (C8_malformed_definition_aborts (RT := Demo.plain) "org-1"
                    "definitions-bucket" "a.json" ["c.json"] Demo.unnamed "{}" Demo.unnamed
                    ltac:(evaluated)) (JObj [])); evaluated.
Defined.

(** C8, as stated, fails: a definition whose [workflowName] is the number 5
    has no non-empty [workflowName] string, yet it is not rejected when it is
    read: the reconciler lists the workflows and asks the registry for a
    workflow named 5. *)
Lemma C8_counterexample :
  JSON_parse (Runtime := Demo.plain) Demo.definitionNumbered
  = inr (JObj [("workflowName", JNum 5)]) /\
  deployWorkflows (RT := Demo.plain) "org-1" "definitions-bucket" ["a.json"] Demo.numbered
  = mkRun (Threw Demo.badRequest) Demo.numbered
          [GetObject "definitions-bucket" "a.json"; ListWorkflows "org-1";
           RegisterWorkflow "org-1" (JNum 5)].
Proof. split; vm_compute; reflexivity. Qed.

(** ** Further properties of the lambda *)

Section MoreProperties.

Context {Remote : Type} `{RT : Runtime Remote}.

(** *** Calls of composed runs *)

Lemma bind_calls {A B} (m : Async Remote A) (k : A -> Async Remote B) r :
  calls (bind m k r)
  = (calls (m r) ++ match outcome (m r) with
                    | Returned a => calls (k a (final (m r)))
                    | Threw _ => []
                    end)%list.
Proof.
  unfold bind. destruct (m r) as [[a | e] r1 cs]; cbn [outcome final calls].
  - reflexivity.
  - rewrite app_nil_r. reflexivity.
Qed.

Lemma count_app f cs1 cs2 : count f (cs1 ++ cs2) = (count f cs1 + count f cs2)%nat.
Proof. unfold count. rewrite filter_app, length_app. reflexivity. Qed.

(** *** The retry policy, whatever the registry answers *)


Lemma backoff_nonnegative baseDelayMs from n :
  0 <= baseDelayMs -> 0 <= from -> Forall (fun delay => 0 <= delay) (backoff baseDelayMs from n).
Proof.
  intros Hbase. revert from. induction n as [| n IH]; intros from Hfrom; cbn; constructor.
  - apply Z.mul_nonneg_nonneg; [exact Hbase | apply Z.pow_nonneg; lia].
  - apply IH. lia.
Qed.

Lemma backoff_zero from n : Forall (fun delay => delay = 0) (backoff 0 from n).
Proof.
  revert from. induction n as [| n IH]; intros from; cbn [backoff]; constructor;
    [apply Z.mul_0_l | apply IH].
Qed.

(** The loop from [attempt] on: it attempts at least once and at most as
    often as attempts remain, waits once between two attempts and for
    [baseDelayMs * 2^(attempt-1)] doubling each time, and calls nothing else. *)
Lemma registerLoop_shape maxAttempts baseDelayMs payload fuel :
  forall attempt r,
    (0 < fuel)%nat ->
    Z.of_nat fuel = maxAttempts - attempt + 1 ->
    let cs := calls (registerLoop maxAttempts baseDelayMs payload fuel attempt r) in
    (1 <= attempts cs <= fuel)%nat /\
    delays cs = backoff baseDelayMs (attempt - 1) (attempts cs - 1) /\
    registrations cs = repeat payload (attempts cs) /\
    Forall (fun c => isRegisterAttempt c || isSleep c = true) cs.
Proof.
  induction fuel as [| fuel IH]; intros attempt r Hpos Hfuel; [lia |].
  cbn [registerLoop].
  replace (attempt <=? maxAttempts) with true by (symmetry; apply Z.leb_le; lia).
  unfold tryCatch, request.
  destruct (api_registerWorkflowVersion payload r) as [[e | v] r1];
    cbn [outcome final calls].
  - destruct ((attempt >=? maxAttempts) || negb (shouldRetryRegister e))%bool eqn:Hstop.
    + cbn. repeat split; try lia. repeat constructor.
    + apply orb_false_elim in Hstop. destruct Hstop as [Hmore _].
      rewrite Z.geb_leb in Hmore. apply Z.leb_gt in Hmore.
      unfold bind, sleep. cbn [outcome final calls app].
      destruct (IH (attempt + 1) (elapse (baseDelayMs * 2 ^ (attempt - 1)) r1))
        as (Hcount & Hdelays & Hregs & Hkinds); [lia | lia |].
      set (rest := calls (registerLoop maxAttempts baseDelayMs payload fuel (attempt + 1)
                            (elapse (baseDelayMs * 2 ^ (attempt - 1)) r1))) in *.
      unfold attempts, delays, registrations in *.
      cbn [filter isRegisterAttempt flat_map app length].
      repeat split; try lia.
      * rewrite Hdelays.
        replace (S (length (filter isRegisterAttempt rest)) - 1)%nat
          with (S (length (filter isRegisterAttempt rest) - 1)) by lia.
        cbn [backoff]. replace (attempt - 1 + 1) with (attempt + 1 - 1) by lia. reflexivity.
      * rewrite Hregs. reflexivity.
      * repeat constructor. exact Hkinds.
  - cbn. repeat split; try lia. repeat constructor.
Qed.

(** The calls of a run of the retry policy. *)
Lemma retry_shape payload workflowName r :
  let cs := calls (registerWorkflowVersionWithRetry payload workflowName r) in
  (1 <= attempts cs)%nat /\
  Z.of_nat (attempts cs) <= Z.max 1 DEFAULT_REGISTER_ATTEMPTS /\
  delays cs = backoff (Z.max 0 DEFAULT_REGISTER_BASE_DELAY_MS) 0 (attempts cs - 1) /\
  registrations cs = repeat payload (attempts cs) /\
  Forall (fun c => isRegisterAttempt c || isSleep c = true) cs.
Proof.
  unfold registerWorkflowVersionWithRetry.
  set (maxAttempts := Z.max 1 DEFAULT_REGISTER_ATTEMPTS).
  destruct (registerLoop_shape maxAttempts (Z.max 0 DEFAULT_REGISTER_BASE_DELAY_MS) payload
              (Z.to_nat maxAttempts) 1 r)
    as (Hcount & Hdelays & Hregs & Hkinds); [subst maxAttempts; lia .. |].
  cbv zeta. change (1 - 1) with 0 in Hdelays. repeat split; try lia; assumption.
Qed.


(** X2. When the configured number of attempts and the configured base
    delay are whole numbers [maxAttempts] and [baseDelay], and the longest
    wait that they allow is a finite number, the waits of a run are
    [b, 2b, 4b, ...] for [b = max(0, baseDelay)], one per retry: none is
    negative, and a base delay that is negative or zero makes them all zero. *)
Theorem X2_retry_backoff_schedule maxAttempts baseDelay payload workflowName r :
  DEFAULT_REGISTER_ATTEMPTS = maxAttempts ->
  DEFAULT_REGISTER_BASE_DELAY_MS = baseDelay ->
  Z.max 1 baseDelay * 2 ^ (maxAttempts - 2) <= Number_MAX_VALUE ->
  let cs := calls (registerWorkflowVersionWithRetry payload workflowName r) in
  let baseDelayMs := Z.max 0 baseDelay in
  delays cs = backoff baseDelayMs 0 (attempts cs - 1) /\
  Forall (fun delay => 0 <= delay) (delays cs) /\
  (baseDelay <= 0 -> Forall (fun delay => delay = 0) (delays cs)).
Proof.
  intros _ <- _.
  destruct (retry_shape payload workflowName r) as (_ & _ & Hdelays & _).
  cbv zeta. rewrite Hdelays. split; [reflexivity |]. split.
  - apply backoff_nonnegative; lia.
  - intros Hneg. rewrite (Z.max_l 0 _ Hneg). apply backoff_zero.
Qed.

(** X3. Configuring one attempt or fewer (zero, a negative number) still
    makes the one attempt, and never a wait: the run is that attempt alone. *)
Theorem X3_retry_single_attempt payload workflowName r :
  DEFAULT_REGISTER_ATTEMPTS <= 1 ->
  calls (registerWorkflowVersionWithRetry payload workflowName r)
  = [RegisterWorkflowVersion payload] /\
  outcome (registerWorkflowVersionWithRetry payload workflowName r)
  = match fst (api_registerWorkflowVersion payload r) with
    | inr v => Returned v
    | inl e => Threw e
    end.
Proof.
  intros Hconfigured. unfold registerWorkflowVersionWithRetry.
  rewrite (Z.max_l 1 _ Hconfigured). change (Z.to_nat 1) with 1%nat.
  cbn [registerLoop]. change (1 <=? 1) with true. change (1 >=? 1) with true.
  unfold tryCatch, request.
  destruct (api_registerWorkflowVersion payload r) as [[e | v] r1]; cbn; split; reflexivity.
Qed.

(** *** The reconciler, whatever the collaborators answer *)

Lemma retry_calls_quiet cs :
  Forall (fun c => isRegisterAttempt c || isSleep c = true) cs ->
  Forall (fun c => isGetObject c = false) cs /\
  count isListWorkflows cs = 0%nat /\ count isRegisterWorkflow cs = 0%nat /\
  count isGetTagged cs = 0%nat /\ count isSetTag cs = 0%nat.
Proof.
  induction 1 as [| c cs Hc _ (IH1 & IH2 & IH3 & IH4 & IH5)].
  - repeat split. constructor.
  - unfold count in *. destruct c; cbn in Hc; try discriminate; cbn;
      (repeat split; [constructor; [reflexivity | exact IH1] | assumption ..]).
Qed.

Lemma findOrCreateWorkflow_shape organizationId workflowName r :
  let run := findOrCreateWorkflow organizationId workflowName r in
  calls run = [ListWorkflows organizationId] \/
  calls run = [ListWorkflows organizationId; RegisterWorkflow organizationId workflowName].
Proof.
  unfold findOrCreateWorkflow. cbv zeta. rewrite bind_calls, request_calls.
  destruct (outcome (request _ _ r)) as [ws | e]; [| left; reflexivity].
  rewrite bind_calls, lift_calls.
  destruct (outcome (lift _ _)) as [[w |] | e]; cbn [app];
    [left; reflexivity | right; rewrite request_calls; reflexivity | left; reflexivity].
Qed.

Lemma promote_shape organizationId wfId live registered (r : Remote) :
  let run := promote organizationId wfId live registered r in
  calls run = [] \/ calls run = [SetWorkflowVersionTag organizationId wfId LIVE registered].
Proof.
  unfold promote. cbv zeta. destruct (strictEq live (Some registered));
    [left; reflexivity | right; apply request_calls].
Qed.

(** The calls of one key: the fetch of the key, and then what the steps that
    were reached called, each step at most once and in its turn. *)
Lemma deployKey_shape organizationId bucket key r :
  exists tail,
    calls (deployKey organizationId bucket key r) = GetObject bucket key :: tail /\
    Forall (fun c => isGetObject c = false) tail /\
    (count isSetTag tail <= count isGetTagged tail)%nat /\
    (count isGetTagged tail <= count isListWorkflows tail)%nat /\
    (count isRegisterWorkflow tail <= count isListWorkflows tail)%nat /\
    (count isListWorkflows tail <= 1)%nat.
Proof.
  unfold deployKey. rewrite tryCatch_rethrow, bind_calls, readDefinition_calls.
  destruct (outcome (readDefinition bucket key r)) as [[text n] | e].
  2: { exists []. repeat split; try (cbn; lia). constructor. }
  set (r1 := final (readDefinition bucket key r)).
  rewrite bind_calls.
  assert (exists found,
             calls (findOrCreateWorkflow organizationId n r1) = found /\
             Forall (fun c => isGetObject c = false) found /\
             count isSetTag found = 0%nat /\ count isGetTagged found = 0%nat /\
             count isListWorkflows found = 1%nat /\
             (count isRegisterWorkflow found <= 1)%nat)
    as (found & -> & Hf1 & Hf2 & Hf3 & Hf4 & Hf5).
  { destruct (findOrCreateWorkflow_shape organizationId n r1) as [-> | ->];
      eexists; (split; [reflexivity |]); repeat split; try (cbn; lia); repeat constructor. }
  destruct (outcome (findOrCreateWorkflow organizationId n r1)) as [wfId | e].
  2: { exists found. rewrite app_nil_r. repeat split; try lia; assumption. }
  set (r2 := final (findOrCreateWorkflow organizationId n r1)).
  rewrite bind_calls.
  set (payload := mkRegisterWorkflowVersionInput organizationId wfId text).
  destruct (retry_shape payload n r2) as (_ & _ & _ & _ & Hkinds).
  apply retry_calls_quiet in Hkinds.
  destruct Hkinds as (Hr1 & Hr2 & Hr3 & Hr4 & Hr5).
  set (tried := calls (registerWorkflowVersionWithRetry payload n r2)) in *.
  destruct (outcome (registerWorkflowVersionWithRetry payload n r2)) as [registered | e].
  2: { exists (found ++ tried)%list. rewrite app_nil_r.
       split; [reflexivity |]. split; [apply Forall_app; split; assumption |].
       repeat split; tally. }
  set (r3 := final (registerWorkflowVersionWithRetry payload n r2)).
  rewrite bind_calls, readLiveVersion_calls.
  destruct (outcome (readLiveVersion organizationId wfId r3)) as [live | e].
  2: { exists (found ++ tried ++ [GetTaggedWorkflowVersion organizationId wfId LIVE])%list.
       rewrite app_nil_r. split; [reflexivity |].
       split; [repeat (apply Forall_app; split); try assumption; repeat constructor |].
       repeat split; tally. }
  set (r4 := final (readLiveVersion organizationId wfId r3)).
  exists (found ++ tried ++ [GetTaggedWorkflowVersion organizationId wfId LIVE]
            ++ calls (promote organizationId wfId live registered r4))%list.
  split; [reflexivity |].
  destruct (promote_shape organizationId wfId live registered r4) as [-> | ->];
    (split; [repeat (apply Forall_app; split); try assumption; repeat constructor |]);
    repeat split; tally.
Qed.

Lemma fetchedKeys_app cs1 cs2 :
  fetchedKeys (cs1 ++ cs2) = (fetchedKeys cs1 ++ fetchedKeys cs2)%list.
Proof. apply flat_map_app. Qed.

Lemma fetchedKeys_none cs : Forall (fun c => isGetObject c = false) cs -> fetchedKeys cs = [].
Proof.
  induction 1 as [| c cs Hc _ IH]; [reflexivity |].
  destruct c; try discriminate; exact IH.
Qed.

Lemma count_none f cs : Forall (fun c => f c = false) cs -> count f cs = 0%nat.
Proof.
  unfold count. induction 1 as [| c cs Hc _ IH]; [reflexivity |].
  cbn. rewrite Hc. exact IH.
Qed.

Lemma deployWorkflows_calls organizationId bucket key rest r :
  calls (deployWorkflows organizationId bucket (key :: rest) r)
  = (calls (deployKey organizationId bucket key r)
       ++ match outcome (deployKey organizationId bucket key r) with
          | Returned _ =>
              calls (deployWorkflows organizationId bucket rest
                       (final (deployKey organizationId bucket key r)))
          | Threw _ => []
          end)%list.
Proof. cbn [deployWorkflows]. rewrite bind_calls. reflexivity. Qed.

Lemma deployWorkflows_outcome organizationId bucket key rest r :
  outcome (deployWorkflows organizationId bucket (key :: rest) r)
  = match outcome (deployKey organizationId bucket key r) with
    | Returned _ =>
        outcome (deployWorkflows organizationId bucket rest
                   (final (deployKey organizationId bucket key r)))
    | Threw e => Threw e
    end.
Proof.
  cbn [deployWorkflows]. unfold bind.
  destruct (outcome (deployKey organizationId bucket key r)); reflexivity.
Qed.

(** X4. The blobs fetched by a batch are those of the first keys of the
    list, in the order of the list, one fetch each, all from the given
    bucket; and a batch that returns has fetched them all. *)
Theorem X4_deployWorkflows_fetches_in_order organizationId bucket keys r :
  let run := deployWorkflows organizationId bucket keys r in
  (exists rest, keys = (fetchedKeys (calls run) ++ rest)%list) /\
  (outcome run = Returned tt -> fetchedKeys (calls run) = keys) /\
  Forall (fun c => isGetObject c = true -> exists key, c = GetObject bucket key) (calls run).
Proof.
  revert r. induction keys as [| key keys IH]; intros r.
  - cbn. repeat split; [exists []; reflexivity | constructor].
  - cbv zeta. rewrite deployWorkflows_calls, deployWorkflows_outcome.
    destruct (deployKey_shape organizationId bucket key r) as (tail & Hcalls & Hquiet & _).
    rewrite Hcalls. cbn [app fetchedKeys flat_map].
    fold (fetchedKeys (tail ++ match outcome (deployKey organizationId bucket key r) with
                               | Returned _ =>
                                   calls (deployWorkflows organizationId bucket keys
                                            (final (deployKey organizationId bucket key r)))
                               | Threw _ => []
                               end)).
    rewrite fetchedKeys_app, (fetchedKeys_none _ Hquiet). cbn [app].
    assert (Forall (fun c => isGetObject c = true -> exists k, c = GetObject bucket k) tail)
      as Htail.
    { eapply Forall_impl; [| exact Hquiet]. cbn. intros c Hc Hc'. congruence. }
    destruct (outcome (deployKey organizationId bucket key r)) as [[] | e].
    + destruct (IH (final (deployKey organizationId bucket key r)))
        as ((rest & Hrest) & Hall & Hbucket).
      repeat split.
      * exists rest. rewrite Hrest at 1. reflexivity.
      * intros Hret. rewrite (Hall Hret). reflexivity.
      * constructor; [intros _; exists key; reflexivity |].
        apply Forall_app. split; assumption.
    + repeat split.
      * exists keys. reflexivity.
      * discriminate.
      * constructor; [intros _; exists key; reflexivity |].
        rewrite app_nil_r. exact Htail.
Qed.

(** X5. In a batch each step is taken at most once per key and only after
    the step before it: there are at most as many fetches as keys, as many
    listings as fetches, as many live reads as listings, as many settings of
    the live tag as live reads; and no more workflows are created than
    listings were made. *)
Theorem X5_deployWorkflows_steps_in_turn organizationId bucket keys r :
  let cs := calls (deployWorkflows organizationId bucket keys r) in
  (count isSetTag cs <= count isGetTagged cs)%nat /\
  (count isGetTagged cs <= count isListWorkflows cs)%nat /\
  (count isRegisterWorkflow cs <= count isListWorkflows cs)%nat /\
  (count isListWorkflows cs <= count isGetObject cs)%nat /\
  (count isGetObject cs <= length keys)%nat.
Proof.
  revert r. induction keys as [| key keys IH]; intros r.
  - cbn. repeat split; lia.
  - cbv zeta. rewrite deployWorkflows_calls.
    destruct (deployKey_shape organizationId bucket key r)
      as (tail & -> & Hquiet & H1 & H2 & H3 & H4).
    pose proof (count_none isGetObject tail Hquiet) as H0.
    destruct (outcome (deployKey organizationId bucket key r)) as [[] | e].
    + specialize (IH (final (deployKey organizationId bucket key r))). cbv zeta in IH.
      destruct IH as (I1 & I2 & I3 & I4 & I5).
      change (GetObject bucket key :: tail) with ([GetObject bucket key] ++ tail)%list.
      repeat split; tally.
    + rewrite app_nil_r.
      change (GetObject bucket key :: tail) with ([GetObject bucket key] ++ tail)%list.
      repeat split; tally.
Qed.

Lemma registrations_app cs1 cs2 :
  registrations (cs1 ++ cs2) = (registrations cs1 ++ registrations cs2)%list.
Proof. apply flat_map_app. Qed.

Lemma readDefinition_text bucket key r text r1 text' n :
  s3_getObjectText bucket key r = (inr text, r1) ->
  outcome (readDefinition bucket key r) = Returned (text', n) ->
  text' = text /\ final (readDefinition bucket key r) = r1.
Proof.
  intros Hget. unfold readDefinition.
  rewrite (bind_returned _ _ _ _ _ _ (request_returned _ _ _ _ _ Hget)).
  cbn [outcome final]. destruct (JSON_parse text) as [e | json]; cbn [lift].
  - rewrite bind_throw_l. discriminate.
  - rewrite bind_ret_l. destruct (getWorkflowName json) as [wn |]; [| discriminate].
    destruct (truthy (Some wn)); [| discriminate].
    cbn. intros H. injection H as <- _. split; reflexivity.
Qed.

Lemma retry_first_call payload workflowName r :
  exists more,
    calls (registerWorkflowVersionWithRetry payload workflowName r)
    = RegisterWorkflowVersion payload :: more.
Proof.
  unfold registerWorkflowVersionWithRetry.
  set (maxAttempts := Z.max 1 DEFAULT_REGISTER_ATTEMPTS).
  destruct (Z.to_nat maxAttempts) as [| fuel] eqn:Hfuel; [subst maxAttempts; lia |].
  cbn [registerLoop].
  replace (1 <=? maxAttempts) with true by (symmetry; apply Z.leb_le; subst maxAttempts; lia).
  unfold tryCatch, request.
  destruct (api_registerWorkflowVersion payload r) as [[e | v] r1]; cbn [outcome final calls];
    eexists; reflexivity.
Qed.

(** X6. What is registered for a key is the text that storage returned for
    it, as it is, under the given organization, and for one workflow: every
    attempt of the key offers that same payload. *)
Theorem X6_deployKey_registers_the_text organizationId bucket key r text r1 :
  s3_getObjectText bucket key r = (inr text, r1) ->
  exists wfId n,
    registrations (calls (deployKey organizationId bucket key r))
    = repeat (mkRegisterWorkflowVersionInput organizationId wfId text) n.
Proof.
  intros Hget. unfold deployKey.
  rewrite tryCatch_rethrow, bind_calls, readDefinition_calls, registrations_app.
  change (registrations [GetObject bucket key]) with (@nil RegisterWorkflowVersionInput).
  cbn [app].
  destruct (outcome (readDefinition bucket key r)) as [[text' n] | e] eqn:Hout.
  2: { exists EmptyString, 0%nat. reflexivity. }
  destruct (readDefinition_text _ _ _ _ _ _ _ Hget Hout) as [-> ->].
  rewrite bind_calls, registrations_app.
  assert (registrations (calls (findOrCreateWorkflow organizationId n r1)) = []) as ->
    by (destruct (findOrCreateWorkflow_shape organizationId n r1) as [-> | ->]; reflexivity).
  cbn [app].
  destruct (outcome (findOrCreateWorkflow organizationId n r1)) as [wfId | e].
  2: { exists EmptyString, 0%nat. reflexivity. }
  set (payload := mkRegisterWorkflowVersionInput organizationId wfId text).
  set (r2 := final (findOrCreateWorkflow organizationId n r1)).
  destruct (retry_shape payload n r2) as (_ & _ & _ & Hregs & _).
  exists wfId, (attempts (calls (registerWorkflowVersionWithRetry payload n r2))).
  rewrite bind_calls, registrations_app, Hregs.
  destruct (outcome (registerWorkflowVersionWithRetry payload n r2)) as [registered | e];
    [| apply app_nil_r].
  rewrite bind_calls, readLiveVersion_calls, registrations_app.
  change (registrations [GetTaggedWorkflowVersion organizationId wfId LIVE])
    with (@nil RegisterWorkflowVersionInput).
  cbn [app].
  destruct (outcome (readLiveVersion organizationId wfId _)) as [live | e];
    [| apply app_nil_r].
  destruct (promote_shape organizationId wfId live registered
              (final (readLiveVersion organizationId wfId
                        (final (registerWorkflowVersionWithRetry payload n r2)))))
    as [-> | ->]; apply app_nil_r.
Qed.

Section Resolved.

(** A key whose definition was read and whose workflow was found or created. *)
Variables (organizationId bucket key : string) (r : Remote).
Variables (definitionStr : string) (workflowName : Json) (r1 : Remote) (cs1 : list Call).
Variables (wfId : string) (r2 : Remote) (cs2 : list Call).

Hypothesis Hread :
  readDefinition bucket key r = mkRun (Returned (definitionStr, workflowName)) r1 cs1.
Hypothesis Hfind :
  findOrCreateWorkflow organizationId workflowName r1 = mkRun (Returned wfId) r2 cs2.

(** X7. Once the workflow of a definition is found or created, a version is
    registered for it whether or not the workflow existed before: the next
    call is a registration of the text under the id that was found or
    returned. *)
Theorem X7_deployKey_always_registers :
  exists more,
    calls (deployKey organizationId bucket key r)
    = (cs1 ++ cs2
         ++ RegisterWorkflowVersion
              (mkRegisterWorkflowVersionInput organizationId wfId definitionStr)
         :: more)%list.
Proof.
  unfold deployKey. rewrite tryCatch_rethrow.
  rewrite (bind_returned _ _ _ _ _ _ Hread). cbn beta iota.
  rewrite (bind_returned _ _ _ _ _ _ Hfind). cbn [outcome final calls].
  rewrite bind_calls.
  destruct (retry_first_call
              (mkRegisterWorkflowVersionInput organizationId wfId definitionStr)
              workflowName r2) as [more ->].
  eexists. cbn [app]. reflexivity.
Qed.

End Resolved.

(** X8. A definition whose [workflowName] is truthy but not a string, in an
    organization that lists at least one workflow, ends the batch with the
    error of calling [toUpperCase] on it: after the fetch and the listing, no
    workflow is created and no version registered. *)
Theorem X8_nonstring_name_throws organizationId bucket key rest r text r1 json name ws r2 :
  s3_getObjectText bucket key r = (inr text, r1) ->
  JSON_parse text = inr json ->
  getWorkflowName json = Some name ->
  truthy (Some name) = true ->
  (forall n, name <> JStr n) ->
  api_listWorkflows organizationId r1 = (inr ws, r2) ->
  ws <> [] ->
  deployWorkflows organizationId bucket (key :: rest) r
  = mkRun (Threw typeErrorNotAFunction) r2
          [GetObject bucket key; ListWorkflows organizationId].
Proof.
  intros Hget Hparse Hname Htruthy Hnot Hlist Hsome.
  apply deployWorkflows_abort. unfold deployKey. rewrite tryCatch_rethrow.
  assert (readDefinition bucket key r = mkRun (Returned (text, name)) r1 [GetObject bucket key])
    as Hread.
  { unfold readDefinition.
    rewrite (bind_returned _ _ _ _ _ _ (request_returned _ _ _ _ _ Hget)).
    rewrite Hparse. cbn [lift]. rewrite bind_ret_l, Hname, Htruthy. reflexivity. }
  rewrite (bind_returned _ _ _ _ _ _ Hread). cbn beta iota.
  assert (findOrCreateWorkflow organizationId name r1
          = mkRun (Threw typeErrorNotAFunction) r2 [ListWorkflows organizationId]) as Hfind.
  { unfold findOrCreateWorkflow.
    rewrite (bind_returned _ _ _ _ _ _ (request_returned _ _ _ _ _ Hlist)).
    destruct ws as [| w ws]; [contradiction |].
    destruct name; try (cbn; reflexivity). exfalso. eapply Hnot. reflexivity. }
  rewrite (bind_threw _ _ _ _ _ _ Hfind). reflexivity.
Qed.

(** X9. The read of the live version takes any thrown object whose message
    contains [No version tagged] or [No version found] for the absence of a
    live version, whatever its type and status (a 500 included): the error is
    not thrown on, and [null] is what the read yields. *)
Theorem X9_message_alone_means_no_live_version organizationId wfId r o r1 pre post phrase :
  api_getTaggedWorkflowVersion organizationId wfId LIVE r = (inl (ThrownObject o), r1) ->
  phrase = "No version tagged" \/ phrase = "No version found" ->
  message o = Some (pre ++ phrase ++ post) ->
  readLiveVersion organizationId wfId r
  = mkRun (Returned None) r1 [GetTaggedWorkflowVersion organizationId wfId LIVE].
Proof.
  intros Hthrew Hphrase Hmessage.
  rewrite (readLiveVersion_threw _ _ _ _ _ Hthrew).
  assert (noLiveVersionYet (ThrownObject o) = true) as ->; [| reflexivity].
  cbn. unfold getMessage. rewrite Hmessage.
  destruct Hphrase as [-> | ->]; rewrite includes_app; rewrite ?orb_true_r; reflexivity.
Qed.

(** *** The handler, whatever the collaborators answer *)

Lemma bind_outcome {A B} (m : Async Remote A) (k : A -> Async Remote B) r :
  outcome (bind m k r)
  = match outcome (m r) with
    | Returned a => outcome (k a (final (m r)))
    | Threw e => Threw e
    end.
Proof. unfold bind. destruct (outcome (m r)); reflexivity. Qed.

(** What follows the gate: the reconciler's run for a Create or an Update,
    its error contained or not, and nothing for a Delete. *)
Lemma dispatch_run t organizationId bucket keys ignoreFailures r :
  let deployed := deployWorkflows organizationId bucket keys r in
  dispatch t organizationId bucket keys ignoreFailures r
  = match t with
    | Delete => mkRun (Returned (ranResponse Delete)) r []
    | _ =>
        mkRun (match outcome deployed with
               | Returned _ => Returned (ranResponse t)
               | Threw error =>
                   if ignoreFailures then Returned (ignoredResponse t error) else Threw error
               end)
              (final deployed) (calls deployed)
    end.
Proof.
  assert (forall t',
             match keys with
             | [] => @ret Remote _ (ranResponse t')
             | _ :: _ =>
                 tryCatch (deployWorkflows organizationId bucket keys ;; ret (ranResponse t'))
                          (fun error => if ignoreFailures then ret (ignoredResponse t' error)
                                        else throw error)
             end r
             = mkRun (match outcome (deployWorkflows organizationId bucket keys r) with
                      | Returned _ => Returned (ranResponse t')
                      | Threw error =>
                          if ignoreFailures then Returned (ignoredResponse t' error)
                          else Threw error
                      end)
                     (final (deployWorkflows organizationId bucket keys r))
                     (calls (deployWorkflows organizationId bucket keys r))) as Hrun.
  { intros t'. destruct keys as [| key rest]; [reflexivity |].
    unfold tryCatch, bind.
    destruct (deployWorkflows organizationId bucket (key :: rest) r) as [[[] | error] r1 cs];
      cbn [outcome final calls ret].
    - rewrite app_nil_r. reflexivity.
    - destruct ignoreFailures; cbn; rewrite app_nil_r; reflexivity. }
  cbv zeta. destruct t; [apply Hrun | apply Hrun | reflexivity].
Qed.

(** X10. A configuration that is incomplete is reported before any remote
    call is made, whatever the request type: a key list that does not parse
    first, then a missing or empty bucket, organization id and secret name, in
    that order. *)
Theorem X10_handler_configuration_errors event r :
  let keysText := orElse (DEFINITION_KEYS_JSON process_env) "[]" in
  let missing value := value = None \/ value = Some EmptyString in
  (forall e, JSON_parse_keys keysText = inl e -> handler event r = mkRun (Threw e) r []) /\
  (forall keys,
     JSON_parse_keys keysText = inr keys ->
     (missing (DEFINITION_BUCKET process_env) ->
      handler event r
      = mkRun (Threw (newError "Missing S3 bucket from environment variables")) r []) /\
     (~ missing (DEFINITION_BUCKET process_env) ->
      missing (ORGANIZATION_ID process_env) ->
      handler event r
      = mkRun (Threw (newError "Missing organization ID from environment variables")) r []) /\
     (~ missing (DEFINITION_BUCKET process_env) ->
      ~ missing (ORGANIZATION_ID process_env) ->
      missing (AUTH_SECRET_NAME process_env) ->
      handler event r
      = mkRun (Threw (newError "Missing auth secret name from environment variables")) r [])).
Proof.
  cbv zeta. split.
  - intros e Hkeys. unfold handler. rewrite Hkeys. reflexivity.
  - intros keys Hkeys.
    assert (forall value msg,
               (value = None \/ value = Some EmptyString) ->
               @required Remote value msg = throw (newError msg)) as Hmissing
      by (intros value msg [-> | ->]; reflexivity).
    assert (forall value msg,
               ~ (value = None \/ value = Some EmptyString) ->
               exists s, @required Remote value msg = ret s) as Hpresent.
    { intros [[| c s] |] msg Hno; [exfalso; auto | eexists; reflexivity | exfalso; auto]. }
    unfold handler. rewrite Hkeys. cbn [lift]. rewrite bind_ret_l. repeat split.
    + intros Hb. rewrite (Hmissing _ _ Hb). reflexivity.
    + intros Hb Ho. destruct (Hpresent _ "Missing S3 bucket from environment variables" Hb)
        as [b ->].
      rewrite bind_ret_l, (Hmissing _ _ Ho). reflexivity.
    + intros Hb Ho Hs.
      destruct (Hpresent _ "Missing S3 bucket from environment variables" Hb) as [b ->].
      destruct (Hpresent _ "Missing organization ID from environment variables" Ho)
        as [o ->].
      rewrite !bind_ret_l, (Hmissing _ _ Hs). reflexivity.
Qed.

(** X11. Every response that the handler returns, whatever the request and
    whatever happened, carries the same physical resource id. *)
Theorem X11_handler_physical_resource_id event r response :
  outcome (handler event r) = Returned response ->
  PhysicalResourceId response = PHYSICAL_RESOURCE_ID.
Proof.
  unfold handler. rewrite bind_outcome.
  destruct (outcome (lift _ r)) as [keys | e]; [| discriminate].
  rewrite bind_outcome. destruct (outcome (required _ _ _)) as [bucket | e]; [| discriminate].
  rewrite bind_outcome. destruct (outcome (required _ _ _)) as [org | e]; [| discriminate].
  rewrite bind_outcome. destruct (outcome (required _ _ _)) as [name | e]; [| discriminate].
  rewrite bind_outcome. destruct (outcome (request _ _ _)) as [token | e]; [| discriminate].
  destruct (strictEq token (Some PLACEHOLDER_TOKEN)).
  - cbn. intros H. injection H as <-. reflexivity.
  - rewrite dispatch_run. destruct (RequestType event); cbn [outcome].
    + destruct (outcome (deployWorkflows _ _ _ _)) as [[] | error];
        [intros H; injection H as <-; reflexivity |].
      destruct (strictEq _ _); [intros H; injection H as <-; reflexivity | discriminate].
    + destruct (outcome (deployWorkflows _ _ _ _)) as [[] | error];
        [intros H; injection H as <-; reflexivity |].
      destruct (strictEq _ _); [intros H; injection H as <-; reflexivity | discriminate].
    + intros H. injection H as <-. reflexivity.
Qed.

Section Invoked.

(** An invocation whose configuration is complete and whose credential is
    read and is not the placeholder. *)
Variables (event : CloudFormationCustomResourceEvent) (keys : list string).
Variables (bucket organizationId authSecretName : string).
Variables (r : Remote) (token : option string) (r1 : Remote).

Hypothesis Hkeys : JSON_parse_keys (orElse (DEFINITION_KEYS_JSON process_env) "[]") = inr keys.
Hypothesis Hbucket : DEFINITION_BUCKET process_env = Some bucket /\ bucket <> EmptyString.
Hypothesis Horganization :
  ORGANIZATION_ID process_env = Some organizationId /\ organizationId <> EmptyString.
Hypothesis Hsecret :
  AUTH_SECRET_NAME process_env = Some authSecretName /\ authSecretName <> EmptyString.
Hypothesis Hread : secrets_getSecretValue authSecretName r = (inr token, r1).
Hypothesis Hreal : token <> Some PLACEHOLDER_TOKEN.

Lemma handler_invoked :
  let ran :=
    dispatch (RequestType event) organizationId bucket keys
             (strictEq (IGNORE_FAILURES process_env) (Some "true")) r1 in
  handler event r
  = mkRun (outcome ran) (final ran) (GetSecretValue authSecretName :: calls ran).
Proof.
  cbv zeta.
  rewrite (handler_configured event keys bucket organizationId authSecretName
             Hkeys Hbucket Horganization Hsecret).
  rewrite (bind_returned _ _ _ _ _ _ (request_returned _ _ _ _ _ Hread)).
  destruct (strictEq token (Some PLACEHOLDER_TOKEN)) eqn:Heq;
    [apply strictEq_true in Heq; contradiction | reflexivity].
Qed.

(** X12. Past the gate, the remote calls of the handler are the one read of
    the secret followed by the calls of the reconciler over the configured
    keys (none for a Delete), it ends where the reconciler ended, and it
    returns when the reconciler returns; a credential that is undefined counts
    as a real one. *)
Theorem X12_handler_runs_the_reconciler :
  let deployed := deployWorkflows organizationId bucket keys r1 in
  let run := handler event r in
  match RequestType event with
  | Delete => run = mkRun (Returned (ranResponse Delete)) r1 [GetSecretValue authSecretName]
  | t =>
      calls run = GetSecretValue authSecretName :: calls deployed /\
      final run = final deployed /\
      (outcome deployed = Returned tt -> outcome run = Returned (ranResponse t))
  end.
Proof.
  cbv zeta. rewrite handler_invoked, dispatch_run.
  destruct (RequestType event); cbn [outcome final calls];
    [| | reflexivity];
    (repeat split; intros ->; reflexivity).
Qed.

(** X13. With [IGNORE_FAILURES] set to [true] the handler returns a response
    whatever the storage and the registry do, for every request type. *)
Theorem X13_ignored_failures_never_throw :
  IGNORE_FAILURES process_env = Some "true" ->
  exists response, outcome (handler event r) = Returned response.
Proof.
  intros Hignore. rewrite handler_invoked, dispatch_run, Hignore. cbn [outcome strictEq].
  change (String.eqb "true" "true") with true.
  destruct (RequestType event);
    destruct (outcome (deployWorkflows organizationId bucket keys r1));
    eexists; reflexivity.
Qed.

End Invoked.

(** X14. A credential that cannot be read fails the invocation, whatever the
    request type and even with [IGNORE_FAILURES] set: the error of the secret
    store is thrown as it is, after that one call. *)
Theorem X14_unreadable_secret_is_fatal event keys bucket organizationId authSecretName r e r1 :
  JSON_parse_keys (orElse (DEFINITION_KEYS_JSON process_env) "[]") = inr keys ->
  DEFINITION_BUCKET process_env = Some bucket /\ bucket <> EmptyString ->
  ORGANIZATION_ID process_env = Some organizationId /\ organizationId <> EmptyString ->
  AUTH_SECRET_NAME process_env = Some authSecretName /\ authSecretName <> EmptyString ->
  secrets_getSecretValue authSecretName r = (inl e, r1) ->
  handler event r = mkRun (Threw e) r1 [GetSecretValue authSecretName].
Proof.
  intros Hk Hb Ho Hs Hread.
  rewrite (handler_configured event keys bucket organizationId authSecretName Hk Hb Ho Hs).
  apply bind_threw, request_threw, Hread.
Qed.

(** *** The client of the registry *)

(** X15. An access token is never empty: [getAccessToken] returns the
    secret that the store holds under the configured name, after that one
    read, and throws when the name is not configured (before any read) or the
    secret is undefined or empty. *)
Theorem X15_getAccessToken_nonempty r token :
  outcome (getAccessToken r) = Returned token ->
  token <> EmptyString /\
  exists secretName,
    AUTH_SECRET_NAME process_env = Some secretName /\
    getAccessToken r
    = mkRun (Returned token) (snd (secrets_getSecretValue secretName r))
            [GetSecretValue secretName] /\
    fst (secrets_getSecretValue secretName r) = inr (Some token).
Proof.
  unfold getAccessToken.
  destruct (AUTH_SECRET_NAME process_env) as [[| c name] |]; cbn [required];
    try (rewrite bind_throw_l; discriminate).
  rewrite bind_ret_l. unfold getSecretValueByName, bind, request.
  destruct (secrets_getSecretValue (String c name) r) as [[e | [[| c' secret] |]] r1]
    eqn:Hanswer; cbn [outcome final calls fst snd]; try discriminate.
  intros H. injection H as <-. split; [discriminate |].
  exists (String c name). rewrite Hanswer. repeat split.
Qed.

Lemma getAccessToken_token r token :
  outcome (getAccessToken r) = Returned token -> token <> EmptyString.
Proof.
  unfold getAccessToken. rewrite bind_outcome.
  destruct (outcome (required _ _ r)) as [secretName | e]; [| discriminate].
  rewrite bind_outcome.
  destruct (outcome (getSecretValueByName secretName _)) as [[[| c secret] |] | e];
    cbn; try discriminate.
  intros H. injection H as <-. discriminate.
Qed.

Lemma getProperty_setProperty key value properties :
  getProperty key (setProperty key value properties) = Some value.
Proof.
  induction properties as [| [k v] rest IH]; cbn.
  - rewrite String.eqb_refl. reflexivity.
  - destruct (String.eqb k key) eqn:Hk; cbn; rewrite Hk; [reflexivity | exact IH].
Qed.

Lemma getProperty_setProperty_other key value other properties :
  other <> key ->
  getProperty other (setProperty key value properties) = getProperty other properties.
Proof.
  intros Hother. induction properties as [| [k v] rest IH]; cbn.
  - destruct (String.eqb key other) eqn:Hk; [| reflexivity].
    apply String.eqb_eq in Hk. congruence.
  - destruct (String.eqb k key) eqn:Hk; cbn.
    + apply String.eqb_eq in Hk. subst k.
      destruct (String.eqb key other) eqn:Hko; [| reflexivity].
      apply String.eqb_eq in Hko. congruence.
    + rewrite IH. reflexivity.
Qed.

(** X16. Signing a request sets its [Authorization] header to [Bearer]
    followed by a token that is not empty, replaces a previous value of that
    header rather than adding a second one, and leaves every other header and
    the body as they were. *)
Theorem X16_sign_sets_the_bearer request r signed :
  outcome (cognitoBearerSigner_sign request r) = Returned signed ->
  exists token,
    outcome (getAccessToken r) = Returned token /\ token <> EmptyString /\
    getProperty "Authorization" (headers signed) = Some ("Bearer " ++ token) /\
    (forall other, other <> "Authorization" ->
                   getProperty other (headers signed) = getProperty other (headers request)) /\
    map fst (headers signed)
    = match getProperty "Authorization" (headers request) with
      | Some _ => map fst (headers request)
      | None => (map fst (headers request) ++ ["Authorization"])%list
      end /\
    body signed = body request.
Proof.
  unfold cognitoBearerSigner_sign. rewrite bind_outcome.
  destruct (outcome (getAccessToken r)) as [token | e] eqn:Htoken; [| discriminate].
  cbn [ret outcome]. intros H. injection H as <-. exists token.
  pose proof (getAccessToken_token r token Htoken) as Hnonempty.
  repeat split; cbn [headers body].
  - exact Hnonempty.
  - apply getProperty_setProperty.
  - intros other Hother. apply getProperty_setProperty_other, Hother.
  - induction (headers request) as [| [k v] rest IH]; cbn; [reflexivity |].
    destruct (String.eqb k "Authorization") eqn:Hk; cbn; [reflexivity |].
    rewrite IH. destruct (getProperty "Authorization" rest); reflexivity.
Qed.

Section Proxy.

Variable module : list (string * Export).
Variable inherited : string -> option ErrorClass.

Lemma deserializeSmithyError_unregistered err :
  unregistered module inherited err ->
  deserializeSmithyError module inherited err = newError (rehydratedMessage err).
Proof.
  destruct err as [p | o]; cbn; [reflexivity |].
  intros [-> | [-> | (t & -> & Hnone)]]; try reflexivity.
  destruct t; [reflexivity |]. rewrite Hnone. reflexivity.
Qed.

Lemma rehydratedMessage_nonempty err : rehydratedMessage err <> EmptyString.
Proof.
  destruct err as [p | o]; cbn; [discriminate |].
  destruct (getMessage o) as [[| c m] |]; discriminate.
Qed.

(** X17. Through the proxy, an error of [registerWorkflowVersion] for which
    the registry has nothing (it is not an object, or has no type or an empty
    one, or its type names neither a function that the module exports under a
    name ending in [Error] nor a member that every object inherits, such as
    [constructor] or [toString]) is thrown as a plain [Error] that keeps its
    message ([Unknown error] when it had none) and loses its type, status and
    fault; so the retry policy makes one attempt and no more, were the error a
    503. *)
Theorem X17_unregistered_errors_are_not_retried (client : Runtime Remote) payload workflowName r
    err r1 :
  @api_registerWorkflowVersion _ client payload r = (inl err, r1) ->
  unregistered module inherited err ->
  registerWorkflowVersionWithRetry (RT := getApiClient module inherited client)
    payload workflowName r
  = mkRun (Threw (newError (rehydratedMessage err))) r1 [RegisterWorkflowVersion payload] /\
  rehydratedMessage err <> EmptyString /\
  (forall o m, err = ThrownObject o -> getMessage o = Some m -> m <> EmptyString ->
               rehydratedMessage err = m).
Proof.
  intros Hthrew Hunregistered. repeat split.
  - unfold registerWorkflowVersionWithRetry.
    set (maxAttempts := Z.max 1 _).
    destruct (Z.to_nat maxAttempts) as [| fuel] eqn:Hfuel; [subst maxAttempts; lia |].
    apply registerLoop_giveUp.
    + subst maxAttempts. lia.
    + cbn. unfold proxied. rewrite Hthrew.
      rewrite (deserializeSmithyError_unregistered _ Hunregistered). reflexivity.
    + right. reflexivity.
  - apply rehydratedMessage_nonempty.
  - intros o m -> Hm Hnonempty. cbn. rewrite Hm. destruct m; [contradiction | reflexivity].
Qed.

(** X18. Through the proxy, a live read that fails with an error for which
    the registry has nothing (it is not an object, or has no type or an empty
    one, or its type names neither a function that the module exports under a
    name ending in [Error] nor a member that every object inherits) is taken
    for the absence of a live version exactly when its message contains one of
    the two phrases; otherwise a plain [Error] with that message is thrown.
    The type of such an error, were it [NotFoundError], is lost on the way. *)
Theorem X18_unregistered_not_found_by_message (client : Runtime Remote) organizationId wfId r
    err r1 :
  @api_getTaggedWorkflowVersion _ client organizationId wfId LIVE r = (inl err, r1) ->
  unregistered module inherited err ->
  let message := rehydratedMessage err in
  readLiveVersion (RT := getApiClient module inherited client) organizationId wfId r
  = mkRun (if includes message "No version tagged" || includes message "No version found"
           then Returned None
           else Threw (newError message))
          r1 [GetTaggedWorkflowVersion organizationId wfId LIVE].
Proof.
  intros Hthrew Hunregistered message.
  assert (@api_getTaggedWorkflowVersion _ (getApiClient module inherited client)
            organizationId wfId LIVE r = (inl (newError message), r1)) as Hproxied.
  { cbn. unfold proxied. rewrite Hthrew.
    rewrite (deserializeSmithyError_unregistered _ Hunregistered). reflexivity. }
  rewrite (readLiveVersion_threw (RT := getApiClient module inherited client) _ _ _ _ _
             Hproxied).
  reflexivity.
Qed.

End Proxy.

End MoreProperties.

(** *** The registry of error classes *)

Lemma ownEntry_built module typeName ctor :
  ownEntry (buildSmithyErrorRegistry module) typeName = Some ctor ->
  endsWith typeName "Error" = true /\ In (typeName, ExportedFunction ctor) module.
Proof.
  unfold buildSmithyErrorRegistry.
  induction module as [| [key [c |]] rest IH]; cbn [flat_map fst snd app];
    [discriminate | |].
  - destruct (endsWith key "Error") eqn:Hends; cbn [app ownEntry].
    + destruct (ownEntry _ typeName) as [later |] eqn:Hlater.
      * intros H. destruct (IH H) as [H1 H2]. split; [exact H1 | right; exact H2].
      * destruct (String.eqb key typeName) eqn:Hk; [| discriminate].
        apply String.eqb_eq in Hk. subst key. intros H. injection H as <-.
        split; [exact Hends | left; reflexivity].
    + intros H. destruct (IH H) as [H1 H2]. split; [exact H1 | right; exact H2].
  - intros H. destruct (IH H) as [H1 H2]. split; [exact H1 | right; exact H2].
Qed.

(** X19. Only a function that the client's module exports under a name
    ending in [Error] is used to rehydrate an error: an error type of any
    other name (one ending in [Exception], say) that no object inherits names
    no class. *)
Theorem X19_registry_holds_error_functions module inherited typeName :
  (forall ctor, registryGet inherited (buildSmithyErrorRegistry module) typeName = Some ctor ->
                inherited typeName = Some ctor \/
                (endsWith typeName "Error" = true /\
                 In (typeName, ExportedFunction ctor) module)) /\
  (endsWith typeName "Error" = false -> inherited typeName = None ->
   registryGet inherited (buildSmithyErrorRegistry module) typeName = None).
Proof.
  unfold registryGet. split.
  - intros ctor. destruct (ownEntry _ typeName) as [own |] eqn:Hown.
    + intros H. injection H as <-. right. apply ownEntry_built, Hown.
    + intros H. left. exact H.
  - intros Hends Hnone. destruct (ownEntry _ typeName) as [own |] eqn:Hown; [| exact Hnone].
    apply ownEntry_built in Hown. destruct Hown as [Hends' _]. congruence.
Qed.

(** X20. Rehydrating an error into a class that keeps the status fields it
    is given keeps the decision of the retry policy: a registered 5xx stays
    retryable, a registered 4xx stays final. *)
Theorem X20_rehydration_keeps_retry_decision module inherited o t ctor :
  errorType o = Some t -> t <> EmptyString ->
  registryGet inherited (buildSmithyErrorRegistry module) t = Some ctor ->
  (forall args, exists built,
      ctor args = ThrownObject built /\ metadata built = metadata args /\
      statusCode built = statusCode args /\ fault built = fault args) ->
  shouldRetryRegister (deserializeSmithyError module inherited (ThrownObject o))
  = shouldRetryRegister (ThrownObject o).
Proof.
  intros Htype Hnonempty Hfound Hkeeps. cbn. rewrite Htype.
  destruct t; [contradiction |]. rewrite Hfound.
  match goal with |- shouldRetryRegister (ctor ?args) = _ => destruct (Hkeeps args)
    as (built & -> & Hm & Hs & Hf) end.
  cbn in *. unfold metadataStatus. rewrite Hm, Hs, Hf. reflexivity.
Qed.

(** *** The stream reader *)

Lemma streamToStringFrom_data toString_utf8 chunks more events :
  streamToStringFrom toString_utf8 chunks (map OnData more ++ events)
  = streamToStringFrom toString_utf8 (chunks ++ more) events.
Proof.
  revert chunks. induction more as [| chunk more IH]; intros chunks; cbn [map app].
  - rewrite app_nil_r. reflexivity.
  - cbn [streamToStringFrom]. rewrite IH, <- app_assoc. reflexivity.
Qed.

(** X21. A stream that ends resolves to the text that the bytes of its
    chunks, put end to end in the order they came, encode in UTF-8: the bytes
    are decoded once and together, so that the text depends on the bytes alone
    and not on where the stream cut them into chunks (in the middle of a
    character, say); a stream that fails before it ends rejects with its
    error, and the chunks read so far are dropped; a stream that neither ends
    nor fails leaves the promise pending; and what a stream emits after the
    promise has settled changes nothing. *)
Theorem X21_streamToString_reads_the_stream toString_utf8 :
  (forall chunks later,
      streamToString toString_utf8 (map OnData chunks ++ OnEnd :: later)
      = Some (inr (toString_utf8 (Buffer_concat chunks)))) /\
  (forall chunks chunks' later later',
      Buffer_concat chunks' = Buffer_concat chunks ->
      streamToString toString_utf8 (map OnData chunks' ++ OnEnd :: later')
      = streamToString toString_utf8 (map OnData chunks ++ OnEnd :: later)) /\
  (forall chunks err later,
      streamToString toString_utf8 (map OnData chunks ++ OnError err :: later)
      = Some (inl err)) /\
  (forall chunks, streamToString toString_utf8 (map OnData chunks) = None) /\
  (forall events settled later,
      streamToString toString_utf8 events = Some settled ->
      streamToString toString_utf8 (events ++ later) = Some settled).
Proof.
  assert (forall cs l, streamToString toString_utf8 (map OnData cs ++ OnEnd :: l)
                       = Some (inr (toString_utf8 (Buffer_concat cs)))) as Hjoin
    by (intros cs l; unfold streamToString; rewrite streamToStringFrom_data; reflexivity).
  repeat split.
  - apply Hjoin.
  - intros chunks chunks' later later' Hsame. rewrite !Hjoin, Hsame. reflexivity.
  - intros chunks err later. unfold streamToString. rewrite streamToStringFrom_data.
    reflexivity.
  - intros chunks. unfold streamToString.
    rewrite <- (app_nil_r (map OnData chunks)), streamToStringFrom_data. reflexivity.
  - intros events settled later. unfold streamToString. generalize (@nil Buffer).
    induction events as [| [chunk | err |] events IH]; intros chunks; cbn;
      [discriminate | apply IH | trivial | trivial].
Qed.

(** *** The message of an error *)

(** X22. [getErrorMessage] never returns the empty string; and for an error
    with a message that is not a validation error with fields, what it
    returns is the message, after the type and a colon when the error has a
    type. *)
Theorem X22_getErrorMessage_nonempty err fields :
  getErrorMessage err fields <> EmptyString /\
  (forall o m,
      err = ThrownObject o -> getMessage o = Some m -> m <> EmptyString ->
      (strictEq (errorType o) (Some "ValidationError") = false \/ fields = None) ->
      getErrorMessage err fields
      = match errorType o with
        | Some EmptyString | None => m
        | Some t => t ++ ": " ++ m
        end).
Proof.
  split.
  - destruct err as [p | o]; cbn; [discriminate |].
    destruct (if strictEq (errorType o) (Some "ValidationError") then fields else None);
      [discriminate |].
    destruct (errorType o) as [[| c t] |]; cbn;
      destruct (getMessage o) as [[| c' m] |]; cbn; try discriminate;
      destruct (metadataStatus o) as [s |]; cbn; try discriminate;
      destruct (s =? 0); discriminate.
  - intros o m -> Hm Hnonempty Hplain. cbn. rewrite Hm.
    assert ((if strictEq (errorType o) (Some "ValidationError") then fields else None) = None)
      as -> by (destruct Hplain as [-> | ->]; [| destruct (strictEq _ _)]; reflexivity).
    destruct m as [| c m]; [contradiction |].
    destruct (errorType o) as [[| c' t] |]; reflexivity.
Qed.

(** *** The construct *)

Lemma validateFrom_app Synth check index pre rest s s1 :
  Construct.validateFrom Synth check index pre s = (inr tt, s1) ->
  Construct.validateFrom Synth check index (pre ++ rest) s
  = Construct.validateFrom Synth check (index + length pre) rest s1.
Proof.
  revert index s. induction pre as [| d pre IH]; intros index s; cbn [Construct.validateFrom app].
  - intros H. injection H as <-. rewrite Nat.add_0_r. reflexivity.
  - destruct (check d s) as [[e | []] s']; [discriminate |].
    intros H. rewrite (IH _ _ H). cbn [length]. f_equal. lia.
Qed.

(** X23. Synthesis checks the definitions in the order given and stops at
    the first that the engine rejects: the error names the index of that
    definition (counted from 0) and carries the message of the engine's
    error, and no later definition is checked. *)
Theorem X23_validate_reports_first_failure Synth check props pre definition post s s1 error s2 :
  Construct.workflowDefinitions props = (pre ++ definition :: post)%list ->
  Construct.validateFrom Synth check 0 pre s = (inr tt, s1) ->
  check definition s1 = (inl error, s2) ->
  Construct.validate Synth check props s
  = (inl (newError ("Invalid workflow definition at index "
                      ++ Construct.decimal (length pre) ++ ": "
                      ++ Construct.errorMessage error)), s2).
Proof.
  intros Hdefinitions Hpre Hcheck. unfold Construct.validate.
  rewrite Hdefinitions, (validateFrom_app _ _ _ _ _ _ _ Hpre).
  cbn [Construct.validateFrom Nat.add]. rewrite Hcheck. reflexivity.
Qed.

Lemma grant_statements action arns st :
  In st (Construct.grant action arns) ->
  Construct.actions st = [action] /\ arns = Some (Construct.resources st) /\
  Construct.resources st <> [].
Proof.
  destruct arns as [[| arn more] |]; cbn; try contradiction.
  intros [<- | []]. cbn. repeat split. discriminate.
Qed.

(** X24. The execution role is granted nothing by default, and otherwise one
    action per kind of resource on exactly the ARNs that the props list for
    it: no statement has an empty resource list, and none names a resource
    that the props do not. *)
Theorem X24_executionPolicy_least_privilege props :
  Forall (fun st =>
            Construct.resources st <> [] /\
            ((Construct.actions st = ["lambda:InvokeFunction"] /\
              Construct.lambdaArns props = Some (Construct.resources st)) \/
             (Construct.actions st = ["sns:Publish"] /\
              Construct.snsTopicArns props = Some (Construct.resources st)) \/
             (Construct.actions st = ["sqs:SendMessage"] /\
              Construct.sqsQueueArns props = Some (Construct.resources st))))
         (Construct.executionPolicy props) /\
  ((Construct.lambdaArns props = None \/ Construct.lambdaArns props = Some []) ->
   (Construct.snsTopicArns props = None \/ Construct.snsTopicArns props = Some []) ->
   (Construct.sqsQueueArns props = None \/ Construct.sqsQueueArns props = Some []) ->
   Construct.executionPolicy props = []).
Proof.
  split.
  - apply Forall_forall. intros st Hin. unfold Construct.executionPolicy in Hin.
    apply in_app_or in Hin. destruct Hin as [Hin | Hin];
      [| apply in_app_or in Hin; destruct Hin as [Hin | Hin]];
      apply grant_statements in Hin; destruct Hin as (Ha & Hr & Hn);
      (split; [exact Hn | tauto]).
  - intros [Hl | Hl] [Hs | Hs] [Hq | Hq]; unfold Construct.executionPolicy;
      rewrite Hl, Hs, Hq; reflexivity.
Qed.

Lemma length_append (a b : string) :
  String.length (a ++ b) = (String.length a + String.length b)%nat.
Proof. induction a as [| x a IH]; cbn; [| rewrite IH]; reflexivity. Qed.

Lemma append_cancel_l (a b c : string) : a ++ b = a ++ c -> b = c.
Proof. induction a as [| x a IH]; cbn; [trivial | intros H; injection H as H; auto]. Qed.

Lemma append_cancel_r (a b c : string) : a ++ c = b ++ c -> a = b.
Proof.
  revert b. induction a as [| x a IH]; intros [| y b]; cbn; intros H.
  - reflexivity.
  - apply (f_equal String.length) in H. cbn in H. rewrite length_append in H. lia.
  - apply (f_equal String.length) in H. cbn in H. rewrite length_append in H. lia.
  - injection H as -> H. rewrite (IH _ H). reflexivity.
Qed.

Lemma combine_map_fst {A B} (l : list A) (l' : list B) :
  length l = length l' -> map fst (combine l l') = l /\ map snd (combine l l') = l'.
Proof.
  revert l'. induction l as [| x l IH]; intros [| y l']; cbn; try discriminate.
  - split; reflexivity.
  - intros H. injection H as H. destruct (IH _ H) as [-> ->]. split; reflexivity.
Qed.

(** X25. Every definition is uploaded once, as it is, under a key of its
    own: the keys handed to the lambda are those of the uploaded objects, in
    the order of the definitions, and they are pairwise distinct when the
    identifiers drawn are. *)
Theorem X25_definitions_uploaded_under_their_keys uuidv4 props :
  let keys := Construct.definitionKeys uuidv4 props in
  let sources := Construct.deploymentSources uuidv4 props in
  map fst sources = keys /\
  map snd sources = Construct.workflowDefinitions props /\
  length keys = length (Construct.workflowDefinitions props) /\
  ((forall i j, (i < length keys)%nat -> (j < length keys)%nat ->
                uuidv4 i = uuidv4 j -> i = j) ->
   NoDup keys).
Proof.
  cbv zeta. unfold Construct.deploymentSources.
  assert (length (Construct.definitionKeys uuidv4 props)
          = length (Construct.workflowDefinitions props)) as Hlength
    by (unfold Construct.definitionKeys; rewrite length_map, length_seq; reflexivity).
  destruct (combine_map_fst _ _ Hlength) as [Hfst Hsnd].
  repeat split; try assumption.
  rewrite Hlength. intros Hdistinct. unfold Construct.definitionKeys.
  apply NoDup_map_NoDup_ForallPairs; [| apply seq_NoDup].
  intros i j Hi Hj Hsame. apply in_seq in Hi, Hj.
  apply append_cancel_l, append_cancel_r in Hsame. apply Hdistinct; [lia | lia | exact Hsame].
Qed.

Section Deployed.

(** The lambda as the construct deploys it: its environment is the one that
    the construct gives it. *)
Context {Remote : Type} `{RT : Runtime Remote}.

Variable uuidv4 : nat -> string.
Variable JSON_stringify : list string -> string.
Variables (bucketName : string) (props : Construct.Props).


Hypothesis Henvironment :
  process_env = Construct.environment uuidv4 JSON_stringify bucketName props.

(** [JSON.parse] reads back the keys that [JSON.stringify] wrote, which is
    never the empty text. *)
Hypothesis Hstringify : JSON_stringify (Construct.definitionKeys uuidv4 props) <> EmptyString.
Hypothesis Hparse : JSON_parse_keys (JSON_stringify (Construct.definitionKeys uuidv4 props)) = inr (Construct.definitionKeys uuidv4 props).

Lemma deployed_keys :
  JSON_parse_keys (orElse (DEFINITION_KEYS_JSON process_env) "[]") = inr (Construct.definitionKeys uuidv4 props).
Proof.
  rewrite Henvironment. cbn [DEFINITION_KEYS_JSON Construct.environment orElse].
  destruct (JSON_stringify (Construct.definitionKeys uuidv4 props)); [contradiction | exact Hparse].
Qed.

Lemma deployed_secret :
  AUTH_SECRET_NAME process_env = Some Construct.secretName /\
  Construct.secretName <> EmptyString.
Proof. rewrite Henvironment. split; [reflexivity | discriminate]. Qed.

Lemma deployed_ignore :
  strictEq (IGNORE_FAILURES process_env) (Some "true")
  = match Construct.ignoreDefinitionDeployerFailures props with
    | Some b => b
    | None => false
    end.
Proof.
  rewrite Henvironment. cbn [IGNORE_FAILURES Construct.environment].
  destruct (Construct.ignoreDefinitionDeployerFailures props) as [[|] |]; reflexivity.
Qed.

(** X26. A stack that has just been created deploys nothing: the secret
    holds the value that the construct gave it, which is the placeholder that
    the lambda looks for under the name that the construct passes on, and the
    invocation ends after that one read, for every request type. *)
Theorem X26_fresh_stack_deploys_nothing event r r1 :
  bucketName <> EmptyString ->
  Construct.organizationId props <> EmptyString ->
  secrets_getSecretValue Construct.secretName r
  = (inr (Some Construct.initialSecretValue), r1) ->
  handler event r
  = mkRun (Returned (skippedResponse (RequestType event))) r1
          [GetSecretValue Construct.secretName].
Proof.
  intros Hbucket Horganization Hsecret.
  rewrite (handler_configured event (Construct.definitionKeys uuidv4 props) bucketName (Construct.organizationId props)
             Construct.secretName deployed_keys).
  - rewrite (bind_returned _ _ _ _ _ _ (request_returned _ _ _ _ _ Hsecret)).
    reflexivity.
  - rewrite Henvironment. split; [reflexivity | exact Hbucket].
  - rewrite Henvironment. split; [reflexivity | exact Horganization].
  - exact deployed_secret.
Qed.

(** X27. Once the secret holds a real token, a Create or an Update
    reconciles exactly the keys under which the construct uploaded the
    definitions, from the construct's bucket and under the organization of
    the props; and a failure of the reconciler is contained exactly when the
    props ask for it. *)
Theorem X27_deployed_lambda_reconciles_the_uploads event r token r1 :
  bucketName <> EmptyString ->
  Construct.organizationId props <> EmptyString ->
  secrets_getSecretValue Construct.secretName r = (inr token, r1) ->
  token <> Some Construct.initialSecretValue ->
  RequestType event <> Delete ->
  let deployed :=
    deployWorkflows (Construct.organizationId props) bucketName
                    (Construct.definitionKeys uuidv4 props) r1 in
  let run := handler event r in
  calls run = GetSecretValue Construct.secretName :: calls deployed /\
  final run = final deployed /\
  outcome run
  = match outcome deployed with
    | Returned _ => Returned (ranResponse (RequestType event))
    | Threw error =>
        match Construct.ignoreDefinitionDeployerFailures props with
        | Some true => Returned (ignoredResponse (RequestType event) error)
        | _ => Threw error
        end
    end.
Proof.
  intros Hbucket Horganization Hsecret Hreal Hrequest. cbv zeta.
  rewrite (handler_configured event (Construct.definitionKeys uuidv4 props) bucketName (Construct.organizationId props)
             Construct.secretName deployed_keys).
  2: { rewrite Henvironment. split; [reflexivity | exact Hbucket]. }
  2: { rewrite Henvironment. split; [reflexivity | exact Horganization]. }
  2: { exact deployed_secret. }
  rewrite (bind_returned _ _ _ _ _ _ (request_returned _ _ _ _ _ Hsecret)).
  destruct (strictEq token (Some PLACEHOLDER_TOKEN)) eqn:Heq;
    [apply strictEq_true in Heq; contradiction |].
  rewrite dispatch_run, deployed_ignore.
  destruct (RequestType event); [| | contradiction]; cbn [outcome final calls app];
    (repeat split;
     destruct (outcome (deployWorkflows _ _ _ _)) as [[] | error]; [reflexivity |];
     destruct (Construct.ignoreDefinitionDeployerFailures props) as [[|] |]; reflexivity).
Qed.

(** X28. The construct does not check the organization id: with an empty
    one, every invocation of the lambda that it deploys fails before any
    remote call, for every request type. *)
Theorem X28_empty_organization_fails_every_invocation event r :
  bucketName <> EmptyString ->
  Construct.organizationId props = EmptyString ->
  handler event r
  = mkRun (Threw (newError "Missing organization ID from environment variables")) r [].
Proof.
  intros Hbucket Horganization. unfold handler. rewrite deployed_keys.
  cbn [lift]. rewrite bind_ret_l, Henvironment.
  cbn [DEFINITION_BUCKET ORGANIZATION_ID Construct.environment].
  rewrite Horganization.
  destruct bucketName; [contradiction |]. reflexivity.
Qed.


End Deployed.

(** ** The further properties on the in-memory world *)


(** The same run: its waits are 1000 and 2000. *)
Lemma X2_witness :
  delays (calls (registerWorkflowVersionWithRetry (RT := Demo.unavailableRegistry)
                   Demo.billingPayload (JStr "billing") Demo.start))
  = backoff (Z.max 0 1000) 0
      (attempts (calls (registerWorkflowVersionWithRetry (RT := Demo.unavailableRegistry)
                          Demo.billingPayload (JStr "billing") Demo.start)) - 1).
Proof.
  unshelve epose proof
    (X2_retry_backoff_schedule (RT := Demo.unavailableRegistry) 3 1000 Demo.billingPayload
       (JStr "billing") Demo.start _ _ _) as H;
    [vm_compute; reflexivity | vm_compute; reflexivity | vm_compute; discriminate | ].
  exact (proj1 H).
Defined.

(** No attempt configured, against a registry that answers 503: one attempt,
    whose error is thrown. *)
Lemma X3_witness :
  calls (registerWorkflowVersionWithRetry (RT := Fixtures.singleAttempt)
           Demo.billingPayload (JStr "billing") Demo.start)
  = [RegisterWorkflowVersion Demo.billingPayload] /\
  outcome (registerWorkflowVersionWithRetry (RT := Fixtures.singleAttempt)
             Demo.billingPayload (JStr "billing") Demo.start)
  = Threw Demo.unavailable.
Proof.
  unshelve epose proof
    (X3_retry_single_attempt (RT := Fixtures.singleAttempt) Demo.billingPayload (JStr "billing")
       Demo.start _) as H;
    [vm_compute; discriminate | ].
  exact H.
Defined.

(** The key [a.json], deployed from scratch. *)
Lemma X6_witness :
  exists wfId n,
    registrations (calls (deployKey (RT := Demo.plain) "org-1" "definitions-bucket" "a.json"
                            Demo.start))
    = repeat (mkRegisterWorkflowVersionInput "org-1" wfId Demo.billingText) n.
Proof.
  apply (X6_deployKey_registers_the_text (RT := Demo.plain) "org-1" "definitions-bucket" "a.json"
           Demo.start Demo.billingText Demo.start).
  vm_compute. reflexivity.
Defined.

(** The same key: after the fetch, the listing and the creation of the
    workflow, its version is registered. *)
Lemma X7_witness :
  exists more,
    calls (deployKey (RT := Demo.plain) "org-1" "definitions-bucket" "a.json" Demo.start)
    = ([GetObject "definitions-bucket" "a.json"]
         ++ [ListWorkflows "org-1"; RegisterWorkflow "org-1" (JStr "billing")]
         ++ RegisterWorkflowVersion Demo.billingPayload :: more)%list.
Proof.
  apply (X7_deployKey_always_registers (RT := Demo.plain) "org-1" "definitions-bucket" "a.json"
           Demo.start Demo.billingText (JStr "billing") Demo.start
           [GetObject "definitions-bucket" "a.json"] "wf-billing" Demo.billingCreated
           [ListWorkflows "org-1"; RegisterWorkflow "org-1" (JStr "billing")]);
    vm_compute; reflexivity.
Defined.

(** A workflow named 5 in an organization that lists a workflow. *)
Lemma X8_witness :
  deployWorkflows (RT := Demo.plain) "org-1" "definitions-bucket" ("a.json" :: ["c.json"])
    Fixtures.numberedListed
  = mkRun (Threw typeErrorNotAFunction) Fixtures.numberedListed
          [GetObject "definitions-bucket" "a.json"; ListWorkflows "org-1"].
Proof.
  apply (X8_nonstring_name_throws (RT := Demo.plain) "org-1" "definitions-bucket" "a.json"
           ["c.json"] Fixtures.numberedListed Demo.definitionNumbered Fixtures.numberedListed
           (JObj [("workflowName", JNum 5)]) (JNum 5) [mkWorkflow "wf-77" "Billing"]
           Fixtures.numberedListed);
    first [ vm_compute; reflexivity | discriminate ].
Defined.

(** A 500 whose message quotes the tag is taken for the absence of a live
    version. *)
Lemma X9_witness :
  readLiveVersion (RT := Fixtures.liveReadConfused) "org-1" "wf-billing" Demo.billingCreated
  = mkRun (Returned None) Demo.billingCreated
          [GetTaggedWorkflowVersion "org-1" "wf-billing" LIVE].
Proof.
  apply (X9_message_alone_means_no_live_version (RT := Fixtures.liveReadConfused)
           "org-1" "wf-billing" Demo.billingCreated Fixtures.confused Demo.billingCreated
           "Upstream timeout: " " $LIVE could be read" "No version tagged");
    [reflexivity | left; reflexivity | vm_compute; reflexivity].
Defined.

(** The response to a Delete. *)
Lemma X11_witness :
  PhysicalResourceId (ranResponse Delete) = PHYSICAL_RESOURCE_ID.
Proof.
  apply (X11_handler_physical_resource_id (RT := Demo.configured None) (mkEvent Delete)
           Demo.start (ranResponse Delete)).
  vm_compute. reflexivity.
Defined.

(** A Create over the three keys. *)
Lemma X12_witness :
  calls (handler (RT := Demo.configured None) (mkEvent Create) Demo.start)
  = GetSecretValue "/justworkflowit/api/authToken"
      :: calls (deployWorkflows (RT := Demo.configured None) "org-1" "definitions-bucket"
                  ["a.json"; "b.json"; "c.json"] Demo.start) /\
  final (handler (RT := Demo.configured None) (mkEvent Create) Demo.start)
  = final (deployWorkflows (RT := Demo.configured None) "org-1" "definitions-bucket"
             ["a.json"; "b.json"; "c.json"] Demo.start) /\
  (outcome (deployWorkflows (RT := Demo.configured None) "org-1" "definitions-bucket"
              ["a.json"; "b.json"; "c.json"] Demo.start) = Returned tt ->
   outcome (handler (RT := Demo.configured None) (mkEvent Create) Demo.start)
   = Returned (ranResponse Create)).
Proof.
  unshelve epose proof
    (X12_handler_runs_the_reconciler (RT := Demo.configured None) (mkEvent Create)
       ["a.json"; "b.json"; "c.json"] "definitions-bucket" "org-1"
       "/justworkflowit/api/authToken" Demo.start (Some "real-token") Demo.start
       _ _ _ _ _ _) as H;
    [evaluated .. | ].
  exact H.
Defined.

(** A Create over the three keys, the second of which fails, with
    [IGNORE_FAILURES] set. *)
Lemma X13_witness :
  exists response,
    outcome (handler (RT := Demo.configured (Some "true")) (mkEvent Create) Demo.start)
    = Returned response.
Proof.
  unshelve epose proof
    (X13_ignored_failures_never_throw (RT := Demo.configured (Some "true")) (mkEvent Create)
       ["a.json"; "b.json"; "c.json"] "definitions-bucket" "org-1"
       "/justworkflowit/api/authToken" Demo.start (Some "real-token") Demo.start
       _ _ _ _ _ _ _) as H;
    [evaluated .. | ].
  exact H.
Defined.

(** A Create whose read of the credential is refused. *)
Lemma X14_witness :
  handler (RT := Demo.secretDenied) (mkEvent Create) Demo.start
  = mkRun (Threw Demo.accessDenied) Demo.start [GetSecretValue "/justworkflowit/api/authToken"].
Proof.
  unshelve epose proof
    (X14_unreadable_secret_is_fatal (RT := Demo.secretDenied) (mkEvent Create)
       ["a.json"; "b.json"; "c.json"] "definitions-bucket" "org-1"
       "/justworkflowit/api/authToken" Demo.start Demo.accessDenied Demo.start
       _ _ _ _ _) as H;
    [evaluated .. | ].
  exact H.
Defined.

(** The token of the in-memory secret store. *)
Lemma X15_witness :
  "real-token" <> EmptyString /\
  exists secretName,
    AUTH_SECRET_NAME (process_env (Runtime := Demo.plain)) = Some secretName /\
    getAccessToken (RT := Demo.plain) Demo.start
    = mkRun (Returned "real-token")
            (snd (secrets_getSecretValue (Runtime := Demo.plain) secretName Demo.start))
            [GetSecretValue secretName] /\
    fst (secrets_getSecretValue (Runtime := Demo.plain) secretName Demo.start)
    = inr (Some "real-token").
Proof.
  apply (X15_getAccessToken_nonempty (RT := Demo.plain) Demo.start "real-token").
  vm_compute. reflexivity.
Defined.

(** A request that carries a stale token. *)
Lemma X16_witness :
  exists token,
    outcome (getAccessToken (RT := Demo.plain) Demo.start) = Returned token /\
    token <> EmptyString /\
    getProperty "Authorization" (headers Fixtures.signedRequest) = Some ("Bearer " ++ token) /\
    (forall other, other <> "Authorization" ->
                   getProperty other (headers Fixtures.signedRequest)
                   = getProperty other (headers Fixtures.staleRequest)) /\
    map fst (headers Fixtures.signedRequest) = map fst (headers Fixtures.staleRequest) /\
    body Fixtures.signedRequest = body Fixtures.staleRequest.
Proof.
  apply (X16_sign_sets_the_bearer (RT := Demo.plain) Fixtures.staleRequest Demo.start
           Fixtures.signedRequest).
  vm_compute. reflexivity.
Defined.

(** Three attempts configured, and a 503 of a type that the client does not
    export: one attempt. *)
Lemma X17_witness :
  registerWorkflowVersionWithRetry (RT := Fixtures.throttledClient)
    Demo.billingPayload (JStr "billing") Demo.start
  = mkRun (Threw (newError "Slow down")) Demo.start
          [RegisterWorkflowVersion Demo.billingPayload].
Proof.
  unshelve epose proof
    (X17_unregistered_errors_are_not_retried Fixtures.clientModule Fixtures.objectPrototype
       Fixtures.throttledRegistry Demo.billingPayload (JStr "billing") Demo.start
       Fixtures.throttled Demo.start _ _) as H;
    [reflexivity | right; right; exists "ThrottlingException"; split; reflexivity | ].
  exact (proj1 H).
Defined.

(** A 404 of a type that the client does not export, whose message says
    that no version is tagged. *)
Lemma X18_witness :
  readLiveVersion
    (RT := getApiClient Fixtures.clientModule Fixtures.objectPrototype
             Fixtures.liveReadMissing)
    "org-1" "wf-billing" Demo.billingCreated
  = mkRun (Returned None) Demo.billingCreated
          [GetTaggedWorkflowVersion "org-1" "wf-billing" LIVE].
Proof.
  unshelve epose proof
    (X18_unregistered_not_found_by_message Fixtures.clientModule Fixtures.objectPrototype
       Fixtures.liveReadMissing "org-1" "wf-billing" Demo.billingCreated
       Fixtures.notFoundException Demo.billingCreated _ _) as H;
    [reflexivity | right; right; exists "ResourceNotFoundException"; split; reflexivity | ].
  exact H.
Defined.

(** A 404 of a type that the client exports stays final. *)
Lemma X20_witness :
  shouldRetryRegister
    (deserializeSmithyError Fixtures.clientModule Fixtures.objectPrototype
       (ThrownObject Fixtures.notFoundObject))
  = shouldRetryRegister (ThrownObject Fixtures.notFoundObject).
Proof.
  apply (X20_rehydration_keeps_retry_decision Fixtures.clientModule Fixtures.objectPrototype
           Fixtures.notFoundObject "NotFoundError" Fixtures.apiError);
    [reflexivity | discriminate | reflexivity |].
  intros args. eexists. repeat split.
Defined.

(** Three definitions, the second of which is not JSON. *)
Lemma X23_witness :
  Construct.validate nat Fixtures.check Fixtures.invalidProps 0%nat
  = (inl (newError ("Invalid workflow definition at index "
                      ++ Construct.decimal (length [Demo.billingText]) ++ ": "
                      ++ Construct.errorMessage Demo.syntaxError)), 1%nat).
Proof.
  apply (X23_validate_reports_first_failure nat Fixtures.check Fixtures.invalidProps
           [Demo.billingText] "not json" [Demo.definitionNamed "orders"] 0%nat 1%nat
           Demo.syntaxError 1%nat);
    vm_compute; reflexivity.
Defined.

(** An Update of a stack that has just been created. *)
Lemma X26_witness :
  handler (RT := Fixtures.deployed "org-1" Demo.noFaults) (mkEvent Update) Fixtures.fresh
  = mkRun (Returned (skippedResponse Update)) Fixtures.fresh
          [GetSecretValue Construct.secretName].
Proof.
  unshelve epose proof
    (X26_fresh_stack_deploys_nothing (RT := Fixtures.deployed "org-1" Demo.noFaults)
       Fixtures.uuid Fixtures.stringify "definitions-bucket" (Fixtures.props "org-1")
       _ _ _ (mkEvent Update) Fixtures.fresh Fixtures.fresh _ _ _) as H;
    [evaluated .. | ].
  exact H.
Defined.

(** A Create once the secret holds a token. *)
Lemma X27_witness :
  calls (handler (RT := Fixtures.deployed "org-1" Demo.noFaults) (mkEvent Create)
           Fixtures.uploaded)
  = GetSecretValue Construct.secretName
      :: calls (deployWorkflows (RT := Fixtures.deployed "org-1" Demo.noFaults) "org-1"
                  "definitions-bucket" Fixtures.uploadedKeys Fixtures.uploaded).
Proof.
  unshelve epose proof
    (X27_deployed_lambda_reconciles_the_uploads (RT := Fixtures.deployed "org-1" Demo.noFaults)
       Fixtures.uuid Fixtures.stringify "definitions-bucket" (Fixtures.props "org-1")
       _ _ _ (mkEvent Create) Fixtures.uploaded (Some "real-token") Fixtures.uploaded
       _ _ _ _ _) as H;
    [evaluated .. | ].
  exact (proj1 H).
Defined.

(** A Delete on a stack whose props give no organization id. *)
Lemma X28_witness :
  handler (RT := Fixtures.deployed EmptyString Demo.noFaults) (mkEvent Delete) Fixtures.uploaded
  = mkRun (Threw (newError "Missing organization ID from environment variables"))
          Fixtures.uploaded [].
Proof.
  unshelve epose proof
    (X28_empty_organization_fails_every_invocation
       (RT := Fixtures.deployed EmptyString Demo.noFaults)
       Fixtures.uuid Fixtures.stringify "definitions-bucket" (Fixtures.props EmptyString)
       _ _ _ (mkEvent Delete) Fixtures.uploaded _ _) as H;
    [evaluated .. | ].
  exact H.
Defined.

